(** * YoutubeCommentAnalyzer: the comment analysis pipeline

    A shallow embedding of [backend/comment_analyzer.py] (class
    [CommentAnalyzer]) and of the keyword endpoint of [backend/main.py],
    followed by the properties of the pipeline.

    Conventions of the embedding.
    - A Python [str] is a list of characters; a character is a code point
      below 256 (the type [ascii]), classified as Python's Unicode database
      classifies it ([str.isspace], [str.isalpha], [str.isupper], [\w], ...).
    - A Python [float] is an exact rational ([Q]); [round(x, n)] is the
      decimal with [n] fractional digits nearest to [x], given by its
      numerator over [10^n]: a percentage [50.0] is [5000] hundredths.
      The quotients of the source are quotients of two integers, which a
      double holds to a relative error of [2^-52]. Where the exact quotient
      lies half-way between two decimals the double can lie on either side
      of it, and the source rounds where the double lies ([23 / 160 * 100]
      gives [14.37]) while the model rounds to even; the properties below
      only state that a rounded value is a nearest decimal of the exact
      quotient, which holds of both, or are about quotients that are exact
      ([0.0], [50.0]).
    - An operation that can raise ([/], [max], [min], indexing) returns a
      [result]; an optional dependency is an [option], and a call the source
      wraps in [try] returns [None] when it raises. *)

From Stdlib Require Import Ascii String.
From Stdlib Require Import List Bool Arith ZArith QArith Qabs Lia Lqa.
From Stdlib Require Import Permutation Sorted.
Import ListNotations.

Local Close Scope Q_scope.
Local Open Scope Z_scope.
Local Open Scope nat_scope.
Local Open Scope bool_scope.
Local Open Scope list_scope.

(** ** Python strings *)

Module Py.

Definition pystr := list ascii.

Definition str (s : string) : pystr := list_ascii_of_string s.

Definition ord (c : ascii) : nat := nat_of_ascii c.

Definition chr (n : nat) : ascii := ascii_of_nat n.

Definition between (lo hi : nat) (c : ascii) : bool :=
  (lo <=? ord c) && (ord c <=? hi).

Definition at_code (n : nat) (c : ascii) : bool := ord c =? n.

(** [Py_UNICODE_ISSPACE]: what [str.strip], [str.split] and [\s] test. *)
Definition isspace (c : ascii) : bool :=
  between 9 13 c || between 28 32 c || at_code 133 c || at_code 160 c.

Definition char_isupper (c : ascii) : bool :=
  between 65 90 c || between 192 214 c || between 216 222 c.

Definition char_islower (c : ascii) : bool :=
  between 97 122 c || at_code 170 c || at_code 181 c || at_code 186 c
  || between 223 246 c || between 248 255 c.

Definition char_isalpha (c : ascii) : bool :=
  between 65 90 c || between 97 122 c || at_code 170 c || at_code 181 c || at_code 186 c
  || between 192 214 c || between 216 246 c || between 248 255 c.

(** decimal digits, other digits (superscripts) and numerics (fractions) *)
Definition char_isnumeric (c : ascii) : bool :=
  between 48 57 c || between 178 179 c || at_code 185 c || between 188 190 c.

Definition char_isalnum (c : ascii) : bool :=
  char_isalpha c || char_isnumeric c.

(** [\w] of a [str] pattern: alphanumeric or the underscore. *)
Definition is_word (c : ascii) : bool := char_isalnum c || at_code 95 c.

(** [str.lower] on one character. Below 256 it maps a character to one
    character, and the upper-case letters are the characters it changes;
    neither holds of every code point beyond ([U+0130] becomes two
    characters, and [U+1D400] is upper-case and is left as it is). The
    general properties below use of it only that lower-casing twice is
    lower-casing once. *)
Definition char_lower (c : ascii) : ascii :=
  if char_isupper c then chr (ord c + 32) else c.

Definition lower (s : pystr) : pystr := map char_lower s.

(** [str.isupper]: no lower-case character and at least one upper-case one. *)
Fixpoint isupper_loop (cased : bool) (s : pystr) : bool :=
  match s with
  | [] => cased
  | c :: s' =>
      if char_islower c then false
      else isupper_loop (cased || char_isupper c) s'
  end.

Definition isupper (s : pystr) : bool := isupper_loop false s.

(** [str.isalpha]: non-empty and every character alphabetic. *)
Definition isalpha (s : pystr) : bool :=
  match s with
  | [] => false
  | _ => forallb char_isalpha s
  end.

Fixpoint lstrip (s : pystr) : pystr :=
  match s with
  | [] => []
  | c :: s' => if isspace c then lstrip s' else s
  end.

Definition rstrip (s : pystr) : pystr := rev (lstrip (rev s)).

Definition strip (s : pystr) : pystr := rstrip (lstrip s).

(** [s.split()]: the maximal runs of non-whitespace characters.
    [word] is the run being read, last character first. *)
Fixpoint split_loop (word : pystr) (s : pystr) : list pystr :=
  match s with
  | [] => match word with [] => [] | _ => [rev word] end
  | c :: s' =>
      if isspace c then
        match word with
        | [] => split_loop [] s'
        | _ => rev word :: split_loop [] s'
        end
      else split_loop (c :: word) s'
  end.

Definition split (s : pystr) : list pystr := split_loop [] s.

(** [sep.join(l)] *)
Fixpoint join (sep : pystr) (l : list pystr) : pystr :=
  match l with
  | [] => []
  | [w] => w
  | w :: l' => w ++ sep ++ join sep l'
  end.

Fixpoint startswith (p s : pystr) : bool :=
  match p, s with
  | [], _ => true
  | _ :: _, [] => false
  | a :: p', b :: s' => Ascii.eqb a b && startswith p' s'
  end.

(** [needle in hay] *)
Fixpoint contains (needle hay : pystr) : bool :=
  startswith needle hay
  || match hay with
     | [] => false
     | _ :: hay' => contains needle hay'
     end.

Fixpoint str_eqb (s t : pystr) : bool :=
  match s, t with
  | [], [] => true
  | a :: s', b :: t' => Ascii.eqb a b && str_eqb s' t'
  | _, _ => false
  end.

(** [x in l] for a list or set of strings *)
Definition mem (x : pystr) (l : list pystr) : bool := existsb (str_eqb x) l.

(** [len(set(s))] *)
Definition distinct_chars (s : pystr) : nat := length (nodup ascii_dec s).

(** [s[:n]] *)
Definition prefix (n : nat) (s : pystr) : pystr := firstn n s.

(** *** Exceptions *)

Inductive exn : Set := ZeroDivisionError | ValueError | IndexError.

Inductive result (A : Type) : Type :=
| Ok (a : A)
| Raise (e : exn).

Arguments Ok {A} a.
Arguments Raise {A} e.

Definition bind {A B : Type} (c : result A) (k : A -> result B) : result B :=
  match c with
  | Ok a => k a
  | Raise e => Raise e
  end.

Definition returns {A : Type} (c : result A) : Prop := exists a, c = Ok a.

(** *** Numbers *)

(** [a / b] on integers (true division). *)
Definition truediv (a b : Z) : result Q :=
  match b with
  | Z0 => Raise ZeroDivisionError
  | Zpos p => Ok (Qmake a p)
  | Zneg p => Ok (Qmake (- a) p)
  end.

(** [x / n] of a float by an integer *)
Definition fdiv (x : Q) (n : Z) : result Q :=
  match n with
  | Z0 => Raise ZeroDivisionError
  | _ => Ok (Qdiv x (inject_Z n))
  end.

(** The integer nearest to [num / den] for [0 < den], ties to even. *)
Definition round_half_even (num den : Z) : Z :=
  let q := (num / den)%Z in
  let r := (num mod den)%Z in
  if (2 * r <? den)%Z then q
  else if (den <? 2 * r)%Z then (q + 1)%Z
  else if Z.even q then q else (q + 1)%Z.

(** [round(x, n)], as the numerator of the result over [10^n]. *)
Definition round (x : Q) (n : nat) : Z :=
  round_half_even (Qnum x * 10 ^ Z.of_nat n) (Zpos (Qden x)).

(** [round(k, n)] for an integer [k] and [0 <= n] is [k]. *)
Definition round_int (k : nat) (n : nat) : nat := k.

Definition sum (l : list nat) : nat := fold_right Nat.add 0 l.

Definition sumQ (l : list Q) : Q := fold_right Qplus (Qmake 0 1) l.

(** [max(l)] and [min(l)] raise [ValueError] on an empty list. *)
Definition max (l : list nat) : result nat :=
  match l with
  | [] => Raise ValueError
  | x :: l' => Ok (fold_left Nat.max l' x)
  end.

Definition min (l : list nat) : result nat :=
  match l with
  | [] => Raise ValueError
  | x :: l' => Ok (fold_left Nat.min l' x)
  end.

(** [l[i]] *)
Definition getitem {A : Type} (l : list A) (i : nat) : result A :=
  match nth_error l i with
  | Some x => Ok x
  | None => Raise IndexError
  end.

(** *** Sorting

    [sorted] is stable: an element is put in front of the first one that
    does not have to precede it, and the list is built from its end. *)
Section Sorting.
Context {A : Type} (before : A -> A -> bool).

Fixpoint insert (x : A) (l : list A) : list A :=
  match l with
  | [] => [x]
  | y :: l' => if before x y then x :: l else y :: insert x l'
  end.

Definition sorted_by (l : list A) : list A := fold_right insert [] l.
End Sorting.

(** [sorted(l)] on integers *)
Definition sorted (l : list nat) : list nat := sorted_by Nat.leb l.

(** *** [collections.Counter]

    The items of a counter, in the order in which the keys were first
    seen (the order of a [dict]). *)
Definition counter := list (pystr * nat).

Fixpoint counter_incr (k : pystr) (m : counter) : counter :=
  match m with
  | [] => [(k, 1)]
  | (k', n) :: m' =>
      if str_eqb k k' then (k', S n) :: m' else (k', n) :: counter_incr k m'
  end.

Definition Counter (l : list pystr) : counter :=
  fold_left (fun m k => counter_incr k m) l [].

(** [m.get(k)] of a key that may be absent, with [0] for absent:
    what [Counter.__getitem__] answers. *)
Fixpoint count_of (k : pystr) (m : counter) : nat :=
  match m with
  | [] => 0
  | (k', n) :: m' => if str_eqb k k' then n else count_of k m'
  end.

(** [max(m, key=m.get)]: the first key with the largest count. *)
Fixpoint first_max (best : pystr * nat) (m : counter) : pystr :=
  match m with
  | [] => fst best
  | (k, n) :: m' => first_max (if snd best <? n then (k, n) else best) m'
  end.

Definition max_key (m : counter) : result pystr :=
  match m with
  | [] => Raise ValueError
  | kn :: m' => Ok (first_max kn m')
  end.

(** [m.most_common(n)]: the [n] items with the largest counts, largest
    first, items with equal counts in the order first seen; empty for
    [n <= 0]. *)
Definition most_common (m : counter) (n : Z) : counter :=
  firstn (Z.to_nat n) (sorted_by (fun x y => snd y <=? snd x) m).

End Py.

Import Py.

Notation "x <- c ;; k" := (bind c (fun x => k))
  (at level 61, c at next level, right associativity).

(** ** [CommentAnalyzer] *)

(** The optional dependencies, as the module finds them at import, and the
    two fields [__init__] computes from them. A classifier that is loaded
    is a function; [None] as its answer is a call that raised. *)
Record CommentAnalyzer : Type := {
  (** the [transformers] sentiment pipeline: label and score *)
  sentiment_analyzer : option (pystr -> option (pystr * Q));
  (** the [transformers] emotion pipeline: label *)
  emotion_analyzer : option (pystr -> option pystr);
  (** [HAS_TEXTBLOB] and [TextBlob(comment).sentiment.polarity] *)
  textblob : option (pystr -> option Q);
  (** [HAS_NLTK] and [word_tokenize] *)
  word_tokenize : option (pystr -> list pystr);
  (** [HAS_WORDCLOUD] and the rendering of a text to a base64 PNG *)
  wordcloud_renderer : option (pystr -> option pystr);
  (** [self.stop_words] *)
  stop_words : list pystr
}.

(** [self.toxic_keywords] *)
Definition toxic_keywords : list pystr :=
  map str ["hate"; "stupid"; "idiot"; "dumb"; "trash"; "garbage"; "terrible";
           "awful"; "worst"; "suck"; "sucks"; "damn"; "hell"; "shut up"]%string.

(** The stop words [__init__] falls back to without NLTK. *)
Definition fallback_stop_words : list pystr :=
  map str ["the"; "a"; "an"; "and"; "or"; "but"; "in"; "on"; "at"; "to";
           "for"; "of"; "with"; "by"]%string.

(** The analyzer with no optional dependency installed. *)
Definition heuristic_only : CommentAnalyzer :=
  {| sentiment_analyzer := None; emotion_analyzer := None; textblob := None;
     word_tokenize := None; wordcloud_renderer := None;
     stop_words := fallback_stop_words |}.

(** *** [clean_text] *)

(** The alternatives of the URL pattern's repeated group, in order:
    [[a-zA-Z]], [[0-9]], [[$-_@.&+]], [[!*\\(\\),]] and [%XX]. *)
Definition url_letter (c : ascii) : bool := between 97 122 c || between 65 90 c.

Definition url_digit (c : ascii) : bool := between 48 57 c.

Definition url_punct (c : ascii) : bool :=
  between 36 95 c || at_code 64 c || at_code 46 c || at_code 38 c || at_code 43 c.

Definition url_escaped (c : ascii) : bool :=
  at_code 33 c || at_code 42 c || at_code 92 c || at_code 40 c
  || at_code 41 c || at_code 44 c.

Definition hex_digit (c : ascii) : bool :=
  between 48 57 c || between 97 102 c || between 65 70 c.

(** One round of the group: what is left of [s] behind it. *)
Definition url_group (s : pystr) : option pystr :=
  match s with
  | [] => None
  | c :: s' =>
      if url_letter c || url_digit c || url_punct c || url_escaped c then Some s'
      else
        match s' with
        | h1 :: h2 :: s'' =>
            if at_code 37 c && hex_digit h1 && hex_digit h2 then Some s'' else None
        | _ => None
        end
  end.

(** The greedy repetition of the group. Every round takes a character, so
    the length of the string is fuel enough ([url_groups_maximal]). *)
Fixpoint url_groups (fuel : nat) (s : pystr) : pystr :=
  match fuel with
  | O => s
  | S fuel' =>
      match url_group s with
      | Some s' => url_groups fuel' s'
      | None => s
      end
  end.

(** [://] and at least one round of the group *)
Definition url_tail (s : pystr) : option pystr :=
  if startswith (str "://") s then
    match url_group (skipn 3 s) with
    | Some s' => Some (url_groups (length s') s')
    | None => None
    end
  else None.

(** A match of the URL pattern at the head of [s]: what is left behind it.
    [[s]?] is tried with the [s] first. *)
Definition url_match (s : pystr) : option pystr :=
  if startswith (str "http") s then
    let s1 := skipn 4 s in
    let with_s :=
      match s1 with
      | c :: s2 => if at_code 115 c then url_tail s2 else None
      | [] => None
      end in
    match with_s with
    | Some rest => Some rest
    | None => url_tail s1
    end
  else None.

(** [re.sub(url_pattern, '', text)]: the matches are dropped from left to
    right, and the search goes on behind each match. The length of the
    string is fuel enough ([remove_urls_fuel]). *)
Fixpoint remove_urls_loop (fuel : nat) (s : pystr) : pystr :=
  match fuel with
  | O => s
  | S fuel' =>
      match s with
      | [] => []
      | c :: s' =>
          match url_match s with
          | Some rest => remove_urls_loop fuel' rest
          | None => c :: remove_urls_loop fuel' s'
          end
      end
  end.

Definition remove_urls (s : pystr) : pystr := remove_urls_loop (length s) s.

(** The characters [[\w\s!?.,]] keeps. *)
Definition kept_char (c : ascii) : bool :=
  is_word c || isspace c
  || at_code 33 c || at_code 63 c || at_code 46 c || at_code 44 c.

Definition remove_special (s : pystr) : pystr := filter kept_char s.

Definition clean_text (text : pystr) : pystr :=
  match text with
  | [] => []
  | _ =>
      let text := remove_urls text in
      let text := remove_special text in
      let text := join (str " ") (split text) in
      strip text
  end.

(** A result dictionary: [{"error": message}] or the full record. *)
Inductive dict (R : Type) : Type :=
| Error (error : pystr)
| Fields (fields : R).

Arguments Error {R} error.
Arguments Fields {R} fields.

(** [sum(1 for x in l if p(x))] *)
Definition count_if {A : Type} (p : A -> bool) (l : list A) : nat :=
  length (filter p l).

(** [{label: round((count / total) * 100, 2) for label, count in m.items()}] *)
Fixpoint percentages (m : counter) (total : nat) : result (list (pystr * Z)) :=
  match m with
  | [] => Ok []
  | (label, count) :: m' =>
      q <- truediv (Z.of_nat count) (Z.of_nat total) ;;
      rest <- percentages m' total ;;
      Ok ((label, round (Qmult q (inject_Z 100)) 2) :: rest)
  end.

(** [round((count / total) * 100, 2)] *)
Definition percentage (count total : nat) : result Z :=
  q <- truediv (Z.of_nat count) (Z.of_nat total) ;;
  Ok (round (Qmult q (inject_Z 100)) 2).

(** *** [analyze_sentiment] *)

Record SentimentAnalysis : Type := {
  sentiment_total_comments : nat;
  sentiment_distribution : counter;
  sentiment_percentages : list (pystr * Z);
  average_sentiment_score : Z;
  overall_sentiment : pystr
}.

Definition positive_words : list pystr :=
  map str ["good"; "great"; "amazing"; "awesome"; "love"; "like"; "best";
           "excellent"]%string.

Definition negative_words : list pystr :=
  map str ["bad"; "terrible"; "awful"; "hate"; "worst"; "sucks";
           "horrible"]%string.

(** The transformers pipeline on [comment[:512]], when it is loaded and
    does not raise. *)
Definition transformers_sentiment (self : CommentAnalyzer) (comment : pystr)
  : option (pystr * Q) :=
  match sentiment_analyzer self with
  | Some classify => classify (prefix 512 comment)
  | None => None
  end.

(** TextBlob's polarity against the thresholds [0.1] and [-0.1]. *)
Definition textblob_sentiment (self : CommentAnalyzer) (comment : pystr)
  : option (pystr * Q) :=
  match textblob self with
  | Some polarity_of =>
      match polarity_of comment with
      | Some polarity =>
          if negb (Qle_bool polarity (Qmake 1 10)) then
            Some (str "POSITIVE", polarity)
          else if negb (Qle_bool (Qmake (-1) 10) polarity) then
            Some (str "NEGATIVE", Qabs polarity)
          else Some (str "NEUTRAL", Qmake 1 2)
      | None => None
      end
  | None => None
  end.

Definition rule_based_sentiment (comment : pystr) : pystr * Q :=
  let comment_lower := lower comment in
  let pos_count := count_if (fun word => contains word comment_lower) positive_words in
  let neg_count := count_if (fun word => contains word comment_lower) negative_words in
  if neg_count <? pos_count then (str "POSITIVE", Qmake 7 10)
  else if pos_count <? neg_count then (str "NEGATIVE", Qmake 7 10)
  else (str "NEUTRAL", Qmake 1 2).

(** One round of the loop: [None] when the comment is skipped. *)
Definition sentiment_of (self : CommentAnalyzer) (comment : pystr)
  : option (pystr * Q) :=
  if length (strip comment) <? 3 then None
  else
    match transformers_sentiment self comment with
    | Some r => Some r
    | None =>
        match textblob_sentiment self comment with
        | Some r => Some r
        | None => Some (rule_based_sentiment comment)
        end
    end.

(** The loop: the lists [sentiments] and [sentiment_scores]. *)
Fixpoint sentiment_loop (self : CommentAnalyzer) (comments : list pystr)
  : list pystr * list Q :=
  match comments with
  | [] => ([], [])
  | comment :: rest =>
      let '(sentiments, sentiment_scores) := sentiment_loop self rest in
      match sentiment_of self comment with
      | None => (sentiments, sentiment_scores)
      | Some (sentiment, score) => (sentiment :: sentiments, score :: sentiment_scores)
      end
  end.

(** [round(sum(scores) / len(scores), 3) if scores else 0] *)
Definition average_score (scores : list Q) : result Z :=
  match scores with
  | [] => Ok 0%Z
  | _ =>
      q <- fdiv (sumQ scores) (Z.of_nat (length scores)) ;;
      Ok (round q 3)
  end.

Definition analyze_sentiment (self : CommentAnalyzer) (comments : list pystr)
  : result (dict SentimentAnalysis) :=
  match comments with
  | [] => Ok (Error (str "No comments provided"))
  | _ =>
      let '(sentiments, sentiment_scores) := sentiment_loop self comments in
      let sentiment_counts := Counter sentiments in
      let total_comments := length sentiments in
      if total_comments =? 0 then Ok (Error (str "No valid comments to analyze"))
      else
        pcts <- percentages sentiment_counts total_comments ;;
        avg <- average_score sentiment_scores ;;
        overall <- max_key sentiment_counts ;;
        Ok (Fields {| sentiment_total_comments := total_comments;
                      sentiment_distribution := sentiment_counts;
                      sentiment_percentages := pcts;
                      average_sentiment_score := avg;
                      overall_sentiment := overall |})
  end.

(** *** [analyze_emotions] *)

Record EmotionAnalysis : Type := {
  emotion_distribution : counter;
  emotion_percentages : list (pystr * Z);
  dominant_emotion : pystr
}.

Definition transformers_emotion (self : CommentAnalyzer) (comment : pystr)
  : option pystr :=
  match emotion_analyzer self with
  | Some classify => classify (prefix 512 comment)
  | None => None
  end.

(** [any(word in comment_lower for word in words)] *)
Definition any_in (words : list string) (comment_lower : pystr) : bool :=
  existsb (fun word => contains (str word) comment_lower) words.

Definition rule_based_emotion (comment : pystr) : pystr :=
  let comment_lower := lower comment in
  if any_in ["happy"; "joy"; "love"; "great"; "amazing"; "wonderful"]%string comment_lower
  then str "joy"
  else if any_in ["angry"; "mad"; "hate"; "furious"; "annoyed"]%string comment_lower
  then str "anger"
  else if any_in ["sad"; "depressed"; "upset"; "disappointed"]%string comment_lower
  then str "sadness"
  else if any_in ["scared"; "afraid"; "terrified"; "fear"]%string comment_lower
  then str "fear"
  else if any_in ["surprised"; "shocked"; "amazed"; "wow"]%string comment_lower
  then str "surprise"
  else str "neutral".

Definition emotion_of (self : CommentAnalyzer) (comment : pystr) : option pystr :=
  if length (strip comment) <? 3 then None
  else
    match transformers_emotion self comment with
    | Some emotion => Some emotion
    | None => Some (rule_based_emotion comment)
    end.

Fixpoint emotion_loop (self : CommentAnalyzer) (comments : list pystr) : list pystr :=
  match comments with
  | [] => []
  | comment :: rest =>
      match emotion_of self comment with
      | None => emotion_loop self rest
      | Some emotion => emotion :: emotion_loop self rest
      end
  end.

Definition analyze_emotions (self : CommentAnalyzer) (comments : list pystr)
  : result (dict EmotionAnalysis) :=
  match comments with
  | [] => Ok (Error (str "No comments provided"))
  | _ =>
      let emotions := emotion_loop self comments in
      let emotion_counts := Counter emotions in
      let total_comments := length emotions in
      if total_comments =? 0 then Ok (Error (str "No valid comments to analyze"))
      else
        pcts <- percentages emotion_counts total_comments ;;
        dominant <- match emotion_counts with
                    | [] => Ok (str "unknown")
                    | _ => max_key emotion_counts
                    end ;;
        Ok (Fields {| emotion_distribution := emotion_counts;
                      emotion_percentages := pcts;
                      dominant_emotion := dominant |})
  end.

(** *** [detect_toxicity] *)

Record example : Type := {
  index : nat;
  comment : pystr;
  reason : pystr
}.

Record ToxicityAnalysis : Type := {
  toxicity_total_comments : nat;
  toxic_comments : nat;
  toxic_percentage : Z;
  spam_comments : nat;
  spam_percentage : Z;
  toxic_examples : list example;
  spam_examples : list example
}.

(** [comment[:100] + "..." if len(comment) > 100 else comment] *)
Definition excerpt (comment : pystr) : pystr :=
  if 100 <? length comment then prefix 100 comment ++ str "..." else comment.

(** The entry the loop appends to [toxic_comments] for comment [i]. *)
Definition toxic_entry (i : nat) (comment : pystr) : option example :=
  let comment_lower := lower comment in
  let is_toxic := existsb (fun keyword => contains keyword comment_lower) toxic_keywords in
  if is_toxic then
    Some {| index := i; comment := excerpt comment;
            reason := str "Contains toxic keywords" |}
  else None.

(** The entry the loop appends to [spam_comments] for comment [i]. *)
Definition spam_entry (i : nat) (comment : pystr) : option example :=
  if 10 <? length comment then
    if isupper comment && (20 <? length comment) then
      Some {| index := i; comment := excerpt comment; reason := str "All caps" |}
    else if (distinct_chars comment <? 5) && (15 <? length comment) then
      Some {| index := i; comment := excerpt comment;
              reason := str "Repetitive characters" |}
    else None
  else None.

Definition append_entry (e : option example) (l : list example) : list example :=
  match e with
  | Some x => x :: l
  | None => l
  end.

(** The loop over [enumerate(comments)], from index [i]: the lists
    [toxic_comments] and [spam_comments]. *)
Fixpoint toxicity_loop (i : nat) (comments : list pystr)
  : list example * list example :=
  match comments with
  | [] => ([], [])
  | comment :: rest =>
      let '(toxic, spam) := toxicity_loop (S i) rest in
      (append_entry (toxic_entry i comment) toxic,
       append_entry (spam_entry i comment) spam)
  end.

(** [round((count / total) * 100, 2) if total > 0 else 0] *)
Definition guarded_percentage (count total : nat) : result Z :=
  if 0 <? total then percentage count total else Ok 0%Z.

Definition detect_toxicity (comments : list pystr) : result ToxicityAnalysis :=
  let '(toxic, spam) := toxicity_loop 0 comments in
  let total_comments := length comments in
  toxic_pct <- guarded_percentage (length toxic) total_comments ;;
  spam_pct <- guarded_percentage (length spam) total_comments ;;
  Ok {| toxicity_total_comments := total_comments;
        toxic_comments := length toxic;
        toxic_percentage := toxic_pct;
        spam_comments := length spam;
        spam_percentage := spam_pct;
        toxic_examples := firstn 5 toxic;
        spam_examples := firstn 5 spam |}.

(** *** [extract_keywords] *)

Record keyword : Type := {
  word : pystr;
  count : nat
}.

(** [word_tokenize] with NLTK, [str.split] without. *)
Definition tokenize (self : CommentAnalyzer) (clean_comment : pystr) : list pystr :=
  match word_tokenize self with
  | Some nltk_tokenize => nltk_tokenize clean_comment
  | None => split clean_comment
  end.

(** The condition of the list comprehension that filters the words. *)
Definition keeps_word (self : CommentAnalyzer) (word : pystr) : bool :=
  isalpha word && (2 <? length word) && negb (mem word (stop_words self)).

Definition filtered_words (self : CommentAnalyzer) (comment : pystr) : list pystr :=
  let clean_comment := clean_text (lower comment) in
  filter (keeps_word self) (tokenize self clean_comment).

Definition all_words (self : CommentAnalyzer) (comments : list pystr) : list pystr :=
  flat_map (filtered_words self) comments.

Definition extract_keywords (self : CommentAnalyzer) (comments : list pystr)
  (top_n : Z) : list keyword :=
  let word_counts := Counter (all_words self comments) in
  map (fun '(word, count) => {| word := word; count := count |})
      (most_common word_counts top_n).

(** The default of the parameter [top_n]. *)
Definition default_top_n : Z := 20.

(** *** [generate_wordcloud] *)

Definition generate_wordcloud (self : CommentAnalyzer) (comments : list pystr)
  : pystr :=
  match wordcloud_renderer self with
  | None => []
  | Some render =>
      let text := join (str " ") (map clean_text comments) in
      if length (strip text) =? 0 then []
      else
        match render text with
        | Some img_str => str "data:image/png;base64," ++ img_str
        | None => []
        end
  end.

(** *** [analyze_comment_patterns] *)

Record CommentPatterns : Type := {
  patterns_total_comments : nat;
  average_length : Z;
  median_length : nat;
  longest_comment : nat;
  shortest_comment : nat;
  exclamation_percentage : Z;
  question_percentage : Z;
  mention_percentage : Z
}.

(** [e if lengths else 0] *)
Definition if_nonempty {A B : Type} (lengths : list A) (e : result B) (zero : B)
  : result B :=
  match lengths with
  | [] => Ok zero
  | _ => e
  end.

Definition analyze_comment_patterns (comments : list pystr)
  : result (dict CommentPatterns) :=
  match comments with
  | [] => Ok (Error (str "No comments to analyze"))
  | _ =>
      let lengths := map (@length ascii) comments in
      let exclamations := count_if (contains (str "!")) comments in
      let questions := count_if (contains (str "?")) comments in
      let mentions := count_if (contains (str "@")) comments in
      average <- if_nonempty lengths
                   (q <- truediv (Z.of_nat (sum lengths)) (Z.of_nat (length lengths)) ;;
                    Ok (round q 2)) 0%Z ;;
      median <- if_nonempty lengths
                  (m <- getitem (sorted lengths) (length lengths / 2) ;;
                   Ok (round_int m 2)) 0 ;;
      longest <- if_nonempty lengths (max lengths) 0 ;;
      shortest <- if_nonempty lengths (min lengths) 0 ;;
      exclamation <- percentage exclamations (length comments) ;;
      question <- percentage questions (length comments) ;;
      mention <- percentage mentions (length comments) ;;
      Ok (Fields {| patterns_total_comments := length comments;
                    average_length := average;
                    median_length := median;
                    longest_comment := longest;
                    shortest_comment := shortest;
                    exclamation_percentage := exclamation;
                    question_percentage := question;
                    mention_percentage := mention |})
  end.

(** *** [get_comprehensive_analysis] *)

Record Analysis : Type := {
  sentiment_analysis : dict SentimentAnalysis;
  emotion_analysis : dict EmotionAnalysis;
  toxicity_analysis : ToxicityAnalysis;
  keywords : list keyword;
  comment_patterns : dict CommentPatterns;
  wordcloud : pystr
}.

(** The truth value of [comment.strip()] *)
Definition nonblank (comment : pystr) : bool :=
  match strip comment with
  | [] => false
  | _ => true
  end.

(** [[self.clean_text(comment) for comment in comments if comment.strip()]] *)
Definition cleaned_comments (comments : list pystr) : list pystr :=
  map clean_text (filter nonblank comments).

Definition get_comprehensive_analysis (self : CommentAnalyzer)
  (comments : list pystr) : result (dict Analysis) :=
  match comments with
  | [] => Ok (Error (str "No comments provided"))
  | _ =>
      match cleaned_comments comments with
      | [] => Ok (Error (str "No valid comments after cleaning"))
      | cleaned =>
          sentiment <- analyze_sentiment self cleaned ;;
          emotion <- analyze_emotions self cleaned ;;
          toxicity <- detect_toxicity cleaned ;;
          patterns <- analyze_comment_patterns cleaned ;;
          Ok (Fields {| sentiment_analysis := sentiment;
                        emotion_analysis := emotion;
                        toxicity_analysis := toxicity;
                        keywords := extract_keywords self cleaned default_top_n;
                        comment_patterns := patterns;
                        wordcloud := generate_wordcloud self cleaned |})
      end
  end.

(** ** The keyword endpoint of [main.py] *)

(** What the handler's [try] catches: the [HTTPException] it raises itself
    and an exception of the analyzer. *)
Inductive caught : Type :=
| HTTPException (status_code : nat) (detail : pystr)
| AnalyzerException (e : exn).

(** [AnalysisResponse]: [success=True] with the data, or [success=False]
    with the error message, which the handler builds from a prefix and the
    exception it caught. *)
Inductive AnalysisResponse (D : Type) : Type :=
| Success (data : D)
| Failure (message : pystr) (e : caught).

Arguments Success {D} data.
Arguments Failure {D} message e.

Definition extract_keywords_only (self : CommentAnalyzer) (comments : list pystr)
  : AnalysisResponse (list keyword) :=
  match comments with
  | [] => Failure (str "Keyword extraction failed: ")
            (HTTPException 400 (str "No comments provided"))
  | _ =>
      match cleaned_comments comments with
      | [] => Failure (str "Keyword extraction failed: ")
                (HTTPException 400 (str "No valid comments after cleaning"))
      | cleaned => Success (extract_keywords self cleaned 30)
      end
  end.

(** ** The other endpoints of [main.py] *)

(** [CommentRequest] *)
Module CommentRequest.
Record t : Type := {
  comments : list pystr;
  video_id : pystr;
  video_title : pystr
}.
End CommentRequest.

(** The dictionary the handler stores under ["metadata"]. *)
Record Metadata : Type := {
  video_id : pystr;
  video_title : pystr;
  total_comments_received : nat;
  comments_analyzed : nat;
  analysis_version : pystr
}.

(** What [/analyze] answers with: the dictionary of the analyzer (a report
    or an error), to which the handler has added the key ["metadata"]. *)
Record AnalysisData : Type := {
  analysis_result : dict Analysis;
  metadata : Metadata
}.

Definition analyze_comments (self : CommentAnalyzer) (request : CommentRequest.t)
  : AnalysisResponse AnalysisData :=
  match CommentRequest.comments request with
  | [] => Failure (str "Analysis failed: ")
            (HTTPException 400 (str "No comments provided"))
  | _ =>
      let comments_to_analyze :=
        if 1000 <? length (CommentRequest.comments request)
        then firstn 1000 (CommentRequest.comments request)
        else CommentRequest.comments request in
      match get_comprehensive_analysis self comments_to_analyze with
      | Ok analysis_result =>
          Success
            {| analysis_result := analysis_result;
               metadata :=
                 {| video_id := CommentRequest.video_id request;
                    video_title := CommentRequest.video_title request;
                    total_comments_received :=
                      length (CommentRequest.comments request);
                    comments_analyzed := length comments_to_analyze;
                    analysis_version := str "1.0.0" |} |}
      | Raise e => Failure (str "Analysis failed: ") (AnalyzerException e)
      end
  end.

Definition analyze_sentiment_only (self : CommentAnalyzer) (comments : list pystr)
  : AnalysisResponse (dict SentimentAnalysis) :=
  match comments with
  | [] => Failure (str "Sentiment analysis failed: ")
            (HTTPException 400 (str "No comments provided"))
  | _ =>
      match cleaned_comments (firstn 500 comments) with
      | [] => Failure (str "Sentiment analysis failed: ")
                (HTTPException 400 (str "No valid comments after cleaning"))
      | cleaned =>
          match analyze_sentiment self cleaned with
          | Ok sentiment_result => Success sentiment_result
          | Raise e => Failure (str "Sentiment analysis failed: ") (AnalyzerException e)
          end
      end
  end.

Definition analyze_toxicity_only (comments : list pystr)
  : AnalysisResponse ToxicityAnalysis :=
  match comments with
  | [] => Failure (str "Toxicity analysis failed: ")
            (HTTPException 400 (str "No comments provided"))
  | _ =>
      match cleaned_comments comments with
      | [] => Failure (str "Toxicity analysis failed: ")
                (HTTPException 400 (str "No valid comments after cleaning"))
      | cleaned =>
          match detect_toxicity cleaned with
          | Ok toxicity_result => Success toxicity_result
          | Raise e => Failure (str "Toxicity analysis failed: ") (AnalyzerException e)
          end
      end
  end.

(** ** Notions the properties are stated with *)

(** The sum of the values of a percentage dictionary, in hundredths. *)
Definition total_of (pcts : list (pystr * Z)) : Z :=
  fold_right (fun kv acc => (snd kv + acc)%Z) 0%Z pcts.

(** The sum of the counts of a counter. *)
Definition counter_total (m : counter) : nat :=
  fold_right (fun kv acc => snd kv + acc) 0 m.

(** A counter in good shape: no key twice, no count zero. *)
Definition well_formed (m : counter) : Prop :=
  NoDup (map fst m) /\ Forall (fun kv => 0 < snd kv) m.

(** [r] is a nearest integer to [num / den]. *)
Definition nearest (r num den : Z) : Prop :=
  (2 * Z.abs (r * den - num) <= den)%Z.

(** The character [ch] occurs in [s]. *)
Definition has_char (ch : ascii) (s : pystr) : bool := existsb (Ascii.eqb ch) s.

(** The number of occurrences of [w] in [l]. *)
Definition occurrences (w : pystr) (l : list pystr) : nat :=
  count_occ (list_eq_dec ascii_dec) l w.

(** [m] is the upper middle value of [l]: one of the values, with more
    than half of the values (half rounded down) at most [m] and at least
    half of them (half rounded up) at least [m]. It is the value in the
    middle of an odd number of values, and the upper of the two values in
    the middle of an even number of values. *)
Definition is_upper_middle (m : nat) (l : list nat) : Prop :=
  In m l
  /\ length l / 2 < count_if (fun x => x <=? m) l
  /\ length l - length l / 2 <= count_if (fun x => m <=? x) l.

(** [v] is the value at position [k] (from 0) of the values of [l] in
    increasing order: at most [k] values are smaller than [v], and more
    than [k] are at most [v]. *)
Definition is_kth (k v : nat) (l : list nat) : Prop :=
  count_if (fun x => x <? v) l <= k /\ k < count_if (fun x => x <=? v) l.

(** The median of the specification, doubled to stay among the integers:
    [m2] is twice the median of [l], the sum of the two values in the
    middle of the values in increasing order (the value in the middle,
    twice, when their number is odd). *)
Definition is_twice_median (m2 : nat) (l : list nat) : Prop :=
  exists lo hi,
    is_kth ((length l - 1) / 2) lo l
    /\ is_kth (length l / 2) hi l
    /\ m2 = lo + hi.

(** The statistics [p] describe the comments: the mean length to the
    nearest hundredth, the upper middle length, the extremes, and for each
    of the three characters the share of comments it occurs in, as a
    percentage to the nearest hundredth. *)
Definition describes (p : CommentPatterns) (comments : list pystr) : Prop :=
  let lengths := map (@length ascii) comments in
  let n := Z.of_nat (length comments) in
  let share ch := (10000 * Z.of_nat (count_if (has_char ch) comments))%Z in
  patterns_total_comments p = length comments
  /\ nearest (average_length p) (100 * Z.of_nat (sum lengths)) n
  /\ is_upper_middle (median_length p) lengths
  /\ (In (longest_comment p) lengths
      /\ Forall (fun x => x <= longest_comment p) lengths)
  /\ (In (shortest_comment p) lengths
      /\ Forall (fun x => shortest_comment p <= x) lengths)
  /\ nearest (exclamation_percentage p) (share "!"%char) n
  /\ nearest (question_percentage p) (share "?"%char) n
  /\ nearest (mention_percentage p) (share "@"%char) n.

(** The list [spam_comments] of the loop. *)
Definition spam_list (comments : list pystr) : list example :=
  snd (toxicity_loop 0 comments).

(** The spam rule of the specification, as a proposition and as a test. *)
Definition spam_rule (c : pystr) : Prop :=
  (isupper c = true /\ 20 < length c)
  \/ (distinct_chars c < 5 /\ 15 < length c).

Definition spam_ruleb (c : pystr) : bool :=
  (isupper c && (20 <? length c))
  || ((distinct_chars c <? 5) && (15 <? length c)).

(** A comment the sentiment and emotion loops skip. *)
Definition too_short (c : pystr) : Prop := length (strip c) < 3.

(** [s] is [t] with some characters left out. *)
Inductive subseq : pystr -> pystr -> Prop :=
| subseq_nil (t : pystr) : subseq [] t
| subseq_keep (x : ascii) (s t : pystr) : subseq s t -> subseq (x :: s) (x :: t)
| subseq_skip (y : ascii) (s t : pystr) : subseq s t -> subseq s (y :: t).

(** The tokens of all comments, before the filter. *)
Definition all_tokens (self : CommentAnalyzer) (comments : list pystr) : list pystr :=
  flat_map (fun comment => tokenize self (clean_text (lower comment))) comments.

(** The example inputs of the specification. *)
Definition love_hate : list pystr :=
  map str ["I love this!!"; "I HATE THIS SO MUCH"]%string.

Definition cat_sat_ran : list pystr :=
  map str ["the cat sat"; "the cat ran"]%string.

Definition only_the : CommentAnalyzer :=
  {| sentiment_analyzer := None; emotion_analyzer := None; textblob := None;
     word_tokenize := None; wordcloud_renderer := None;
     stop_words := [str "the"] |}.

(** ** Notions of the further properties *)

(** A word of a split text: not empty, and without whitespace. *)
Definition wordlike (w : pystr) : Prop :=
  w <> [] /\ Forall (fun c => isspace c = false) w.

(** A text in the form cleaning gives: only characters the second
    substitution keeps, and words separated by single spaces. *)
Definition normal (x : pystr) : Prop :=
  Forall (fun c => kept_char c = true) x /\ join (str " ") (split x) = x.

(** The comments the sentiment and emotion loops do not skip. *)
Definition long_enough (c : pystr) : bool := 3 <=? length (strip c).

(** The label the sentiment loop gives a comment. *)
Definition sentiment_label (self : CommentAnalyzer) (c : pystr) : option pystr :=
  option_map fst (sentiment_of self c).

(** The number of comments a labelling gives the label [label]. *)
Definition labelled (label_of : pystr -> option pystr) (label : pystr)
  (comments : list pystr) : nat :=
  count_if (fun c => match label_of c with
                     | Some l => str_eqb label l
                     | None => false
                     end) comments.

(** [k] is the first key of [m] with the largest count. *)
Definition first_most (m : counter) (k : pystr) : Prop :=
  exists pre c post,
    m = pre ++ (k, c) :: post
    /\ Forall (fun kv => snd kv < c) pre
    /\ Forall (fun kv => snd kv <= c) post.

(** The labels of the two fallbacks of the sentiment pass, and those of
    the fallback of the emotion pass. *)
Definition sentiment_labels : list pystr :=
  map str ["POSITIVE"; "NEGATIVE"; "NEUTRAL"]%string.

Definition emotion_labels : list pystr :=
  map str ["joy"; "anger"; "sadness"; "fear"; "surprise"; "neutral"]%string.

(** The list [toxic_comments] of the loop. *)
Definition toxic_list (comments : list pystr) : list example :=
  fst (toxicity_loop 0 comments).

(** The lower-cased comment has a toxic keyword as a substring. *)
Definition has_toxic_keyword (c : pystr) : Prop :=
  exists keyword pre post,
    In keyword toxic_keywords /\ lower c = pre ++ keyword ++ post.

(** The entries of [l] are excerpts of comments of the list, each under the
    index of its comment, in the order of the comments. *)
Definition listed (comments : list pystr) (l : list example) : Prop :=
  StronglySorted (fun a b => index a < index b) l
  /\ Forall (fun e => exists c, nth_error comments (index e) = Some c
                                /\ comment e = excerpt c) l.

(** A percentage, in hundredths. *)
Definition is_percentage (r : Z) : Prop := (0 <= r <= 10000)%Z.

(** An entry function that files the excerpt of the comment under its
    index. *)
Definition files (f : nat -> pystr -> option example) : Prop :=
  forall i c e, f i c = Some e -> index e = i /\ comment e = excerpt c.

(** What the loop from index [i0] collects with an entry function. *)
Definition collected_from (i0 : nat) (comments : list pystr) (l : list example) : Prop :=
  length l <= length comments
  /\ StronglySorted (fun a b => index a < index b) l
  /\ Forall (fun e => i0 <= index e
                      /\ exists c, nth_error comments (index e - i0) = Some c
                                   /\ comment e = excerpt c) l.

(** A classifier that answers POSITIVE with score 0.9 whatever it reads. *)
Definition always_positive : CommentAnalyzer :=
  {| sentiment_analyzer := Some (fun _ => Some (str "POSITIVE", Qmake 9 10));
     emotion_analyzer := None; textblob := None;
     word_tokenize := None; wordcloud_renderer := None;
     stop_words := fallback_stop_words |}.

(** The examples of a report: at most 5 entries of the list, each an
    excerpt of at most 103 characters. *)
Definition examples_of (comments : list pystr) (l : list example) : Prop :=
  length l <= 5
  /\ listed comments l
  /\ Forall (fun e => length (comment e) <= 103) l.

(** A request with two comments. *)
Definition love_hate_request : CommentRequest.t :=
  {| CommentRequest.comments := love_hate;
     CommentRequest.video_id := str "abc123";
     CommentRequest.video_title := str "A video" |}.

(** A request with blank comments only. *)
Definition blank_request : CommentRequest.t :=
  {| CommentRequest.comments := map str ["   "; ""]%string;
     CommentRequest.video_id := str "abc123";
     CommentRequest.video_title := str "A video" |}.

(** The percentages [pcts] go with the distribution [m]: the same labels in
    the same order, each with the percentage nearest to the share of its
    count in the total of the counts. *)
Definition shares_of (m : counter) (pcts : list (pystr * Z)) : Prop :=
  Forall2 (fun kv pv =>
             fst pv = fst kv
             /\ is_percentage (snd pv)
             /\ nearest (snd pv) (10000 * Z.of_nat (snd kv))
                  (Z.of_nat (counter_total m)))
          m pcts.

(** ** Strings *)

Section StringFacts.

Lemma str_eqb_eq (s t : pystr) : str_eqb s t = true <-> s = t.
Proof.
  revert t; induction s as [|a s IH]; intros [|b t]; simpl; split;
    try congruence; try reflexivity.
  - intros H. apply andb_true_iff in H as [Hab Hst].
    apply Ascii.eqb_eq in Hab. apply IH in Hst. congruence.
  - intros H. injection H as -> ->.
    rewrite Ascii.eqb_refl. simpl. now apply IH.
Qed.

Lemma str_eqb_refl (s : pystr) : str_eqb s s = true.
Proof. now apply str_eqb_eq. Qed.

Lemma str_eqb_neq (s t : pystr) : str_eqb s t = false <-> s <> t.
Proof.
  rewrite <- str_eqb_eq. destruct (str_eqb s t); split; congruence.
Qed.

Lemma mem_In (x : pystr) (l : list pystr) : mem x l = true <-> In x l.
Proof.
  unfold mem. rewrite existsb_exists. split.
  - intros (y & Hy & E). apply str_eqb_eq in E. now subst.
  - intros H. exists x. split; [assumption | apply str_eqb_refl].
Qed.

Lemma contains_char (ch : ascii) (s : pystr) :
  contains [ch] s = has_char ch s.
Proof.
  induction s as [|b s IH]; simpl; [reflexivity|].
  rewrite IH. now rewrite andb_true_r.
Qed.

Lemma has_char_In (ch : ascii) (s : pystr) : has_char ch s = true <-> In ch s.
Proof.
  unfold has_char. rewrite existsb_exists. split.
  - intros (y & Hy & E). apply Ascii.eqb_eq in E. now subst.
  - intros H. exists ch. split; [assumption | apply Ascii.eqb_refl].
Qed.

End StringFacts.

(** ** Rounding *)

Section Rounding.

Lemma round_half_even_nearest (num den : Z) :
  (0 < den)%Z -> nearest (round_half_even num den) num den.
Proof.
  intros Hden. unfold nearest, round_half_even.
  pose proof (Z.div_mod num den ltac:(lia)) as Hdm.
  pose proof (Z.mod_pos_bound num den Hden) as Hr.
  set (q := (num / den)%Z) in *. set (r := (num mod den)%Z) in *.
  destruct (Z.ltb_spec (2 * r) den); [lia|].
  destruct (Z.ltb_spec den (2 * r)); [lia|].
  destruct (Z.even q); lia.
Qed.

Lemma round_half_even_zero (den : Z) : (0 < den)%Z -> round_half_even 0 den = 0%Z.
Proof.
  intros Hden. unfold round_half_even.
  rewrite Z.div_0_l, Z.mod_0_l by lia.
  destruct (Z.ltb_spec (2 * 0) den); [reflexivity | lia].
Qed.

(** What [percentage] computes: a nearest hundredth of [100 * count / total]. *)
Lemma percentage_spec (count total : nat) :
  total <> 0 ->
  exists r, percentage count total = Ok r
            /\ nearest r (10000 * Z.of_nat count) (Z.of_nat total).
Proof.
  intros Ht. unfold percentage, truediv.
  destruct (Z.of_nat total) as [|p|p] eqn:E; try lia.
  simpl bind. eexists. split; [reflexivity|].
  unfold round. cbn [Qmult Qnum Qden inject_Z].
  replace (Z.of_nat count * 100 * 10 ^ Z.of_nat 2)%Z
    with (10000 * Z.of_nat count)%Z by (change (10 ^ Z.of_nat 2)%Z with 100%Z; lia).
  replace (Zpos (p * 1)) with (Zpos p) by (now rewrite Pos.mul_1_r).
  apply round_half_even_nearest. lia.
Qed.

Lemma percentage_zero (total : nat) : total <> 0 -> percentage 0 total = Ok 0%Z.
Proof.
  intros Ht. unfold percentage, truediv.
  destruct (Z.of_nat total) as [|p|p] eqn:E; try lia.
  simpl bind. unfold round. cbn [Qmult Qnum Qden inject_Z].
  rewrite Z.mul_0_l, round_half_even_zero by lia. reflexivity.
Qed.

Lemma percentage_returns (count total : nat) :
  total <> 0 -> returns (percentage count total).
Proof.
  intros Ht. destruct (percentage_spec count total Ht) as (r & E & _).
  now exists r.
Qed.

End Rounding.

(** ** Counters *)

Section CounterFacts.

Lemma counter_total_incr (k : pystr) (m : counter) :
  counter_total (counter_incr k m) = S (counter_total m).
Proof.
  induction m as [|[k' n] m IH]; simpl; [reflexivity|].
  destruct (str_eqb k k'); simpl; [reflexivity | rewrite IH; lia].
Qed.

Lemma counter_total_fold (l : list pystr) (m : counter) :
  counter_total (fold_left (fun m k => counter_incr k m) l m)
  = length l + counter_total m.
Proof.
  revert m; induction l as [|k l IH]; intros m; simpl; [reflexivity|].
  rewrite IH, counter_total_incr. lia.
Qed.

Lemma counter_total_Counter (l : list pystr) :
  counter_total (Counter l) = length l.
Proof. unfold Counter. rewrite counter_total_fold. simpl. lia. Qed.

Lemma count_of_incr (w k : pystr) (m : counter) :
  count_of w (counter_incr k m)
  = if str_eqb w k then S (count_of w m) else count_of w m.
Proof.
  induction m as [|[k' n] m IH]; simpl.
  - destruct (str_eqb w k); reflexivity.
  - destruct (str_eqb k k') eqn:Ekk'; simpl.
    + apply str_eqb_eq in Ekk'. subst k'.
      destruct (str_eqb w k); reflexivity.
    + destruct (str_eqb w k') eqn:Ewk'.
      * apply str_eqb_eq in Ewk'. subst k'.
        replace (str_eqb w k) with false; [reflexivity|].
        symmetry. apply str_eqb_neq. apply str_eqb_neq in Ekk'. congruence.
      * exact IH.
Qed.

Lemma occurrences_cons (w k : pystr) (l : list pystr) :
  occurrences w (k :: l)
  = if str_eqb w k then S (occurrences w l) else occurrences w l.
Proof.
  unfold occurrences. simpl.
  destruct (list_eq_dec ascii_dec k w) as [E|N].
  - subst. now rewrite str_eqb_refl.
  - replace (str_eqb w k) with false; [reflexivity|].
    symmetry. apply str_eqb_neq. congruence.
Qed.

Lemma count_of_fold (w : pystr) (l : list pystr) (m : counter) :
  count_of w (fold_left (fun m k => counter_incr k m) l m)
  = occurrences w l + count_of w m.
Proof.
  revert m; induction l as [|k l IH]; intros m; [reflexivity|].
  simpl fold_left. rewrite IH, count_of_incr, occurrences_cons.
  destruct (str_eqb w k); lia.
Qed.

Lemma count_of_Counter (w : pystr) (l : list pystr) :
  count_of w (Counter l) = occurrences w l.
Proof. unfold Counter. rewrite count_of_fold. simpl. lia. Qed.

Lemma keys_incr (k : pystr) (m : counter) (x : pystr) :
  In x (map fst (counter_incr k m)) <-> x = k \/ In x (map fst m).
Proof.
  induction m as [|[k' n] m IH]; simpl.
  - intuition congruence.
  - destruct (str_eqb k k') eqn:E; simpl.
    + apply str_eqb_eq in E. subst. intuition congruence.
    + rewrite IH. intuition congruence.
Qed.

Lemma well_formed_incr (k : pystr) (m : counter) :
  well_formed m -> well_formed (counter_incr k m).
Proof.
  unfold well_formed. induction m as [|[k' n] m IH]; simpl; intros [Hnd Hpos].
  - split; repeat constructor. intros [].
  - inversion Hnd as [|? ? Hnotin Hnd']; subst.
    inversion Hpos as [|? ? Hn Hpos']; subst.
    destruct (str_eqb k k') eqn:E; simpl.
    + split; constructor; simpl in *; auto.
    + destruct (IH (conj Hnd' Hpos')) as [IH1 IH2].
      split; constructor; auto.
      rewrite keys_incr. intros [->|Hin]; [|contradiction].
      apply str_eqb_neq in E. congruence.
Qed.

Lemma well_formed_fold (l : list pystr) (m : counter) :
  well_formed m -> well_formed (fold_left (fun m k => counter_incr k m) l m).
Proof.
  revert m; induction l as [|k l IH]; intros m Hm; simpl; [assumption|].
  apply IH, well_formed_incr, Hm.
Qed.

Lemma well_formed_Counter (l : list pystr) : well_formed (Counter l).
Proof.
  apply well_formed_fold. split; constructor.
Qed.

Lemma count_of_In (w : pystr) (n : nat) (m : counter) :
  NoDup (map fst m) -> In (w, n) m -> count_of w m = n.
Proof.
  induction m as [|[k' n'] m IH]; simpl; intros Hnd Hin; [contradiction|].
  destruct Hin as [E|Hin].
  - injection E as -> ->. now rewrite str_eqb_refl.
  - inversion Hnd as [|? ? Hnotin Hnd']; subst.
    destruct (str_eqb w k') eqn:E.
    + apply str_eqb_eq in E. subst k'.
      exfalso. apply Hnotin. apply (in_map fst) in Hin. exact Hin.
    + now apply IH.
Qed.

(** The items of [Counter l] are the words of [l] with their numbers of
    occurrences. *)
Lemma In_Counter (w : pystr) (n : nat) (l : list pystr) :
  In (w, n) (Counter l) -> n = occurrences w l /\ 0 < n.
Proof.
  intros Hin. destruct (well_formed_Counter l) as [Hnd Hpos]. split.
  - rewrite <- count_of_Counter. symmetry. now apply count_of_In.
  - rewrite Forall_forall in Hpos. exact (Hpos _ Hin).
Qed.

Lemma count_of_pos_In (w : pystr) (m : counter) :
  0 < count_of w m -> In (w, count_of w m) m.
Proof.
  induction m as [|[k' n'] m IH]; simpl; [lia|].
  destruct (str_eqb w k') eqn:E.
  - apply str_eqb_eq in E. subst. now left.
  - intros H. right. now apply IH.
Qed.

Lemma occurrences_pos (w : pystr) (l : list pystr) :
  In w l <-> 0 < occurrences w l.
Proof. unfold occurrences. apply count_occ_In. Qed.

Lemma Counter_In (w : pystr) (l : list pystr) :
  In w l -> In (w, occurrences w l) (Counter l).
Proof.
  intros Hin. rewrite <- count_of_Counter. apply count_of_pos_In.
  rewrite count_of_Counter. now apply occurrences_pos.
Qed.

Lemma Counter_nonempty (l : list pystr) : l <> [] -> Counter l <> [].
Proof.
  intros Hl E. apply Hl. apply length_zero_iff_nil.
  rewrite <- counter_total_Counter, E. reflexivity.
Qed.

Lemma max_key_returns (m : counter) : m <> [] -> returns (max_key m).
Proof.
  destruct m as [|kn m]; [congruence|]. intros _. now eexists.
Qed.

End CounterFacts.

(** ** Percentages of a distribution *)

Section Percentages.

(** [percentages] never raises for a positive total, and gives each
    label a nearest hundredth of its share. *)
Lemma percentages_spec (m : counter) (total : nat) :
  total <> 0 ->
  exists pcts,
    percentages m total = Ok pcts
    /\ Forall2 (fun kv pv =>
                  fst pv = fst kv
                  /\ nearest (snd pv) (10000 * Z.of_nat (snd kv)) (Z.of_nat total))
               m pcts.
Proof.
  intros Ht. induction m as [|[label count] m (pcts & E & HF)].
  - exists []. split; [reflexivity | constructor].
  - destruct (percentage_spec count total Ht) as (r & Er & Hr).
    unfold percentage in Er. simpl percentages.
    destruct (truediv (Z.of_nat count) (Z.of_nat total)) as [q|e]; [|discriminate].
    simpl in Er. injection Er as <-. simpl bind at 1. rewrite E. simpl.
    eexists. split; [reflexivity|]. constructor; [|assumption]. now split.
Qed.

Lemma total_of_near (m : counter) (pcts : list (pystr * Z)) (total : Z) :
  (0 < total)%Z ->
  Forall2 (fun kv pv =>
             fst pv = fst kv
             /\ nearest (snd pv) (10000 * Z.of_nat (snd kv)) total)
          m pcts ->
  (2 * Z.abs (total_of pcts * total - 10000 * Z.of_nat (counter_total m))
   <= Z.of_nat (length pcts) * total)%Z.
Proof.
  intros Ht HF. induction HF as [|[k c] [k' r] m pcts [_ Hn] HF IH].
  - simpl. lia.
  - unfold nearest in Hn. cbn [total_of counter_total fold_right snd length] in *.
    fold (total_of pcts). fold (counter_total m). lia.
Qed.

(** The percentages of a counter over its own total sum to 100, up to
    half a hundredth for each label. *)
Lemma percentages_sum (l : list pystr) (pcts : list (pystr * Z)) :
  l <> [] ->
  percentages (Counter l) (length l) = Ok pcts ->
  (2 * Z.abs (total_of pcts - 10000) <= Z.of_nat (length pcts))%Z
  /\ map fst pcts = map fst (Counter l).
Proof.
  intros Hl E.
  assert (Ht : length l <> 0) by (now rewrite length_zero_iff_nil).
  destruct (percentages_spec (Counter l) (length l) Ht) as (pcts' & E' & HF).
  rewrite E in E'. injection E' as <-. split.
  - pose proof (total_of_near (Counter l) pcts (Z.of_nat (length l))
                  ltac:(lia) HF) as H.
    rewrite counter_total_Counter in H. nia.
  - clear -HF. induction HF as [|? ? ? ? [Hk _] _ IH]; simpl; congruence.
Qed.

End Percentages.

(** ** The sentiment and emotion passes *)

Section Classifiers.
Variable self : CommentAnalyzer.

Lemma average_score_returns (scores : list Q) : returns (average_score scores).
Proof.
  destruct scores as [|x scores]; [now eexists|].
  unfold average_score, fdiv.
  destruct (Z.of_nat (length (x :: scores))) eqn:E; [simpl in E; lia| |];
    now eexists.
Qed.

(** What [analyze_sentiment] answers, from the labels the loop collects. *)
Lemma analyze_sentiment_spec (comments : list pystr) :
  comments <> [] ->
  let sentiments := fst (sentiment_loop self comments) in
  match sentiments with
  | [] => analyze_sentiment self comments
          = Ok (Error (str "No valid comments to analyze"))
  | _ => exists s,
      analyze_sentiment self comments = Ok (Fields s)
      /\ sentiment_total_comments s = length sentiments
      /\ sentiment_distribution s = Counter sentiments
      /\ percentages (Counter sentiments) (length sentiments)
         = Ok (sentiment_percentages s)
  end.
Proof.
  intros Hc. unfold analyze_sentiment.
  destruct comments as [|c comments]; [congruence|].
  destruct (sentiment_loop self (c :: comments)) as [sentiments scores].
  cbn [fst]. destruct sentiments as [|l sentiments]; [reflexivity|].
  set (ls := l :: sentiments).
  assert (Hls : ls <> []) by (subst ls; congruence).
  replace (length ls =? 0) with false by (symmetry; apply Nat.eqb_neq; subst ls; simpl; lia).
  destruct (percentages_spec (Counter ls) (length ls)) as (pcts & Ep & _);
    [subst ls; simpl; lia|].
  destruct (average_score_returns scores) as (avg & Ea).
  destruct (max_key_returns (Counter ls) (Counter_nonempty _ Hls)) as (best & Eb).
  rewrite Ep, Ea, Eb. simpl. eexists. repeat split; reflexivity.
Qed.

Lemma analyze_sentiment_returns (comments : list pystr) :
  returns (analyze_sentiment self comments).
Proof.
  destruct comments as [|c comments]; [now eexists|].
  pose proof (analyze_sentiment_spec (c :: comments) ltac:(congruence)) as H.
  cbv zeta in H. destruct (fst (sentiment_loop self (c :: comments))).
  - rewrite H. now eexists.
  - destruct H as (s & E & _). rewrite E. now eexists.
Qed.

(** The fields of a sentiment report, from the labels of the loop. *)
Lemma analyze_sentiment_fields (comments : list pystr) (s : SentimentAnalysis) :
  analyze_sentiment self comments = Ok (Fields s) ->
  let sentiments := fst (sentiment_loop self comments) in
  sentiments <> []
  /\ sentiment_distribution s = Counter sentiments
  /\ percentages (Counter sentiments) (length sentiments)
     = Ok (sentiment_percentages s).
Proof.
  intros E. destruct comments as [|c comments]; [discriminate|].
  pose proof (analyze_sentiment_spec (c :: comments) ltac:(congruence)) as H.
  cbv zeta in *. destruct (fst (sentiment_loop self (c :: comments))).
  - rewrite H in E. discriminate.
  - destruct H as (s' & E' & _ & Hd & Hp). rewrite E in E'.
    injection E' as <-. repeat split; [congruence | assumption | assumption].
Qed.

Lemma analyze_emotions_spec (comments : list pystr) :
  comments <> [] ->
  let emotions := emotion_loop self comments in
  match emotions with
  | [] => analyze_emotions self comments
          = Ok (Error (str "No valid comments to analyze"))
  | _ => exists s,
      analyze_emotions self comments = Ok (Fields s)
      /\ emotion_distribution s = Counter emotions
      /\ percentages (Counter emotions) (length emotions)
         = Ok (emotion_percentages s)
  end.
Proof.
  intros Hc. unfold analyze_emotions.
  destruct comments as [|c comments]; [congruence|].
  cbv zeta. destruct (emotion_loop self (c :: comments)) as [|l emotions];
    [reflexivity|].
  set (ls := l :: emotions).
  assert (Hls : ls <> []) by (subst ls; congruence).
  replace (length ls =? 0) with false by (symmetry; apply Nat.eqb_neq; subst ls; simpl; lia).
  destruct (percentages_spec (Counter ls) (length ls)) as (pcts & Ep & _);
    [subst ls; simpl; lia|].
  destruct (max_key_returns (Counter ls) (Counter_nonempty _ Hls)) as (best & Eb).
  rewrite Ep. simpl bind.
  destruct (Counter ls) eqn:EC; [now apply Counter_nonempty in EC|].
  rewrite Eb. simpl. eexists. repeat split; reflexivity.
Qed.

Lemma analyze_emotions_returns (comments : list pystr) :
  returns (analyze_emotions self comments).
Proof.
  destruct comments as [|c comments]; [now eexists|].
  pose proof (analyze_emotions_spec (c :: comments) ltac:(congruence)) as H.
  cbv zeta in H. destruct (emotion_loop self (c :: comments)).
  - rewrite H. now eexists.
  - destruct H as (s & E & _). rewrite E. now eexists.
Qed.

Lemma analyze_emotions_fields (comments : list pystr) (s : EmotionAnalysis) :
  analyze_emotions self comments = Ok (Fields s) ->
  let emotions := emotion_loop self comments in
  emotions <> []
  /\ emotion_distribution s = Counter emotions
  /\ percentages (Counter emotions) (length emotions)
     = Ok (emotion_percentages s).
Proof.
  intros E. destruct comments as [|c comments]; [discriminate|].
  pose proof (analyze_emotions_spec (c :: comments) ltac:(congruence)) as H.
  cbv zeta in *. destruct (emotion_loop self (c :: comments)).
  - rewrite H in E. discriminate.
  - destruct H as (s' & E' & Hd & Hp). rewrite E in E'.
    injection E' as <-. repeat split; [congruence | assumption | assumption].
Qed.

(** A comment the loops skip leaves no trace in what they collect. *)
Lemma sentiment_loop_skip (l1 l2 : list pystr) (c : pystr) :
  too_short c ->
  sentiment_loop self (l1 ++ c :: l2) = sentiment_loop self (l1 ++ l2).
Proof.
  intros Hc. induction l1 as [|x l1 IH]; simpl.
  - unfold sentiment_of. unfold too_short in Hc.
    replace (length (strip c) <? 3) with true
      by (symmetry; now apply Nat.ltb_lt).
    now destruct (sentiment_loop self l2).
  - now rewrite IH.
Qed.

Lemma emotion_loop_skip (l1 l2 : list pystr) (c : pystr) :
  too_short c ->
  emotion_loop self (l1 ++ c :: l2) = emotion_loop self (l1 ++ l2).
Proof.
  intros Hc. induction l1 as [|x l1 IH]; simpl.
  - unfold emotion_of. unfold too_short in Hc.
    replace (length (strip c) <? 3) with true
      by (symmetry; now apply Nat.ltb_lt).
    reflexivity.
  - now rewrite IH.
Qed.

Lemma sentiment_loop_all_short (comments : list pystr) :
  Forall too_short comments -> sentiment_loop self comments = ([], []).
Proof.
  induction 1 as [|c comments Hc _ IH]; simpl; [reflexivity|].
  rewrite IH. unfold sentiment_of. unfold too_short in Hc.
  now replace (length (strip c) <? 3) with true
    by (symmetry; now apply Nat.ltb_lt).
Qed.

Lemma emotion_loop_all_short (comments : list pystr) :
  Forall too_short comments -> emotion_loop self comments = [].
Proof.
  induction 1 as [|c comments Hc _ IH]; simpl; [reflexivity|].
  rewrite IH. unfold emotion_of. unfold too_short in Hc.
  now replace (length (strip c) <? 3) with true
    by (symmetry; now apply Nat.ltb_lt).
Qed.

End Classifiers.

(** ** Sorting *)

Section SortingFacts.
Context {A : Type} (before : A -> A -> bool).
Hypothesis before_total : forall x y, before x y = false -> before y x = true.

Lemma insert_perm (x : A) (l : list A) : Permutation (insert before x l) (x :: l).
Proof.
  induction l as [|y l IH]; simpl; [reflexivity|].
  destruct (before x y); [reflexivity|].
  rewrite IH. apply perm_swap.
Qed.

Lemma sorted_by_perm (l : list A) : Permutation (sorted_by before l) l.
Proof.
  induction l as [|x l IH]; simpl; [reflexivity|].
  rewrite insert_perm. now constructor.
Qed.

Lemma insert_sorted (x : A) (l : list A) :
  Sorted (fun a b => before a b = true) l ->
  Sorted (fun a b => before a b = true) (insert before x l).
Proof.
  induction 1 as [|y l Hs IH Hhd]; simpl.
  - repeat constructor.
  - destruct (before x y) eqn:E.
    + constructor; [now constructor | now constructor].
    + constructor; [exact IH|].
      destruct l as [|z l]; simpl.
      * constructor. now apply before_total.
      * destruct (before x z); constructor.
        -- now apply before_total.
        -- now inversion Hhd.
Qed.

Lemma sorted_by_sorted (l : list A) :
  Sorted (fun a b => before a b = true) (sorted_by before l).
Proof.
  induction l as [|x l IH]; simpl; [constructor | now apply insert_sorted].
Qed.

End SortingFacts.

Section CountFacts.
Context {A : Type}.

Lemma count_if_perm (p : A -> bool) (l l' : list A) :
  Permutation l l' -> count_if p l = count_if p l'.
Proof.
  unfold count_if.
  induction 1 as [|x l l' _ IH|x y l|l l' l'' _ IH1 _ IH2]; simpl.
  - reflexivity.
  - destruct (p x); simpl; congruence.
  - destruct (p x), (p y); reflexivity.
  - congruence.
Qed.

Lemma count_if_all (p : A -> bool) (l : list A) :
  Forall (fun x => p x = true) l -> count_if p l = length l.
Proof.
  unfold count_if. induction 1 as [|x l Hx _ IH]; simpl; [reflexivity|].
  rewrite Hx. simpl. congruence.
Qed.

Lemma count_if_none (p : A -> bool) (l : list A) :
  Forall (fun x => p x = false) l -> count_if p l = 0.
Proof.
  unfold count_if. induction 1 as [|x l Hx _ IH]; simpl; [reflexivity|].
  now rewrite Hx.
Qed.

Lemma count_if_ext (p q : A -> bool) (l : list A) :
  (forall x, p x = q x) -> count_if p l = count_if q l.
Proof.
  intros H. unfold count_if. now rewrite (filter_ext p q H).
Qed.

Lemma count_if_app (p : A -> bool) (l1 l2 : list A) :
  count_if p (l1 ++ l2) = count_if p l1 + count_if p l2.
Proof. unfold count_if. now rewrite filter_app, length_app. Qed.

End CountFacts.

Section OrderStatistics.

Lemma sorted_nat_sorted (l : list nat) : StronglySorted le (sorted l).
Proof.
  apply Sorted_StronglySorted; [intros x y z; apply Nat.le_trans|].
  unfold sorted.
  eapply Sorted_ind with (P := fun s => Sorted le s);
    [constructor | |
     apply (sorted_by_sorted Nat.leb) with (l := l)].
  - intros a s _ IH Hhd. constructor; [exact IH|].
    destruct Hhd as [|b s' H]; constructor. now apply Nat.leb_le.
  - intros x y H. apply Nat.leb_gt in H. apply Nat.leb_le. lia.
Qed.

(** The element at position [i] of a sorted list has more than [i]
    elements at most as large, and all the elements from [i] on are at
    least as large. *)
Lemma sorted_position (s : list nat) (i m : nat) :
  StronglySorted le s -> nth_error s i = Some m ->
  i + 1 <= count_if (fun x => x <=? m) s
  /\ length s - i <= count_if (fun x => m <=? x) s.
Proof.
  intros Hs. revert i. induction Hs as [|x s Hs IH Hall]; intros i Hi.
  - destruct i; discriminate.
  - destruct i as [|j]; simpl in Hi.
    + injection Hi as ->. unfold count_if. simpl.
      rewrite Nat.leb_refl. simpl. split; [lia|].
      assert (H : count_if (fun x => m <=? x) s = length s).
      { apply count_if_all. eapply Forall_impl; [|exact Hall].
        intros a Ha. now apply Nat.leb_le. }
      unfold count_if in H. lia.
    + destruct (IH j Hi) as [IH1 IH2].
      assert (Hxm : x <= m).
      { rewrite Forall_forall in Hall. apply Hall.
        eapply nth_error_In; eassumption. }
      unfold count_if in *. simpl.
      replace (x <=? m) with true by (symmetry; now apply Nat.leb_le).
      simpl. split; [lia|].
      destruct (m <=? x); simpl; lia.
Qed.

Lemma middle_is_upper_middle (l : list nat) :
  l <> [] ->
  exists m, getitem (sorted l) (length l / 2) = Ok m /\ is_upper_middle m l.
Proof.
  intros Hl.
  assert (Hp : Permutation (sorted l) l) by apply sorted_by_perm.
  assert (Hlen : length (sorted l) = length l) by now apply Permutation_length.
  assert (Hn : 0 < length l) by (destruct l; [congruence | simpl; lia]).
  assert (Hi : length l / 2 < length (sorted l)).
  { rewrite Hlen. apply Nat.div_lt; lia. }
  unfold getitem.
  destruct (nth_error (sorted l) (length l / 2)) as [m|] eqn:E;
    [|apply nth_error_None in E; lia].
  exists m. split; [reflexivity|].
  destruct (sorted_position _ _ _ (sorted_nat_sorted l) E) as [H1 H2].
  rewrite (count_if_perm _ _ _ Hp) in H1.
  rewrite (count_if_perm _ _ _ Hp), Hlen in H2.
  repeat split; [|lia|lia].
  eapply Permutation_in; [exact Hp|]. eapply nth_error_In; eassumption.
Qed.

Lemma fold_max_spec (l : list nat) (x : nat) :
  let m := fold_left Nat.max l x in
  In m (x :: l) /\ Forall (fun y => y <= m) (x :: l).
Proof.
  revert x. induction l as [|y l IH]; intros x; simpl.
  - split; [now left | repeat constructor].
  - destruct (IH (Nat.max x y)) as [Hin Hall]. simpl in Hin.
    inversion Hall as [|? ? Hxy Hl]; subst. split.
    + destruct Hin as [E|Hin]; [|now right; right].
      rewrite <- E. destruct (Nat.max_dec x y) as [->| ->]; auto.
    + constructor; [lia|]. constructor; [lia | exact Hl].
Qed.

Lemma fold_min_spec (l : list nat) (x : nat) :
  let m := fold_left Nat.min l x in
  In m (x :: l) /\ Forall (fun y => m <= y) (x :: l).
Proof.
  revert x. induction l as [|y l IH]; intros x; simpl.
  - split; [now left | repeat constructor].
  - destruct (IH (Nat.min x y)) as [Hin Hall]. simpl in Hin.
    inversion Hall as [|? ? Hxy Hl]; subst. split.
    + destruct Hin as [E|Hin]; [|now right; right].
      rewrite <- E. destruct (Nat.min_dec x y) as [->| ->]; auto.
    + constructor; [lia|]. constructor; [lia | exact Hl].
Qed.

Lemma count_if_below (m : nat) (l : list nat) :
  count_if (fun x => x <? m) l + count_if (fun x => m <=? x) l = length l.
Proof.
  unfold count_if. induction l as [|x l IH]; simpl; [reflexivity|].
  destruct (Nat.ltb_spec x m), (Nat.leb_spec m x); simpl; lia.
Qed.

(** The upper middle value is the value at position [n / 2]. *)
Lemma upper_middle_kth (m : nat) (l : list nat) :
  is_upper_middle m l -> is_kth (length l / 2) m l.
Proof.
  intros (_ & Hle & Hge). pose proof (count_if_below m l). split; lia.
Qed.

Lemma count_if_le_lt (a b : nat) (l : list nat) :
  a < b -> count_if (fun x => x <=? a) l <= count_if (fun x => x <? b) l.
Proof.
  intros Hab. unfold count_if. induction l as [|x l IH]; simpl; [lia|].
  destruct (Nat.leb_spec x a), (Nat.ltb_spec x b); simpl; lia.
Qed.

(** A position has one value. *)
Lemma is_kth_unique (k v w : nat) (l : list nat) :
  is_kth k v l -> is_kth k w l -> v = w.
Proof.
  intros [Hv1 Hv2] [Hw1 Hw2].
  destruct (Nat.lt_trichotomy v w) as [H|[H|H]]; [|exact H|].
  - pose proof (count_if_le_lt v w l H). lia.
  - pose proof (count_if_le_lt w v l H). lia.
Qed.

(** For an odd number of values, the upper middle value is the median. *)
Lemma upper_middle_odd (m : nat) (l : list nat) :
  Nat.odd (length l) = true -> is_upper_middle m l -> is_twice_median (2 * m) l.
Proof.
  intros Hodd Hm. apply upper_middle_kth in Hm.
  apply Nat.odd_spec in Hodd as (k & Hk).
  assert (E : (length l - 1) / 2 = length l / 2).
  { rewrite Hk. replace (2 * k + 1 - 1) with (k * 2) by lia.
    rewrite Nat.div_mul by lia.
    replace (2 * k + 1) with (1 + k * 2) by lia.
    rewrite Nat.div_add by lia. reflexivity. }
  exists m, m. rewrite E. repeat split; try apply Hm. lia.
Qed.

End OrderStatistics.

(** ** The pattern analyzer *)

Section Patterns.

Lemma mean_spec (lengths : list nat) :
  lengths <> [] ->
  exists r,
    (q <- truediv (Z.of_nat (sum lengths)) (Z.of_nat (length lengths)) ;;
     Ok (round q 2)) = Ok r
    /\ nearest r (100 * Z.of_nat (sum lengths)) (Z.of_nat (length lengths)).
Proof.
  intros Hl. unfold truediv.
  destruct (Z.of_nat (length lengths)) as [|p|p] eqn:E;
    [destruct lengths; [congruence | simpl in E; lia] | | lia].
  simpl bind. eexists. split; [reflexivity|].
  unfold round. cbn [Qnum Qden].
  replace (Z.of_nat (sum lengths) * 10 ^ Z.of_nat 2)%Z
    with (100 * Z.of_nat (sum lengths))%Z
    by (change (10 ^ Z.of_nat 2)%Z with 100%Z; lia).
  apply round_half_even_nearest. lia.
Qed.

Lemma share_spec (ch : ascii) (comments : list pystr) :
  comments <> [] ->
  exists r,
    percentage (count_if (contains [ch]) comments) (length comments) = Ok r
    /\ nearest r (10000 * Z.of_nat (count_if (has_char ch) comments))
               (Z.of_nat (length comments)).
Proof.
  intros Hc.
  rewrite (count_if_ext _ (has_char ch)) by (intros; apply contains_char).
  apply percentage_spec. now rewrite length_zero_iff_nil.
Qed.

Lemma if_nonempty_eq {A B : Type} (l : list A) (e : result B) (zero : B) :
  l <> [] -> if_nonempty l e zero = e.
Proof. destruct l; [congruence | reflexivity]. Qed.

Lemma max_spec (l : list nat) :
  l <> [] ->
  exists m, max l = Ok m /\ In m l /\ Forall (fun y => y <= m) l.
Proof.
  destruct l as [|x l]; [congruence|]. intros _.
  eexists. split; [reflexivity | apply fold_max_spec].
Qed.

Lemma min_spec (l : list nat) :
  l <> [] ->
  exists m, min l = Ok m /\ In m l /\ Forall (fun y => m <= y) l.
Proof.
  destruct l as [|x l]; [congruence|]. intros _.
  eexists. split; [reflexivity | apply fold_min_spec].
Qed.

(** The pattern analyzer never raises on a non-empty list, and its
    statistics describe the list. *)
Lemma analyze_comment_patterns_spec (comments : list pystr) :
  comments <> [] ->
  exists p, analyze_comment_patterns comments = Ok (Fields p)
            /\ describes p comments.
Proof.
  intros Hc. unfold analyze_comment_patterns.
  destruct comments as [|c0 cs] eqn:Ecs; [congruence|]. rewrite <- Ecs in *.
  clear Ecs c0 cs.
  set (lengths := map (@length ascii) comments).
  assert (Hl : lengths <> []).
  { subst lengths. destruct comments; [congruence | discriminate]. }
  assert (Hlen : length lengths = length comments) by apply length_map.
  destruct (mean_spec lengths Hl) as (avg & Eavg & Havg).
  destruct (middle_is_upper_middle lengths Hl) as (med & Emed & Hmed).
  destruct (max_spec lengths Hl) as (hi & Ehi & Hhi).
  destruct (min_spec lengths Hl) as (lo & Elo & Hlo).
  destruct (share_spec "!"%char comments Hc) as (ex & Eex & Hex).
  destruct (share_spec "?"%char comments Hc) as (qu & Equ & Hqu).
  destruct (share_spec "@"%char comments Hc) as (me & Eme & Hme).
  change (str "!") with ["!"%char]. change (str "?") with ["?"%char].
  change (str "@") with ["@"%char].
  rewrite !if_nonempty_eq by assumption.
  rewrite Eavg, Emed, Ehi, Elo, Eex, Equ, Eme. simpl bind.
  eexists. split; [reflexivity|].
  unfold describes. cbn [patterns_total_comments average_length median_length
    longest_comment shortest_comment exclamation_percentage
    question_percentage mention_percentage].
  fold lengths. rewrite Hlen in Havg. unfold round_int.
  repeat split; solve [assumption | apply Hmed | apply Hhi | apply Hlo].
Qed.

Lemma analyze_comment_patterns_returns (comments : list pystr) :
  returns (analyze_comment_patterns comments).
Proof.
  destruct comments as [|c comments]; [now eexists|].
  destruct (analyze_comment_patterns_spec (c :: comments)) as (p & E & _);
    [congruence|].
  rewrite E. now eexists.
Qed.

End Patterns.

(** ** The toxicity and spam detector *)

Section Toxicity.

Lemma spam_ruleb_rule (c : pystr) : spam_ruleb c = true <-> spam_rule c.
Proof.
  unfold spam_ruleb, spam_rule.
  rewrite orb_true_iff, !andb_true_iff, !Nat.ltb_lt. reflexivity.
Qed.

(** The two branches of the spam test, and the guard around them. *)
Lemma spam_entry_cases (i : nat) (c : pystr) :
  (isupper c = true /\ 20 < length c
   /\ spam_entry i c
      = Some {| index := i; comment := excerpt c; reason := str "All caps" |})
  \/ (~ (isupper c = true /\ 20 < length c)
      /\ distinct_chars c < 5 /\ 15 < length c
      /\ spam_entry i c
         = Some {| index := i; comment := excerpt c;
                   reason := str "Repetitive characters" |})
  \/ (~ spam_rule c /\ spam_entry i c = None).
Proof.
  unfold spam_entry, spam_rule.
  destruct (Nat.ltb_spec 10 (length c)) as [H10|H10].
  - destruct (isupper c) eqn:Eu; simpl.
    + destruct (Nat.ltb_spec 20 (length c)) as [H20|H20]; [now left|].
      destruct (Nat.ltb_spec (distinct_chars c) 5) as [H5|H5]; simpl.
      * destruct (Nat.ltb_spec 15 (length c)) as [H15|H15].
        -- right; left. repeat split; try assumption. lia.
        -- right; right. split; [lia | reflexivity].
      * right; right. split; [lia | reflexivity].
    + destruct (Nat.ltb_spec (distinct_chars c) 5) as [H5|H5]; simpl.
      * destruct (Nat.ltb_spec 15 (length c)) as [H15|H15].
        -- right; left. repeat split; try assumption. intros [? _]. discriminate.
        -- right; right. split; [|reflexivity]. intros [[? _]|[_ ?]]; [discriminate | lia].
      * right; right. split; [|reflexivity]. intros [[? _]|[? _]]; [discriminate | lia].
  - right; right. split; [lia | reflexivity].
Qed.

Lemma spam_entry_rule (i : nat) (c : pystr) :
  (exists e, spam_entry i c = Some e) <-> spam_rule c.
Proof.
  destruct (spam_entry_cases i c) as [(Hu & H20 & E)|[(_ & H5 & H15 & E)|(Hn & E)]];
    rewrite E; split; intros H.
  - left. now split.
  - now eexists.
  - right. now split.
  - now eexists.
  - destruct H as (e & He). discriminate.
  - contradiction.
Qed.

Lemma spam_entry_index (i : nat) (c : pystr) (e : example) :
  spam_entry i c = Some e -> index e = i.
Proof.
  destruct (spam_entry_cases i c) as [(_ & _ & E)|[(_ & _ & _ & E)|(_ & E)]];
    rewrite E; intros H; inversion H; reflexivity.
Qed.

Lemma spam_entry_ruleb (i : nat) (c : pystr) :
  spam_ruleb c = match spam_entry i c with Some _ => true | None => false end.
Proof.
  destruct (spam_entry i c) as [e|] eqn:E.
  - apply spam_ruleb_rule, (spam_entry_rule i). now exists e.
  - destruct (spam_ruleb c) eqn:Er; [|reflexivity].
    apply spam_ruleb_rule, (spam_entry_rule i) in Er.
    destruct Er as (e & He). congruence.
Qed.

(** The entries of [spam_comments] are the entries of the comments, each
    under its own index. *)
Lemma toxicity_loop_spam (i0 : nat) (comments : list pystr) (e : example) :
  In e (snd (toxicity_loop i0 comments))
  <-> exists j c, nth_error comments j = Some c /\ spam_entry (i0 + j) c = Some e.
Proof.
  revert i0. induction comments as [|c comments IH]; intros i0; simpl.
  - split; [intros [] | intros ([|j] & c & H & _); discriminate].
  - specialize (IH (S i0)).
    destruct (toxicity_loop (S i0) comments) as [toxic spam]. cbn [snd] in *.
    split.
    + intros Hin.
      assert (Hcase : spam_entry i0 c = Some e \/ In e spam).
      { destruct (spam_entry i0 c); simpl in Hin; [|now right].
        destruct Hin as [->|Hin]; [now left | now right]. }
      destruct Hcase as [E|Hin'].
      * exists 0, c. now rewrite Nat.add_0_r.
      * apply IH in Hin' as (j & c' & Hj & E). exists (S j), c'.
        split; [exact Hj|]. now rewrite Nat.add_succ_r.
    + intros ([|j] & c' & Hj & E); simpl in Hj.
      * injection Hj as ->. rewrite Nat.add_0_r in E. rewrite E. now left.
      * assert (Hin' : In e spam).
        { apply IH. exists j, c'. split; [exact Hj|].
          now rewrite Nat.add_succ_r in E. }
        destruct (spam_entry i0 c); simpl; auto.
Qed.

Lemma toxicity_loop_spam_length (i0 : nat) (comments : list pystr) :
  length (snd (toxicity_loop i0 comments)) = count_if spam_ruleb comments.
Proof.
  revert i0. induction comments as [|c comments IH]; intros i0; simpl;
    [reflexivity|].
  specialize (IH (S i0)).
  destruct (toxicity_loop (S i0) comments) as [toxic spam]. cbn [snd] in *.
  unfold count_if in *. simpl. rewrite (spam_entry_ruleb i0 c).
  destruct (spam_entry i0 c); simpl; congruence.
Qed.

Lemma guarded_percentage_returns (count total : nat) :
  returns (guarded_percentage count total).
Proof.
  unfold guarded_percentage. destruct (Nat.ltb_spec 0 total).
  - apply percentage_returns. lia.
  - now eexists.
Qed.

Lemma detect_toxicity_spec (comments : list pystr) :
  exists r, detect_toxicity comments = Ok r
            /\ toxicity_total_comments r = length comments
            /\ spam_comments r = length (spam_list comments)
            /\ spam_examples r = firstn 5 (spam_list comments).
Proof.
  unfold detect_toxicity, spam_list.
  destruct (toxicity_loop 0 comments) as [toxic spam]. cbn [snd].
  destruct (guarded_percentage_returns (length toxic) (length comments)) as (t & Et).
  destruct (guarded_percentage_returns (length spam) (length comments)) as (s & Es).
  rewrite Et, Es. simpl. eexists. repeat split; reflexivity.
Qed.

Lemma detect_toxicity_returns (comments : list pystr) :
  returns (detect_toxicity comments).
Proof.
  destruct (detect_toxicity_spec comments) as (r & E & _). now exists r.
Qed.

Lemma distinct_chars_repeat (ch : ascii) (n : nat) :
  distinct_chars (repeat ch (S n)) = 1.
Proof.
  unfold distinct_chars. induction n as [|n IH].
  - reflexivity.
  - change (repeat ch (S (S n))) with (ch :: repeat ch (S n)).
    cbn [nodup].
    destruct (in_dec ascii_dec ch (repeat ch (S n))) as [_|N]; [exact IH|].
    exfalso. apply N. now left.
Qed.

End Toxicity.

(** ** Text cleaning *)

Section Cleaning.
Variable P : ascii -> Prop.

Lemma lstrip_Forall (s : pystr) : Forall P s -> Forall P (lstrip s).
Proof.
  induction 1 as [|c s Hc Hs IH]; simpl; [constructor|].
  destruct (isspace c); [exact IH | now constructor].
Qed.

Lemma strip_Forall (s : pystr) : Forall P s -> Forall P (strip s).
Proof.
  intros H. unfold strip, rstrip.
  apply Forall_rev, lstrip_Forall, Forall_rev, lstrip_Forall, H.
Qed.

Lemma split_loop_Forall (word s : pystr) :
  Forall P word -> Forall P s -> Forall (Forall P) (split_loop word s).
Proof.
  intros Hw Hs. revert word Hw.
  induction Hs as [|c s Hc Hs IH]; intros word Hw; simpl.
  - destruct word; repeat constructor. now apply Forall_rev.
  - destruct (isspace c).
    + destruct word.
      * now apply IH.
      * constructor; [now apply Forall_rev | now apply IH].
    + apply IH. now constructor.
Qed.

Lemma join_Forall (sep : pystr) (l : list pystr) :
  Forall P sep -> Forall (Forall P) l -> Forall P (join sep l).
Proof.
  intros Hsep. induction 1 as [|w l Hw Hl IH]; simpl; [constructor|].
  destruct l; [exact Hw|].
  apply Forall_app. split; [exact Hw|]. apply Forall_app. now split.
Qed.

End Cleaning.

Section CleanText.

(** Every character of a cleaned text is one the second substitution
    keeps. *)
Lemma clean_text_kept (text : pystr) :
  Forall (fun c => kept_char c = true) (clean_text text).
Proof.
  unfold clean_text. destruct text as [|c text]; [constructor|].
  apply strip_Forall, join_Forall.
  - repeat constructor.
  - apply split_loop_Forall; [constructor|].
    unfold remove_special. apply Forall_forall. intros x Hx.
    now apply filter_In in Hx.
Qed.

Lemma clean_text_no_mention (text : pystr) :
  has_char "@"%char (clean_text text) = false.
Proof.
  destruct (has_char "@"%char (clean_text text)) eqn:E; [|reflexivity].
  apply has_char_In in E.
  pose proof (clean_text_kept text) as H. rewrite Forall_forall in H.
  apply H in E. discriminate.
Qed.

Lemma cleaned_comments_no_mention (comments : list pystr) :
  count_if (has_char "@"%char) (cleaned_comments comments) = 0.
Proof.
  apply count_if_none. unfold cleaned_comments.
  apply Forall_forall. intros x Hx. apply in_map_iff in Hx as (y & <- & _).
  apply clean_text_no_mention.
Qed.

Lemma cleaned_comments_nil (comments : list pystr) :
  cleaned_comments comments = []
  <-> Forall (fun c => nonblank c = false) comments.
Proof.
  unfold cleaned_comments. split.
  - intros H. apply map_eq_nil in H.
    induction comments as [|c comments IH]; [constructor|].
    simpl in H. destruct (nonblank c) eqn:E; [discriminate|].
    constructor; [exact E | now apply IH].
  - induction 1 as [|c comments Hc _ IH]; [reflexivity|].
    simpl. now rewrite Hc.
Qed.

End CleanText.

Section Subsequences.

Lemma subseq_refl (s : pystr) : subseq s s.
Proof. induction s; constructor; assumption. Qed.

Lemma subseq_trans (s t u : pystr) : subseq s t -> subseq t u -> subseq s u.
Proof.
  intros Hst Htu. revert s Hst.
  induction Htu as [u|x t u Htu IH|y t u Htu IH]; intros s Hst.
  - inversion Hst. constructor.
  - inversion Hst as [|? s' ? Hs'|? ? ? Hs']; subst.
    + constructor.
    + constructor. now apply IH.
    + apply subseq_skip. now apply IH.
  - apply subseq_skip. now apply IH.
Qed.

Lemma subseq_length (s t : pystr) : subseq s t -> length s <= length t.
Proof. induction 1; simpl; lia. Qed.

Lemma subseq_suffix (pre s : pystr) : subseq s (pre ++ s).
Proof.
  induction pre as [|a pre IH]; simpl; [apply subseq_refl | now constructor].
Qed.

Lemma subseq_app (s1 t1 s2 t2 : pystr) :
  subseq s1 t1 -> subseq s2 t2 -> subseq (s1 ++ s2) (t1 ++ t2).
Proof.
  intros H1 H2. induction H1 as [t|x s t H IH|y s t H IH]; simpl.
  - eapply subseq_trans; [exact H2 | apply subseq_suffix].
  - now constructor.
  - now constructor.
Qed.

Lemma subseq_rev (s t : pystr) : subseq s t -> subseq (rev s) (rev t).
Proof.
  induction 1 as [t|x s t H IH|y s t H IH]; simpl.
  - constructor.
  - apply subseq_app; [exact IH | apply subseq_refl].
  - rewrite <- (app_nil_r (rev s)). apply subseq_app; [exact IH | constructor].
Qed.

Lemma subseq_filter (p : ascii -> bool) (t : pystr) : subseq (filter p t) t.
Proof.
  induction t as [|a t IH]; simpl; [constructor|].
  destruct (p a); now constructor.
Qed.

Lemma lstrip_suffix (s : pystr) : subseq (lstrip s) s.
Proof.
  induction s as [|c s IH]; simpl; [constructor|].
  destruct (isspace c); [now constructor | apply subseq_refl].
Qed.

Lemma subseq_lstrip (s t : pystr) : subseq s t -> subseq (lstrip s) (lstrip t).
Proof.
  induction 1 as [t|x s t H IH|y s t H IH]; simpl.
  - constructor.
  - destruct (isspace x); [exact IH | now constructor].
  - destruct (isspace y); [exact IH|].
    constructor. eapply subseq_trans; [apply lstrip_suffix | exact H].
Qed.

Lemma subseq_rstrip (s t : pystr) : subseq s t -> subseq (rstrip s) (rstrip t).
Proof.
  intros H. unfold rstrip. now apply subseq_rev, subseq_lstrip, subseq_rev.
Qed.

Lemma subseq_strip (s t : pystr) : subseq s t -> subseq (strip s) (strip t).
Proof.
  intros H. unfold strip. now apply subseq_rstrip, subseq_lstrip.
Qed.

Lemma rstrip_suffix (s : pystr) : subseq (rstrip s) s.
Proof.
  unfold rstrip. rewrite <- (rev_involutive s) at 2.
  apply subseq_rev, lstrip_suffix.
Qed.

Lemma strip_length (s : pystr) : length (strip s) <= length s.
Proof.
  apply subseq_length. unfold strip.
  eapply subseq_trans; [apply rstrip_suffix | apply lstrip_suffix].
Qed.

(** What [rstrip] does to a string with one more character in front. *)
Lemma lstrip_snoc (x : pystr) (c : ascii) :
  lstrip (x ++ [c])
  = match lstrip x with
    | [] => lstrip [c]
    | _ => lstrip x ++ [c]
    end.
Proof.
  induction x as [|a x IH]; simpl; [reflexivity|].
  destruct (isspace a); [exact IH | reflexivity].
Qed.

Lemma rstrip_cons (c : ascii) (s : pystr) :
  rstrip (c :: s)
  = match rstrip s with
    | [] => if isspace c then [] else [c]
    | _ => c :: rstrip s
    end.
Proof.
  unfold rstrip. simpl rev. rewrite lstrip_snoc.
  destruct (lstrip (rev s)) as [|a r] eqn:E; simpl.
  - destruct (isspace c); reflexivity.
  - rewrite rev_app_distr. simpl.
    destruct (rev r ++ [a]) eqn:E'; [now destruct (rev r)|reflexivity].
Qed.

Lemma rstrip_nil_split (s : pystr) : rstrip s = [] -> split_loop [] s = [].
Proof.
  induction s as [|c s IH]; [reflexivity|].
  rewrite rstrip_cons. simpl.
  destruct (rstrip s) eqn:E; [|discriminate].
  destruct (isspace c); [intros _; now apply IH | discriminate].
Qed.

(** The words of a text, joined by single spaces, are not longer than the
    text without the whitespace around it. *)
Lemma split_loop_length (word s : pystr) :
  length (join (str " ") (split_loop word s))
  <= match word with
     | [] => length (strip s)
     | _ => length word + length (rstrip s)
     end.
Proof.
  revert word. induction s as [|c s IH]; intros word.
  - simpl. destruct word; simpl; [lia|]. rewrite length_app, length_rev. simpl. lia.
  - pose proof (rstrip_cons c s) as Hr. simpl split_loop.
    destruct (isspace c) eqn:Ec.
    + destruct word as [|a word].
      * specialize (IH []). unfold strip in *. simpl lstrip. rewrite Ec. exact IH.
      * specialize (IH []). cbn iota.
        assert (Hx : length (rev (a :: word)) = length (a :: word)) by apply length_rev.
        set (x := rev (a :: word)) in *.
        destruct (split_loop [] s) as [|w ws] eqn:Es.
        -- cbn [join]. lia.
        -- assert (Hne : rstrip s <> []).
           { intros E. apply rstrip_nil_split in E. congruence. }
           destruct (rstrip s) as [|b r] eqn:Ers; [congruence|].
           rewrite Hr.
           assert (Hle : length (strip s) <= length (rstrip s)).
           { apply subseq_length. unfold strip. apply subseq_rstrip, lstrip_suffix. }
           rewrite Ers in Hle.
           change (join (str " ") (x :: w :: ws))
             with (x ++ str " " ++ join (str " ") (w :: ws)).
           rewrite !length_app, Hx. simpl length in *. lia.
    + specialize (IH (c :: word)). cbn match in IH.
      assert (Hc : rstrip (c :: s) = c :: rstrip s).
      { rewrite Hr. destruct (rstrip s); reflexivity. }
      destruct word as [|a word].
      * unfold strip. simpl lstrip. rewrite Ec, Hc. simpl in *. lia.
      * rewrite Hc. simpl in *. lia.
Qed.

End Subsequences.

Section UrlRemoval.

(** A round of the group leaves a proper suffix. *)
Lemma url_group_suffix (s rest : pystr) :
  url_group s = Some rest -> exists pre, pre <> [] /\ s = pre ++ rest.
Proof.
  unfold url_group. destruct s as [|c s]; [discriminate|].
  destruct (url_letter c || url_digit c || url_punct c || url_escaped c).
  - intros [= <-]. now exists [c].
  - destruct s as [|h1 [|h2 s]]; try discriminate.
    destruct (at_code 37 c && hex_digit h1 && hex_digit h2); [|discriminate].
    intros [= <-]. now exists [c; h1; h2].
Qed.

Lemma url_groups_suffix (fuel : nat) (s : pystr) :
  exists pre, s = pre ++ url_groups fuel s.
Proof.
  revert s. induction fuel as [|fuel IH]; intros s; simpl.
  - now exists [].
  - destruct (url_group s) as [s'|] eqn:E; [|now exists []].
    apply url_group_suffix in E as (pre & _ & ->).
    destruct (IH s') as (pre' & E'). exists (pre ++ pre').
    now rewrite <- app_assoc, <- E'.
Qed.

(** With fuel for every character, the repetition stops only where no
    round of the group matches. *)
Lemma url_groups_maximal (fuel : nat) (s : pystr) :
  length s <= fuel -> url_group (url_groups fuel s) = None.
Proof.
  revert s. induction fuel as [|fuel IH]; intros s Hs; simpl.
  - destruct s; [reflexivity | simpl in Hs; lia].
  - destruct (url_group s) as [s'|] eqn:E; [|exact E].
    apply IH. apply url_group_suffix in E as (pre & Hpre & ->).
    rewrite length_app in Hs. destruct pre; [congruence | simpl in Hs; lia].
Qed.

Lemma url_tail_suffix (s rest : pystr) :
  url_tail s = Some rest -> exists pre, pre <> [] /\ s = pre ++ rest.
Proof.
  unfold url_tail. destruct (startswith (str "://") s); [|discriminate].
  destruct (url_group (skipn 3 s)) as [s'|] eqn:E; [|discriminate].
  intros [= <-]. apply url_group_suffix in E as (pre & Hpre & E).
  destruct (url_groups_suffix (length s') s') as (pre' & E').
  exists (firstn 3 s ++ pre ++ pre'). split.
  - destruct pre; [congruence|]. now destruct (firstn 3 s).
  - rewrite <- (firstn_skipn 3 s) at 1. rewrite E, E' at 1.
    now rewrite <- !app_assoc.
Qed.

Lemma url_match_suffix (s rest : pystr) :
  url_match s = Some rest -> exists pre, pre <> [] /\ s = pre ++ rest.
Proof.
  unfold url_match. destruct (startswith (str "http") s); [|discriminate].
  assert (Hs1 : forall r, url_tail (skipn 4 s) = Some r ->
                          exists pre, pre <> [] /\ s = pre ++ r).
  { intros r E. apply url_tail_suffix in E as (pre & Hpre & E).
    exists (firstn 4 s ++ pre). split.
    - destruct pre; [congruence|]. now destruct (firstn 4 s).
    - rewrite <- (firstn_skipn 4 s) at 1. rewrite E. now rewrite app_assoc. }
  destruct (skipn 4 s) as [|c s2] eqn:E4; [now apply Hs1|].
  destruct (at_code 115 c); [|now apply Hs1].
  destruct (url_tail s2) as [r|] eqn:E2; [|now apply Hs1].
  intros [= <-]. apply url_tail_suffix in E2 as (pre & Hpre & E2).
  exists (firstn 4 s ++ c :: pre). split.
  - now destruct (firstn 4 s).
  - rewrite <- (firstn_skipn 4 s) at 1. rewrite E4, E2.
    now rewrite <- app_assoc.
Qed.

(** The first substitution only leaves characters out, and the fuel it
    is given is enough: more fuel changes nothing. *)
Lemma remove_urls_loop_subseq (fuel : nat) (s : pystr) :
  subseq (remove_urls_loop fuel s) s.
Proof.
  revert s. induction fuel as [|fuel IH]; intros s; simpl; [apply subseq_refl|].
  destruct s as [|c s]; [constructor|].
  destruct (url_match (c :: s)) as [rest|] eqn:E.
  - apply url_match_suffix in E as (pre & _ & ->).
    eapply subseq_trans; [apply IH | apply subseq_suffix].
  - constructor. apply IH.
Qed.

Lemma remove_urls_fuel (fuel : nat) (s : pystr) :
  length s <= fuel -> remove_urls_loop fuel s = remove_urls s.
Proof.
  unfold remove_urls. remember (length s) as n eqn:En.
  assert (Hn : length s <= n) by lia. clear En.
  revert fuel s Hn. induction n as [|n IH]; intros fuel s Hn Hf.
  - destruct s; [|simpl in Hn; lia]. now destruct fuel.
  - destruct fuel as [|fuel]; [lia|]. simpl.
    destruct s as [|c s]; [reflexivity|].
    destruct (url_match (c :: s)) as [rest|] eqn:E.
    + apply url_match_suffix in E as (pre & Hpre & E).
      assert (length rest <= n).
      { apply (f_equal (@length ascii)) in E. rewrite length_app in E.
        destruct pre; [congruence|]. simpl in *. lia. }
      apply IH; lia.
    + f_equal. simpl in Hn. apply IH; lia.
Qed.

Lemma clean_text_length (text : pystr) :
  length (clean_text text) <= length (strip text).
Proof.
  unfold clean_text. destruct text as [|c text]; [simpl; lia|].
  cbv zeta. set (t := remove_special (remove_urls (c :: text))).
  assert (Hsub : subseq t (c :: text)).
  { eapply subseq_trans; [apply subseq_filter | apply remove_urls_loop_subseq]. }
  apply subseq_strip, subseq_length in Hsub.
  pose proof (strip_length (join (str " ") (split t))) as H1.
  pose proof (split_loop_length [] t) as H2. cbn match in H2.
  unfold split in *. lia.
Qed.

(** Cleaning does not make a short comment long. *)
Lemma clean_text_too_short (text : pystr) :
  too_short text -> too_short (clean_text text).
Proof.
  unfold too_short. intros H.
  pose proof (strip_length (clean_text text)).
  pose proof (clean_text_length text). lia.
Qed.

End UrlRemoval.

(** ** The pipeline *)

Section Pipeline.
Variable self : CommentAnalyzer.

(** On a list with a comment that is not blank, the pipeline runs the
    passes on the cleaned comments and assembles what they return. *)
Lemma get_comprehensive_analysis_spec (comments : list pystr) :
  cleaned_comments comments <> [] ->
  let cleaned := cleaned_comments comments in
  exists sentiment emotion toxicity patterns,
    analyze_sentiment self cleaned = Ok sentiment
    /\ analyze_emotions self cleaned = Ok emotion
    /\ detect_toxicity cleaned = Ok toxicity
    /\ analyze_comment_patterns cleaned = Ok (Fields patterns)
    /\ describes patterns cleaned
    /\ get_comprehensive_analysis self comments
       = Ok (Fields {| sentiment_analysis := sentiment;
                       emotion_analysis := emotion;
                       toxicity_analysis := toxicity;
                       keywords := extract_keywords self cleaned default_top_n;
                       comment_patterns := Fields patterns;
                       wordcloud := generate_wordcloud self cleaned |}).
Proof.
  intros Hcl. cbv zeta.
  remember (cleaned_comments comments) as cleaned eqn:Ecl.
  destruct (analyze_sentiment_returns self cleaned) as (sa & Esa).
  destruct (analyze_emotions_returns self cleaned) as (em & Eem).
  destruct (detect_toxicity_returns cleaned) as (tox & Etox).
  destruct (analyze_comment_patterns_spec cleaned Hcl) as (p & Ep & Hp).
  exists sa, em, tox, p. repeat (split; [assumption|]).
  unfold get_comprehensive_analysis.
  destruct comments as [|c comments]; [now subst cleaned; elim Hcl|].
  rewrite <- Ecl. destruct cleaned as [|c' cleaned']; [congruence|].
  rewrite Esa, Eem, Etox, Ep. reflexivity.
Qed.

Lemma get_comprehensive_analysis_returns (comments : list pystr) :
  returns (get_comprehensive_analysis self comments).
Proof.
  destruct comments as [|c comments]; [now eexists|].
  destruct (cleaned_comments (c :: comments)) as [|c' cleaned'] eqn:E.
  - unfold get_comprehensive_analysis. rewrite E. now eexists.
  - destruct (get_comprehensive_analysis_spec (c :: comments))
      as (sa & em & tox & p & _ & _ & _ & _ & _ & Eq); [congruence|].
    rewrite Eq. now eexists.
Qed.

(** The parts of a report the pipeline returned. *)
Lemma get_comprehensive_analysis_report (comments : list pystr) (r : Analysis) :
  get_comprehensive_analysis self comments = Ok (Fields r) ->
  let cleaned := cleaned_comments comments in
  cleaned <> []
  /\ analyze_sentiment self cleaned = Ok (sentiment_analysis r)
  /\ analyze_emotions self cleaned = Ok (emotion_analysis r)
  /\ detect_toxicity cleaned = Ok (toxicity_analysis r)
  /\ keywords r = extract_keywords self cleaned default_top_n
  /\ exists p, comment_patterns r = Fields p /\ describes p cleaned.
Proof.
  intros E. cbv zeta.
  assert (Hcl : cleaned_comments comments <> []).
  { intros Hnil. unfold get_comprehensive_analysis in E.
    destruct comments; [discriminate|].
    rewrite Hnil in E. discriminate. }
  split; [exact Hcl|].
  destruct (get_comprehensive_analysis_spec comments Hcl)
    as (sa & em & tox & p & Esa & Eem & Etox & Ep & Hp & Eq).
  rewrite E in Eq. injection Eq as ->. cbn.
  repeat (split; [assumption || reflexivity|]).
  exists p. now split.
Qed.

End Pipeline.

(** ** Keyword extraction *)

Section MostCommon.

Lemma StronglySorted_app_inv {A : Type} (R : A -> A -> Prop) (l1 l2 : list A) :
  StronglySorted R (l1 ++ l2) ->
  StronglySorted R l1 /\ forall x y, In x l1 -> In y l2 -> R x y.
Proof.
  induction l1 as [|a l1 IH]; simpl; intros H.
  - split; [constructor | intros x y []].
  - inversion H as [|? ? Hs Hall]; subst. destruct (IH Hs) as [IH1 IH2].
    rewrite Forall_app in Hall. destruct Hall as [Hall1 Hall2]. split.
    + now constructor.
    + intros x y [<-|Hx] Hy; [|now apply IH2].
      rewrite Forall_forall in Hall2. now apply Hall2.
Qed.

Lemma by_count_sorted (m : counter) :
  StronglySorted (fun x y => snd y <= snd x)
    (sorted_by (fun x y => snd y <=? snd x) m).
Proof.
  apply Sorted_StronglySorted.
  - intros x y z Hxy Hyz. cbv beta in *. lia.
  - assert (H : Sorted (fun x y => (snd y <=? snd x) = true)
                       (sorted_by (fun x y => snd y <=? snd x) m)).
    { apply (sorted_by_sorted (fun x y : pystr * nat => snd y <=? snd x)).
      intros x y H. apply Nat.leb_gt in H. apply Nat.leb_le. lia. }
    induction H as [|a s _ IH Hhd]; constructor; [exact IH|].
    destruct Hhd as [|b s' Hb]; constructor. now apply Nat.leb_le.
Qed.

(** [most_common]: at most [n] items of the counter, by decreasing
    count, and no item left out has a larger count than one returned. *)
Lemma most_common_spec (m : counter) (n : Z) :
  let top := most_common m n in
  incl top m
  /\ StronglySorted (fun x y => snd y <= snd x) top
  /\ length top = Nat.min (Z.to_nat n) (length m)
  /\ forall x, In x m -> In x top \/ forall y, In y top -> snd x <= snd y.
Proof.
  unfold most_common.
  set (s := sorted_by (fun x y => snd y <=? snd x) m).
  assert (Hp : Permutation s m) by apply sorted_by_perm.
  pose proof (by_count_sorted m) as Hs. fold s in Hs.
  rewrite <- (firstn_skipn (Z.to_nat n) s) in Hs.
  apply StronglySorted_app_inv in Hs as [Hs1 Hs2].
  cbv zeta. repeat split.
  - intros x Hx. apply (Permutation_in _ Hp).
    rewrite <- (firstn_skipn (Z.to_nat n) s). apply in_or_app. now left.
  - exact Hs1.
  - rewrite length_firstn. now rewrite (Permutation_length Hp).
  - intros x Hx. apply (Permutation_in _ (Permutation_sym Hp)) in Hx.
    rewrite <- (firstn_skipn (Z.to_nat n) s) in Hx.
    apply in_app_or in Hx as [Hx|Hx]; [now left | right].
    intros y Hy. now apply (Hs2 y x).
Qed.

End MostCommon.

Section Keywords.
Variable self : CommentAnalyzer.

Lemma flat_map_filter {A B : Type} (p : B -> bool) (f : A -> list B) (l : list A) :
  flat_map (fun x => filter p (f x)) l = filter p (flat_map f l).
Proof.
  induction l as [|x l IH]; simpl; [reflexivity|].
  now rewrite filter_app, IH.
Qed.

(** The words that are counted are the tokens that pass the filter. *)
Lemma all_words_filter (comments : list pystr) :
  all_words self comments = filter (keeps_word self) (all_tokens self comments).
Proof.
  unfold all_words, all_tokens, filtered_words. apply flat_map_filter.
Qed.

Lemma occurrences_filter (p : pystr -> bool) (w : pystr) (l : list pystr) :
  p w = true -> occurrences w (filter p l) = occurrences w l.
Proof.
  intros Hw. induction l as [|x l IH]; [reflexivity|].
  simpl filter. destruct (p x) eqn:Ex.
  - rewrite !occurrences_cons, IH. reflexivity.
  - rewrite occurrences_cons, IH.
    replace (str_eqb w x) with false; [reflexivity|].
    symmetry. apply str_eqb_neq. congruence.
Qed.

Lemma keeps_word_spec (w : pystr) :
  keeps_word self w = true
  <-> isalpha w = true /\ 2 < length w /\ ~ In w (stop_words self).
Proof.
  unfold keeps_word. rewrite !andb_true_iff, Nat.ltb_lt, negb_true_iff.
  rewrite <- mem_In. destruct (mem w (stop_words self)); intuition congruence.
Qed.

Lemma Counter_length (l : list pystr) :
  length (Counter l) = length (nodup (list_eq_dec ascii_dec) l).
Proof.
  rewrite <- (length_map fst). apply Permutation_length.
  apply NoDup_Permutation.
  - apply well_formed_Counter.
  - apply NoDup_nodup.
  - intros w. rewrite nodup_In, in_map_iff. split.
    + intros ([w' n] & <- & Hin). apply In_Counter in Hin as [-> Hpos].
      now apply occurrences_pos.
    + intros Hin. exists (w, occurrences w l). split; [reflexivity|].
      now apply Counter_In.
Qed.

(** What [extract_keywords] returns. *)
Lemma extract_keywords_spec (comments : list pystr) (top_n : Z) :
  let tokens := all_tokens self comments in
  let words := filter (keeps_word self) tokens in
  let ks := extract_keywords self comments top_n in
  (forall k, In k ks ->
     keeps_word self (word k) = true
     /\ In (word k) tokens
     /\ count k = occurrences (word k) tokens)
  /\ StronglySorted (fun a b => count b <= count a) ks
  /\ NoDup (map word ks)
  /\ length ks = Nat.min (Z.to_nat top_n)
                         (length (nodup (list_eq_dec ascii_dec) words))
  /\ (forall w, In w words ->
        (exists k, In k ks /\ word k = w)
        \/ (forall k, In k ks -> occurrences w tokens <= count k)).
Proof.
  cbv zeta. unfold extract_keywords. rewrite all_words_filter.
  set (tokens := all_tokens self comments).
  set (words := filter (keeps_word self) tokens).
  set (f := fun '(word, count) => {| word := word; count := count |}).
  assert (Hf1 : forall x, word (f x) = fst x) by (now intros []).
  assert (Hf2 : forall x, count (f x) = snd x) by (now intros []).
  destruct (most_common_spec (Counter words) top_n) as (Hincl & Hs & Hlen & Htop).
  set (top := most_common (Counter words) top_n) in *.
  assert (Hitem : forall x, In x top ->
            keeps_word self (fst x) = true
            /\ In (fst x) tokens /\ snd x = occurrences (fst x) tokens).
  { intros [w n] Hx. apply Hincl, In_Counter in Hx as [-> Hpos].
    apply occurrences_pos in Hpos. subst words.
    apply filter_In in Hpos as [Hin Hk]. cbn [fst snd].
    repeat split; try assumption. now apply occurrences_filter. }
  split; [|split; [|split; [|split]]].
  - intros k Hk. apply in_map_iff in Hk as (x & <- & Hx).
    rewrite Hf1, Hf2. now apply Hitem.
  - clear -Hs Hf2. induction Hs as [|a l Hs IH Hall]; simpl; constructor.
    + exact IH.
    + apply Forall_map. eapply Forall_impl; [|exact Hall].
      intros b Hb. now rewrite !Hf2.
  - rewrite map_map. rewrite (map_ext _ fst Hf1).
    assert (Hnd : NoDup (map fst (Counter words))) by apply well_formed_Counter.
    assert (Hsub : exists rest, Permutation (top ++ rest) (Counter words)).
    { exists (skipn (Z.to_nat top_n)
                (sorted_by (fun x y => snd y <=? snd x) (Counter words))).
      subst top. unfold most_common. rewrite firstn_skipn.
      apply sorted_by_perm. }
    destruct Hsub as (rest & Hperm).
    apply (Permutation_map fst) in Hperm. rewrite map_app in Hperm.
    apply (Permutation_NoDup (Permutation_sym Hperm)) in Hnd.
    now apply NoDup_app_remove_r in Hnd.
  - rewrite length_map, Hlen. now rewrite Counter_length.
  - intros w Hw.
    assert (Hk : keeps_word self w = true) by (subst words; now apply filter_In in Hw).
    destruct (Htop (w, occurrences w words) (Counter_In _ _ Hw)) as [Hin|Hle].
    + left. exists (f (w, occurrences w words)). split; [now apply in_map|].
      now rewrite Hf1.
    + right. intros k Hkin. apply in_map_iff in Hkin as (x & <- & Hx).
      rewrite Hf2. specialize (Hle x Hx). cbn [snd] in Hle.
      subst words. now rewrite occurrences_filter in Hle.
Qed.

End Keywords.

(** ** The heuristic fallback *)

Section HeuristicFallback.
Variable self : CommentAnalyzer.
Hypothesis no_transformers : sentiment_analyzer self = None.
Hypothesis no_textblob : textblob self = None.

Lemma fallback_sentiment_of (c : pystr) :
  sentiment_of self c = sentiment_of heuristic_only c.
Proof.
  unfold sentiment_of, transformers_sentiment, textblob_sentiment.
  now rewrite no_transformers, no_textblob.
Qed.

Lemma fallback_sentiment_loop (l : list pystr) :
  sentiment_loop self l = sentiment_loop heuristic_only l.
Proof.
  induction l as [|c l IH]; simpl; [reflexivity|].
  now rewrite IH, fallback_sentiment_of.
Qed.

Lemma fallback_analyze_sentiment (l : list pystr) :
  analyze_sentiment self l = analyze_sentiment heuristic_only l.
Proof. unfold analyze_sentiment. now rewrite fallback_sentiment_loop. Qed.

End HeuristicFallback.

(** ** The properties of the specification *)

(** C1, as the code has it. With no sentiment backend (neither the
    transformers pipeline nor TextBlob), the pipeline on
    ["I love this!!", "I HATE THIS SO MUCH"] returns a report whose
    sentiment distribution is {POSITIVE: 1, NEGATIVE: 1} and whose
    exclamation_percentage is 50.0: one comment of the two has a '!'. *)
Theorem C1_love_hate_report (self : CommentAnalyzer) :
  sentiment_analyzer self = None ->
  textblob self = None ->
  exists r s p,
    get_comprehensive_analysis self love_hate = Ok (Fields r)
    /\ sentiment_analysis r = Fields s
    /\ sentiment_distribution s = [(str "POSITIVE", 1); (str "NEGATIVE", 1)]
    /\ comment_patterns r = Fields p
    /\ exclamation_percentage p = 5000%Z.
Proof.
  intros Hs Ht.
  destruct (get_comprehensive_analysis_spec self love_hate)
    as (sa & em & tox & p & Esa & Eem & Etox & Ep & Hp & Eq);
    [vm_compute; discriminate|].
  rewrite (fallback_analyze_sentiment self Hs Ht) in Esa.
  vm_compute in Esa. injection Esa as <-.
  vm_compute in Ep. injection Ep as <-.
  rewrite Eq. do 3 eexists. repeat split; reflexivity.
Qed.

Lemma C1_love_hate_report_witness :
  exists r s p,
    get_comprehensive_analysis heuristic_only love_hate = Ok (Fields r)
    /\ sentiment_analysis r = Fields s
    /\ sentiment_distribution s = [(str "POSITIVE", 1); (str "NEGATIVE", 1)]
    /\ comment_patterns r = Fields p
    /\ exclamation_percentage p = 5000%Z.
Proof.
  apply (C1_love_hate_report heuristic_only); reflexivity.
Defined.

(** C1, as the specification states it, fails: on that input, with the
    heuristic fallback only, the exclamation_percentage of the report is
    50.0 and not 100.0. *)
Lemma C1_exclamation_percentage_not_100 :
  exists r p,
    get_comprehensive_analysis heuristic_only love_hate = Ok (Fields r)
    /\ comment_patterns r = Fields p
    /\ exclamation_percentage p = 5000%Z
    /\ exclamation_percentage p <> 10000%Z.
Proof.
  do 2 eexists. split; [vm_compute; reflexivity|].
  split; [reflexivity|]. split; [reflexivity|]. discriminate.
Qed.

(** C2, where the code departs from it. The comment "@@@" is not blank, so
    the filter lets it through; cleaning turns it into the empty string,
    and the pipeline, whatever its backends, does not answer "No valid
    comments after cleaning" but runs the passes on that empty string: the
    pattern statistics count one comment, of length 0. *)
Theorem C2_cleaned_blank_comment_is_analysed (self : CommentAnalyzer) :
  cleaned_comments [str "@@@"] = [[]]
  /\ exists r p,
       get_comprehensive_analysis self [str "@@@"] = Ok (Fields r)
       /\ comment_patterns r = Fields p
       /\ patterns_total_comments p = 1
       /\ longest_comment p = 0.
Proof.
  split; [reflexivity|].
  destruct (get_comprehensive_analysis_spec self [str "@@@"])
    as (sa & em & tox & p & _ & _ & _ & Ep & _ & Eq);
    [vm_compute; discriminate|].
  vm_compute in Ep. injection Ep as <-.
  rewrite Eq. do 2 eexists. repeat split; reflexivity.
Qed.

(** C3. When the sentiment pass (resp. the emotion pass) returns a report,
    the values of its percentage dictionary, one for each label of the
    distribution, sum to 100 up to the rounding of each value to two
    decimals: the sum is off by at most half a hundredth for each label. *)
Theorem C3_percentages_sum_to_100 (self : CommentAnalyzer) (comments : list pystr) :
  (forall s, analyze_sentiment self comments = Ok (Fields s) ->
     map fst (sentiment_percentages s) = map fst (sentiment_distribution s)
     /\ (2 * Z.abs (total_of (sentiment_percentages s) - 10000)
         <= Z.of_nat (length (sentiment_percentages s)))%Z)
  /\ (forall s, analyze_emotions self comments = Ok (Fields s) ->
        map fst (emotion_percentages s) = map fst (emotion_distribution s)
        /\ (2 * Z.abs (total_of (emotion_percentages s) - 10000)
            <= Z.of_nat (length (emotion_percentages s)))%Z).
Proof.
  split; intros s E.
  - apply analyze_sentiment_fields in E as (Hne & Hd & Hp).
    destruct (percentages_sum _ _ Hne Hp) as [Hsum Hkeys].
    rewrite Hd. now split.
  - apply analyze_emotions_fields in E as (Hne & Hd & Hp).
    destruct (percentages_sum _ _ Hne Hp) as [Hsum Hkeys].
    rewrite Hd. now split.
Qed.

Lemma C3_percentages_sum_to_100_witness :
  exists s e,
    analyze_sentiment heuristic_only love_hate = Ok (Fields s)
    /\ analyze_emotions heuristic_only love_hate = Ok (Fields e)
    /\ (2 * Z.abs (total_of (sentiment_percentages s) - 10000)
        <= Z.of_nat (length (sentiment_percentages s)))%Z
    /\ (2 * Z.abs (total_of (emotion_percentages e) - 10000)
        <= Z.of_nat (length (emotion_percentages e)))%Z.
Proof.
  destruct (C3_percentages_sum_to_100 heuristic_only love_hate) as [Hs He].
  do 2 eexists.
  split; [vm_compute; reflexivity|]. split; [vm_compute; reflexivity|].
  split.
  - eapply Hs. vm_compute. reflexivity.
  - eapply He. vm_compute. reflexivity.
Defined.

(** C4. For every analyzer, the pipeline answers a list that is empty, or
    has only blank comments, or whose comments are all shorter than 3
    characters once trimmed (before cleaning, or after it), with a value (it
    raises no exception) that carries an error: the top-level error
    "No comments provided" for the empty list, "No valid comments after
    cleaning" for blank comments only, and otherwise a report whose sentiment
    and emotion parts are the error "No valid comments to analyze". *)
Theorem C4_filtered_out_input_gives_error
  (self : CommentAnalyzer) (comments : list pystr) :
  comments = []
  \/ Forall (fun c => nonblank c = false) comments
  \/ Forall too_short comments
  \/ Forall too_short (cleaned_comments comments) ->
  exists d,
    get_comprehensive_analysis self comments = Ok d
    /\ match comments, cleaned_comments comments with
       | [], _ => d = Error (str "No comments provided")
       | _ :: _, [] => d = Error (str "No valid comments after cleaning")
       | _ :: _, _ :: _ =>
           exists r,
             d = Fields r
             /\ sentiment_analysis r = Error (str "No valid comments to analyze")
             /\ emotion_analysis r = Error (str "No valid comments to analyze")
       end.
Proof.
  intros H.
  assert (Hshort : Forall too_short (cleaned_comments comments)).
  { destruct H as [->|[H|[H|H]]]; [constructor | | | exact H].
    - apply cleaned_comments_nil in H. rewrite H. constructor.
    - rewrite Forall_forall in *. intros c Hc.
      apply in_map_iff in Hc as (raw & <- & Hraw). apply filter_In in Hraw.
      apply clean_text_too_short, H, Hraw. }
  clear H. destruct comments as [|c comments]; [now eexists|].
  destruct (cleaned_comments (c :: comments)) as [|c' cleaned] eqn:E.
  - eexists. split; [|reflexivity].
    unfold get_comprehensive_analysis. now rewrite E.
  - destruct (get_comprehensive_analysis_spec self (c :: comments))
      as (sa & em & tox & p & Esa & Eem & _ & _ & _ & Eq); [congruence|].
    rewrite E in Esa, Eem.
    pose proof (analyze_sentiment_spec self (c' :: cleaned) ltac:(congruence)) as Hsa.
    pose proof (analyze_emotions_spec self (c' :: cleaned) ltac:(congruence)) as Hem.
    cbv zeta in Hsa, Hem.
    rewrite (sentiment_loop_all_short self _ Hshort) in Hsa. cbn [fst] in Hsa.
    rewrite (emotion_loop_all_short self _ Hshort) in Hem.
    rewrite Hsa in Esa. injection Esa as <-.
    rewrite Hem in Eem. injection Eem as <-.
    eexists. split; [exact Eq|]. eexists. repeat split; reflexivity.
Qed.

Lemma C4_filtered_out_input_gives_error_witness :
  get_comprehensive_analysis heuristic_only [] = Ok (Error (str "No comments provided"))
  /\ get_comprehensive_analysis heuristic_only (map str ["   "; ""]%string)
     = Ok (Error (str "No valid comments after cleaning"))
  /\ (exists r,
        get_comprehensive_analysis heuristic_only (map str [" a "; "ok"]%string)
        = Ok (Fields r)
        /\ sentiment_analysis r = Error (str "No valid comments to analyze")
        /\ emotion_analysis r = Error (str "No valid comments to analyze"))
  /\ (exists r,
        get_comprehensive_analysis heuristic_only (map str ["@@@@"]%string)
        = Ok (Fields r)
        /\ sentiment_analysis r = Error (str "No valid comments to analyze")
        /\ emotion_analysis r = Error (str "No valid comments to analyze")).
Proof.
  split; [|split; [|split]].
  - destruct (C4_filtered_out_input_gives_error heuristic_only [])
      as (d & E & Hd); [now left|].
    simpl in Hd. now rewrite E, Hd.
  - destruct (C4_filtered_out_input_gives_error heuristic_only
                (map str ["   "; ""]%string)) as (d & E & Hd).
    + right; left. repeat constructor.
    + vm_compute in Hd. now rewrite E, Hd.
  - destruct (C4_filtered_out_input_gives_error heuristic_only
                (map str [" a "; "ok"]%string)) as (d & E & Hd).
    + right; right; left. repeat constructor; unfold too_short; vm_compute; lia.
    + vm_compute in Hd. destruct Hd as (r & -> & Hs & He).
      exists r. now repeat split.
  - destruct (C4_filtered_out_input_gives_error heuristic_only
                (map str ["@@@@"]%string)) as (d & E & Hd).
    + right; right; right. repeat constructor; unfold too_short; vm_compute; lia.
    + vm_compute in Hd. destruct Hd as (r & -> & Hs & He).
      exists r. now repeat split.
Defined.

(** C5. The detector flags a comment as spam if and only if it is
    upper-case and longer than 20 characters, or has fewer than 5 distinct
    characters and is longer than 15: the report counts the comments the
    rule holds of, and the comment at an index has an entry in the spam
    list exactly when the rule holds of it. A comment of 16 identical
    characters is flagged for repetitive characters, and an upper-case
    comment longer than 20 characters is flagged for all caps. *)
Theorem C5_spam_rule :
  (forall comments,
     exists r,
       detect_toxicity comments = Ok r
       /\ spam_comments r = count_if spam_ruleb comments
       /\ spam_examples r = firstn 5 (spam_list comments)
       /\ forall i c, nth_error comments i = Some c ->
            ((exists e, In e (spam_list comments) /\ index e = i) <-> spam_rule c))
  /\ (forall i ch,
        spam_entry i (repeat ch 16)
        = Some {| index := i; comment := repeat ch 16;
                  reason := str "Repetitive characters" |})
  /\ (forall i c, isupper c = true -> 20 < length c ->
        spam_entry i c
        = Some {| index := i; comment := excerpt c; reason := str "All caps" |})
  /\ map reason (spam_list (map str ["aaaaaaaaaaaaaaaa";
                                     "THIS IS DEFINITELY SPAM TEXT"]%string))
     = [str "Repetitive characters"; str "All caps"].
Proof.
  split; [|split; [|split]].
  - intros comments.
    destruct (detect_toxicity_spec comments) as (r & E & _ & Hn & Hex).
    exists r. split; [exact E|]. split; [|split; [exact Hex|]].
    + rewrite Hn. apply toxicity_loop_spam_length.
    + intros i c Hi. split.
      * intros (e & Hin & Hidx).
        apply toxicity_loop_spam in Hin as (j & c' & Hj & He).
        change (0 + j) with j in He.
        pose proof (spam_entry_index _ _ _ He) as Hidx'.
        assert (j = i) by congruence. subst j.
        assert (c' = c) by congruence. subst c'.
        apply (spam_entry_rule i). exists e. congruence.
      * intros Hr. apply (spam_entry_rule i) in Hr as (e & He).
        exists e. split; [|exact (spam_entry_index _ _ _ He)].
        apply toxicity_loop_spam. now exists i, c.
  - intros i ch.
    destruct (spam_entry_cases i (repeat ch 16))
      as [(_ & H20 & _)|[(_ & _ & _ & E)|(Hn & _)]].
    + rewrite repeat_length in H20. lia.
    + rewrite E. unfold excerpt. rewrite repeat_length. reflexivity.
    + exfalso. apply Hn. right.
      rewrite repeat_length, (distinct_chars_repeat ch 15). lia.
  - intros i c Hu H20.
    destruct (spam_entry_cases i c) as [(_ & _ & E)|[(Hn & _)|(Hn & _)]].
    + exact E.
    + exfalso. apply Hn. now split.
    + exfalso. apply Hn. left. now split.
  - reflexivity.
Qed.

(** C6, as the code has it. On a non-empty list the pattern analyzer
    returns statistics that describe it: the number of comments, the mean
    of their lengths (to two decimals), the minimum and the maximum of the
    lengths, and the percentages (to two decimals) of the comments in
    which '!', '?' and '@' occur. Its median_length is the upper middle
    length, the element at index n // 2 of the sorted lengths: it is the
    median of the lengths when the number of comments is odd. *)
Theorem C6_pattern_statistics (comments : list pystr) :
  comments <> [] ->
  exists p,
    analyze_comment_patterns comments = Ok (Fields p)
    /\ describes p comments
    /\ (Nat.odd (length comments) = true ->
        is_twice_median (2 * median_length p) (map (@length ascii) comments)).
Proof.
  intros Hne.
  destruct (analyze_comment_patterns_spec comments Hne) as (p & E & Hp).
  exists p. split; [exact E|]. split; [exact Hp|].
  intros Hodd. destruct Hp as (_ & _ & Hmed & _).
  apply upper_middle_odd; [now rewrite length_map | exact Hmed].
Qed.

Lemma C6_pattern_statistics_witness :
  exists p,
    analyze_comment_patterns (map str ["a"; "abcde"; "abc"]%string) = Ok (Fields p)
    /\ describes p (map str ["a"; "abcde"; "abc"]%string)
    /\ is_twice_median (2 * median_length p) [1; 5; 3].
Proof.
  destruct (C6_pattern_statistics (map str ["a"; "abcde"; "abc"]%string))
    as (p & E & Hp & Hodd); [discriminate|].
  exists p. split; [exact E|]. split; [exact Hp|]. now apply Hodd.
Defined.

(** C6, as the specification states it, fails for an even number of
    comments: for the comments "a" and "abc" the median of the lengths 1
    and 3 is 2 (twice the median is 4, and is nothing else), and
    median_length is 3. *)
Lemma C6_median_length_not_median :
  exists p,
    analyze_comment_patterns (map str ["a"; "abc"]%string) = Ok (Fields p)
    /\ median_length p = 3
    /\ is_twice_median 4 [1; 3]
    /\ (forall m2, is_twice_median m2 [1; 3] -> m2 = 4)
    /\ 2 * median_length p <> 4.
Proof.
  assert (H0 : is_kth 0 1 [1; 3]) by (split; vm_compute; lia).
  assert (H1 : is_kth 1 3 [1; 3]) by (split; vm_compute; lia).
  eexists. split; [vm_compute; reflexivity|]. split; [reflexivity|].
  split; [exists 1, 3; split; [exact H0 | split; [exact H1 | reflexivity]]|].
  split; [|cbn; lia].
  intros m2 (lo & hi & Hlo & Hhi & ->).
  change ((length [1; 3] - 1) / 2) with 0 in Hlo.
  change (length [1; 3] / 2) with 1 in Hhi.
  rewrite (is_kth_unique _ _ _ _ Hlo H0), (is_kth_unique _ _ _ _ Hhi H1).
  reflexivity.
Qed.

(** C7. A comment whose trimmed length is under 3 leaves no trace in the
    labels the sentiment and emotion loops collect, so that the two passes
    answer the same with and without it (when another comment is left);
    the pattern analyzer still counts it: its statistics describe the list
    with the comment in it, their total is one more than the number of the
    other comments, and the length of the comment lies between the
    shortest and the longest length. *)
Theorem C7_short_comment_skipped_but_counted
  (self : CommentAnalyzer) (l1 l2 : list pystr) (c : pystr) :
  too_short c ->
  sentiment_loop self (l1 ++ c :: l2) = sentiment_loop self (l1 ++ l2)
  /\ emotion_loop self (l1 ++ c :: l2) = emotion_loop self (l1 ++ l2)
  /\ (l1 ++ l2 <> [] ->
      analyze_sentiment self (l1 ++ c :: l2) = analyze_sentiment self (l1 ++ l2)
      /\ analyze_emotions self (l1 ++ c :: l2) = analyze_emotions self (l1 ++ l2))
  /\ exists p,
       analyze_comment_patterns (l1 ++ c :: l2) = Ok (Fields p)
       /\ describes p (l1 ++ c :: l2)
       /\ patterns_total_comments p = S (length (l1 ++ l2))
       /\ shortest_comment p <= length c <= longest_comment p.
Proof.
  intros Hc.
  pose proof (sentiment_loop_skip self l1 l2 c Hc) as Hs.
  pose proof (emotion_loop_skip self l1 l2 c Hc) as He.
  split; [exact Hs|]. split; [exact He|]. split.
  - intros Hne. unfold analyze_sentiment, analyze_emotions. rewrite Hs, He.
    destruct (l1 ++ l2) eqn:E12; [congruence|].
    destruct (l1 ++ c :: l2) eqn:E; [now destruct l1|]. now split.
  - destruct (analyze_comment_patterns_spec (l1 ++ c :: l2)) as (p & Ep & Hp);
      [now destruct l1|].
    exists p. split; [exact Ep|]. split; [exact Hp|].
    destruct Hp as (Ht & _ & _ & (_ & Hmax) & (_ & Hmin) & _).
    assert (Hin : In (length c) (map (@length ascii) (l1 ++ c :: l2))).
    { apply in_map, in_elt. }
    rewrite Forall_forall in Hmax, Hmin.
    split; [|split; [now apply Hmin | now apply Hmax]].
    rewrite Ht, !length_app. simpl. lia.
Qed.

Lemma C7_short_comment_skipped_but_counted_witness :
  analyze_sentiment heuristic_only (map str ["I love this!!"; "ok"; "I HATE THIS SO MUCH"]%string)
  = analyze_sentiment heuristic_only love_hate
  /\ exists p,
       analyze_comment_patterns (map str ["I love this!!"; "ok"; "I HATE THIS SO MUCH"]%string)
       = Ok (Fields p)
       /\ patterns_total_comments p = 3.
Proof.
  destruct (C7_short_comment_skipped_but_counted heuristic_only
              [str "I love this!!"] [str "I HATE THIS SO MUCH"] (str "ok"))
    as (_ & _ & Hsame & p & Ep & _ & Ht & _).
  - unfold too_short. vm_compute. lia.
  - split.
    + apply Hsame. discriminate.
    + exists p. split; [exact Ep | exact Ht].
Defined.

(** C8. Every keyword that is returned is a token that is alphabetic,
    longer than 2 and not a stop word, with the number of its occurrences
    among the tokens as its count; the keywords are distinct, at most
    [top_n] (all of them if there are fewer), by decreasing count, and no
    token that passes the filter and is left out occurs more often than a
    keyword that is returned. The pipeline, which leaves the parameter to
    its default, returns a report with the first 20 keywords of the cleaned
    comments whenever a comment is not blank, and the keyword endpoint then
    succeeds with the first 30 (it fails exactly when the list is empty or
    has blank comments only). On ["the cat sat", "the cat ran"] with the
    stop word "the", the keywords are cat with count 2, then sat and ran
    with count 1. *)
Theorem C8_keyword_extraction
  (self : CommentAnalyzer) (comments : list pystr) (top_n : Z) :
  let tokens := all_tokens self comments in
  let ks := extract_keywords self comments top_n in
  (forall k, In k ks ->
     isalpha (word k) = true
     /\ 2 < length (word k)
     /\ ~ In (word k) (stop_words self)
     /\ In (word k) tokens
     /\ count k = occurrences (word k) tokens)
  /\ StronglySorted (fun a b => count b <= count a) ks
  /\ NoDup (map word ks)
  /\ length ks
     = Nat.min (Z.to_nat top_n)
         (length (nodup (list_eq_dec ascii_dec) (filter (keeps_word self) tokens)))
  /\ (forall w, In w tokens -> keeps_word self w = true ->
        (exists k, In k ks /\ word k = w)
        \/ (forall k, In k ks -> occurrences w tokens <= count k))
  /\ (cleaned_comments comments <> [] ->
      exists r,
        get_comprehensive_analysis self comments = Ok (Fields r)
        /\ keywords r = extract_keywords self (cleaned_comments comments) 20)
  /\ extract_keywords_only self comments
     = match comments, cleaned_comments comments with
       | [], _ =>
           Failure (str "Keyword extraction failed: ")
             (HTTPException 400 (str "No comments provided"))
       | _ :: _, [] =>
           Failure (str "Keyword extraction failed: ")
             (HTTPException 400 (str "No valid comments after cleaning"))
       | _ :: _, _ :: _ =>
           Success (extract_keywords self (cleaned_comments comments) 30)
       end
  /\ extract_keywords only_the cat_sat_ran 20
     = [ {| word := str "cat"; count := 2 |};
         {| word := str "sat"; count := 1 |};
         {| word := str "ran"; count := 1 |} ].
Proof.
  cbv zeta.
  destruct (extract_keywords_spec self comments top_n)
    as (Hitem & Hsorted & Hnodup & Hlen & Htop).
  split; [|split; [|split; [|split; [|split; [|split; [|split]]]]]].
  - intros k Hk. destruct (Hitem k Hk) as (Hkeep & Hin & Hcount).
    apply keeps_word_spec in Hkeep as (Ha & Hl & Hs). now repeat split.
  - exact Hsorted.
  - exact Hnodup.
  - exact Hlen.
  - intros w Hw Hkeep. apply Htop. apply filter_In. now split.
  - intros Hne.
    destruct (get_comprehensive_analysis_spec self comments Hne)
      as (sa & em & tox & p & _ & _ & _ & _ & _ & E).
    eexists. split; [exact E | reflexivity].
  - unfold extract_keywords_only. destruct comments as [|c comments]; [reflexivity|].
    now destruct (cleaned_comments (c :: comments)).
  - reflexivity.
Qed.

Lemma C8_keyword_extraction_witness :
  (exists r,
     get_comprehensive_analysis only_the cat_sat_ran = Ok (Fields r)
     /\ keywords r
        = [ {| word := str "cat"; count := 2 |};
            {| word := str "sat"; count := 1 |};
            {| word := str "ran"; count := 1 |} ])
  /\ extract_keywords_only only_the cat_sat_ran
     = Success [ {| word := str "cat"; count := 2 |};
                 {| word := str "sat"; count := 1 |};
                 {| word := str "ran"; count := 1 |} ].
Proof.
  destruct (C8_keyword_extraction only_the cat_sat_ran 20)
    as (_ & _ & _ & _ & _ & Hpipe & Hend & _).
  split.
  - destruct Hpipe as (r & E & Hk); [discriminate|].
    exists r. split; [exact E|]. rewrite Hk. reflexivity.
  - rewrite Hend. reflexivity.
Defined.

(** C10. In every report the pipeline returns, mention_percentage is 0.0:
    no cleaned comment has an '@', since cleaning removes it. *)
Theorem C10_mention_percentage_zero
  (self : CommentAnalyzer) (comments : list pystr) (r : Analysis) :
  get_comprehensive_analysis self comments = Ok (Fields r) ->
  Forall (fun c => ~ In "@"%char c) (cleaned_comments comments)
  /\ exists p, comment_patterns r = Fields p /\ mention_percentage p = 0%Z.
Proof.
  intros E. split.
  - apply Forall_forall. intros c Hc Hin.
    apply in_map_iff in Hc as (raw & <- & _).
    apply has_char_In in Hin. now rewrite clean_text_no_mention in Hin.
  - apply get_comprehensive_analysis_report in E
      as (Hne & _ & _ & _ & _ & p & Ep & Hp).
    exists p. split; [exact Ep|].
    destruct Hp as (_ & _ & _ & _ & _ & _ & _ & Hm).
    rewrite cleaned_comments_no_mention in Hm. unfold nearest in Hm.
    assert (0 < length (cleaned_comments comments)).
    { destruct (cleaned_comments comments); [congruence | simpl; lia]. }
    nia.
Qed.

Lemma C10_mention_percentage_zero_witness :
  exists r p,
    get_comprehensive_analysis heuristic_only (map str ["hi @bob!"; "@alice ok?"]%string)
    = Ok (Fields r)
    /\ comment_patterns r = Fields p
    /\ mention_percentage p = 0%Z.
Proof.
  destruct (get_comprehensive_analysis_returns heuristic_only
              (map str ["hi @bob!"; "@alice ok?"]%string)) as (d & E).
  destruct d as [msg|r]; [vm_compute in E; discriminate|].
  destruct (C10_mention_percentage_zero heuristic_only _ r E) as (_ & p & Ep & Hp).
  exists r, p. now repeat split.
Defined.

(** ** Further properties of the code *)

Section NormalForm.

Lemma rev_wordlike (a : ascii) (word : pystr) :
  Forall (fun c => isspace c = false) (a :: word) -> wordlike (rev (a :: word)).
Proof.
  intros H. split; [|now apply Forall_rev].
  simpl. now destruct (rev word).
Qed.

Lemma split_loop_wordlike (word s : pystr) :
  Forall (fun c => isspace c = false) word ->
  Forall wordlike (split_loop word s).
Proof.
  revert word. induction s as [|c s IH]; intros word Hw; simpl.
  - destruct word as [|a word]; [constructor|].
    constructor; [now apply rev_wordlike | constructor].
  - destruct (isspace c) eqn:Ec.
    + destruct word as [|a word]; [now apply IH|].
      constructor; [now apply rev_wordlike | now apply IH].
    + apply IH. now constructor.
Qed.

Lemma split_wordlike (s : pystr) : Forall wordlike (split s).
Proof. apply split_loop_wordlike. constructor. Qed.

Lemma split_loop_word (acc w s : pystr) :
  Forall (fun c => isspace c = false) w ->
  split_loop acc (w ++ s) = split_loop (rev w ++ acc) s.
Proof.
  intros Hw. revert acc. induction Hw as [|c w Hc Hw IH]; intros acc; simpl.
  - reflexivity.
  - rewrite Hc, IH. now rewrite <- app_assoc.
Qed.

(** Splitting undoes joining by single spaces. *)
Lemma split_join (ws : list pystr) :
  Forall wordlike ws -> split (join (str " ") ws) = ws.
Proof.
  unfold split. induction 1 as [|w ws [Hne Hw] Hws IH]; [reflexivity|].
  destruct ws as [|w' ws].
  - simpl join. rewrite <- (app_nil_r w) at 1.
    rewrite split_loop_word by assumption. rewrite app_nil_r. simpl.
    destruct (rev w) eqn:E.
    + apply (f_equal (@rev ascii)) in E. rewrite rev_involutive in E. now subst.
    + rewrite <- E. now rewrite rev_involutive.
  - change (join (str " ") (w :: w' :: ws))
      with (w ++ " "%char :: join (str " ") (w' :: ws)).
    set (rest := join (str " ") (w' :: ws)) in *.
    rewrite split_loop_word by assumption. rewrite app_nil_r.
    destruct (rev w) as [|a l] eqn:E.
    + apply (f_equal (@rev ascii)) in E. rewrite rev_involutive in E. now subst.
    + simpl. rewrite IH. f_equal.
      change (rev l ++ [a]) with (rev (a :: l)). now rewrite <- E, rev_involutive.
Qed.

Lemma join_split_fixed (s : pystr) :
  join (str " ") (split (join (str " ") (split s))) = join (str " ") (split s).
Proof. now rewrite split_join by apply split_wordlike. Qed.

Lemma subseq_same_length (s t : pystr) :
  subseq s t -> length s = length t -> s = t.
Proof.
  induction 1 as [t|x s t H IH|y s t H IH]; simpl; intros E.
  - now destruct t.
  - f_equal. apply IH. lia.
  - apply subseq_length in H. lia.
Qed.

(** A text made of words and single spaces has no whitespace to strip. *)
Lemma strip_fixed (x : pystr) :
  join (str " ") (split x) = x -> strip x = x.
Proof.
  intros E. apply subseq_same_length.
  - unfold strip. eapply subseq_trans; [apply rstrip_suffix | apply lstrip_suffix].
  - pose proof (strip_length x) as H1.
    pose proof (split_loop_length [] x) as H2. cbn match in H2.
    unfold split in E. rewrite E in H2. lia.
Qed.

Lemma no_colon_url_tail (s : pystr) :
  ~ In ":"%char s -> url_tail s = None.
Proof.
  intros H. unfold url_tail. destruct s as [|c s]; [reflexivity|].
  change (startswith (str "://") (c :: s))
    with (Ascii.eqb ":" c && startswith (str "//") s).
  destruct (Ascii.eqb ":" c) eqn:E; [|reflexivity].
  apply Ascii.eqb_eq in E. subst. exfalso. apply H. now left.
Qed.

Lemma no_colon_url_match (s : pystr) :
  ~ In ":"%char s -> url_match s = None.
Proof.
  intros H. unfold url_match. destruct (startswith (str "http") s); [|reflexivity].
  assert (H4 : ~ In ":"%char (skipn 4 s)).
  { intros Hin. apply H. rewrite <- (firstn_skipn 4 s). apply in_or_app. now right. }
  cbv zeta. rewrite (no_colon_url_tail _ H4).
  destruct (skipn 4 s) as [|c s2]; [reflexivity|].
  destruct (at_code 115 c); [|reflexivity].
  rewrite no_colon_url_tail; [reflexivity|].
  intros Hin. apply H4. now right.
Qed.

Lemma no_colon_remove_urls_loop (fuel : nat) (s : pystr) :
  ~ In ":"%char s -> remove_urls_loop fuel s = s.
Proof.
  revert s. induction fuel as [|fuel IH]; intros s H; simpl; [reflexivity|].
  destruct s as [|c s]; [reflexivity|].
  rewrite (no_colon_url_match _ H). f_equal. apply IH.
  intros Hin. apply H. now right.
Qed.

Lemma kept_no_colon (x : pystr) :
  Forall (fun c => kept_char c = true) x -> ~ In ":"%char x.
Proof.
  intros H Hin. rewrite Forall_forall in H. apply H in Hin. discriminate.
Qed.

Lemma filter_all {A : Type} (p : A -> bool) (l : list A) :
  Forall (fun x => p x = true) l -> filter p l = l.
Proof.
  induction 1 as [|x l Hx _ IH]; simpl; [reflexivity|]. now rewrite Hx, IH.
Qed.

(** Cleaning leaves a text in normal form as it is. *)
Lemma clean_text_normal (x : pystr) : normal x -> clean_text x = x.
Proof.
  intros [Hk Hj]. unfold clean_text. destruct x as [|c x]; [reflexivity|].
  cbv zeta. unfold remove_urls.
  rewrite no_colon_remove_urls_loop by now apply kept_no_colon.
  unfold remove_special. rewrite filter_all by assumption.
  rewrite Hj. now apply strip_fixed.
Qed.

(** Cleaning gives a text in normal form. *)
Lemma normal_clean_text (text : pystr) : normal (clean_text text).
Proof.
  split; [apply clean_text_kept|].
  unfold clean_text. destruct text as [|c text]; [reflexivity|]. cbv zeta.
  set (t := remove_special (remove_urls (c :: text))).
  rewrite (strip_fixed _ (join_split_fixed t)). apply join_split_fixed.
Qed.

End NormalForm.

Section LowerCase.

(** Lower-casing a character twice is lower-casing it once. *)
Lemma char_lower_lower (c : ascii) : char_lower (char_lower c) = char_lower c.
Proof. destruct c as [[] [] [] [] [] [] [] []]; reflexivity. Qed.

Lemma lower_lower (s : pystr) : lower (lower s) = lower s.
Proof.
  unfold lower. rewrite map_map. apply map_ext. intros c. apply char_lower_lower.
Qed.

Lemma lower_fixed (s : pystr) :
  Forall (fun c => char_lower c = c) s -> lower s = s.
Proof.
  induction 1 as [|c s Hc _ IH]; simpl; [reflexivity|]. now rewrite IH, Hc.
Qed.

End LowerCase.

Section CleanForall.
Variable P : ascii -> Prop.

Lemma subseq_Forall (s t : pystr) : subseq s t -> Forall P t -> Forall P s.
Proof.
  induction 1 as [t|x s t H IH|y s t H IH]; intros Ht.
  - constructor.
  - inversion Ht; subst. constructor; auto.
  - inversion Ht; subst. auto.
Qed.

(** Cleaning brings in no character but the space. *)
Lemma clean_text_Forall (text : pystr) :
  P " "%char -> Forall P text -> Forall P (clean_text text).
Proof.
  intros Hsp Ht. unfold clean_text. destruct text as [|c text]; [constructor|].
  apply strip_Forall, join_Forall; [repeat constructor; exact Hsp|].
  apply split_loop_Forall; [constructor|].
  eapply subseq_Forall; [|exact Ht].
  eapply subseq_trans; [apply subseq_filter | apply remove_urls_loop_subseq].
Qed.

End CleanForall.

Section PipelineCleaning.
Variable self : CommentAnalyzer.

Lemma cleaned_comments_normal (comments : list pystr) :
  Forall normal (cleaned_comments comments).
Proof.
  unfold cleaned_comments. apply Forall_map, Forall_forall.
  intros c _. apply normal_clean_text.
Qed.

Lemma map_clean_text_normal (l : list pystr) :
  Forall normal l -> map clean_text l = l.
Proof.
  induction 1 as [|c l Hc _ IH]; simpl; [reflexivity|].
  now rewrite IH, clean_text_normal.
Qed.

End PipelineCleaning.

Section MaxKey.

Lemma first_max_spec (best : pystr * nat) (m : counter) :
  (first_max best m = fst best /\ Forall (fun kv => snd kv <= snd best) m)
  \/ exists pre c post,
       m = pre ++ (first_max best m, c) :: post
       /\ snd best < c
       /\ Forall (fun kv => snd kv < c) pre
       /\ Forall (fun kv => snd kv <= c) post.
Proof.
  revert best. induction m as [|[k1 n1] m IH]; intros [kb cb]; cbn [first_max fst snd].
  - left. split; [reflexivity | constructor].
  - destruct (Nat.ltb_spec cb n1) as [Hlt|Hge].
    + right.
      destruct (IH (k1, n1)) as [[E Hall]|(pre & c & post & E & Hc & Hpre & Hpost)];
        cbn [fst snd] in *.
      * exists [], n1, m. rewrite E. split; [reflexivity|].
        split; [exact Hlt|]. split; [constructor | exact Hall].
      * exists ((k1, n1) :: pre), c, post.
        split; [simpl; now rewrite <- E|]. split; [lia|].
        split; [constructor; [exact Hc | exact Hpre] | exact Hpost].
    + destruct (IH (kb, cb)) as [[E Hall]|(pre & c & post & E & Hc & Hpre & Hpost)];
        cbn [fst snd] in *.
      * left. split; [exact E|]. constructor; [exact Hge | exact Hall].
      * right. exists ((k1, n1) :: pre), c, post.
        split; [simpl; now rewrite <- E|]. split; [exact Hc|].
        split; [constructor; [simpl; lia | exact Hpre] | exact Hpost].
Qed.

Lemma max_key_first_most (m : counter) (k : pystr) :
  max_key m = Ok k -> first_most m k.
Proof.
  destruct m as [|[kb cb] m]; simpl; [discriminate|]. intros [= <-].
  destruct (first_max_spec (kb, cb) m) as [[E Hall]|(pre & c & post & E & Hc & Hpre & Hpost)];
    cbn [fst snd] in *.
  - exists [], cb, m. rewrite E. split; [reflexivity|]. split; [constructor | exact Hall].
  - exists ((kb, cb) :: pre), c, post.
    split; [simpl; now rewrite <- E|].
    split; [constructor; [exact Hc | exact Hpre] | exact Hpost].
Qed.

End MaxKey.

Section SentimentReport.
Variable self : CommentAnalyzer.

Lemma sentiment_of_skips (c : pystr) :
  long_enough c = negb (match sentiment_of self c with Some _ => false | None => true end).
Proof.
  unfold long_enough, sentiment_of.
  rewrite Nat.ltb_antisym. destruct (3 <=? length (strip c)); simpl; [|reflexivity].
  destruct (transformers_sentiment self c); [reflexivity|].
  destruct (textblob_sentiment self c); reflexivity.
Qed.

Lemma sentiment_loop_lengths (comments : list pystr) :
  length (fst (sentiment_loop self comments)) = count_if long_enough comments
  /\ length (snd (sentiment_loop self comments)) = count_if long_enough comments.
Proof.
  unfold count_if. induction comments as [|c comments [IH1 IH2]]; simpl; [now split|].
  rewrite (sentiment_of_skips c).
  destruct (sentiment_loop self comments) as [ls ss].
  destruct (sentiment_of self c) as [[l sc]|]; simpl in *; split; congruence.
Qed.

Lemma sentiment_loop_occurrences (label : pystr) (comments : list pystr) :
  occurrences label (fst (sentiment_loop self comments))
  = labelled (sentiment_label self) label comments.
Proof.
  unfold labelled, count_if, sentiment_label.
  induction comments as [|c comments IH]; [reflexivity|].
  cbn [sentiment_loop filter].
  destruct (sentiment_loop self comments) as [ls ss].
  destruct (sentiment_of self c) as [[l sc]|]; cbn [fst option_map] in *; [|exact IH].
  rewrite occurrences_cons. destruct (str_eqb label l); cbn [length]; congruence.
Qed.

(** The fields of a sentiment report, from what the loop collects. *)
Lemma analyze_sentiment_report (comments : list pystr) (s : SentimentAnalysis) :
  analyze_sentiment self comments = Ok (Fields s) ->
  let sentiments := fst (sentiment_loop self comments) in
  let scores := snd (sentiment_loop self comments) in
  sentiments <> []
  /\ sentiment_total_comments s = length sentiments
  /\ sentiment_distribution s = Counter sentiments
  /\ average_score scores = Ok (average_sentiment_score s)
  /\ max_key (Counter sentiments) = Ok (overall_sentiment s).
Proof.
  unfold analyze_sentiment. destruct comments as [|c comments]; [discriminate|].
  destruct (sentiment_loop self (c :: comments)) as [sentiments scores].
  cbn [fst snd].
  destruct (Nat.eqb_spec (length sentiments) 0) as [|Hn]; [discriminate|].
  destruct (percentages (Counter sentiments) (length sentiments)); [|discriminate].
  simpl bind. destruct (average_score scores); [|discriminate].
  simpl bind. destruct (max_key (Counter sentiments)); [|discriminate].
  simpl bind. intros [= <-]. cbn. repeat split.
  intros ->. now apply Hn.
Qed.

End SentimentReport.

Section EmotionReport.
Variable self : CommentAnalyzer.

Lemma emotion_of_skips (c : pystr) :
  long_enough c = match emotion_of self c with Some _ => true | None => false end.
Proof.
  unfold long_enough, emotion_of. rewrite Nat.ltb_antisym.
  destruct (3 <=? length (strip c)); simpl; [|reflexivity].
  now destruct (transformers_emotion self c).
Qed.

Lemma emotion_loop_length (comments : list pystr) :
  length (emotion_loop self comments) = count_if long_enough comments.
Proof.
  unfold count_if. induction comments as [|c comments IH]; [reflexivity|].
  cbn [emotion_loop filter]. rewrite (emotion_of_skips c).
  destruct (emotion_of self c); cbn [length]; congruence.
Qed.

Lemma emotion_loop_occurrences (label : pystr) (comments : list pystr) :
  occurrences label (emotion_loop self comments)
  = labelled (emotion_of self) label comments.
Proof.
  unfold labelled, count_if.
  induction comments as [|c comments IH]; [reflexivity|].
  cbn [emotion_loop filter].
  destruct (emotion_of self c) as [l|]; [|exact IH].
  rewrite occurrences_cons. destruct (str_eqb label l); cbn [length]; congruence.
Qed.

Lemma analyze_emotions_report (comments : list pystr) (s : EmotionAnalysis) :
  analyze_emotions self comments = Ok (Fields s) ->
  let emotions := emotion_loop self comments in
  emotions <> []
  /\ emotion_distribution s = Counter emotions
  /\ max_key (Counter emotions) = Ok (dominant_emotion s).
Proof.
  unfold analyze_emotions. destruct comments as [|c comments]; [discriminate|].
  cbv zeta. set (emotions := emotion_loop self (c :: comments)).
  destruct (Nat.eqb_spec (length emotions) 0) as [|Hn]; [discriminate|].
  destruct (percentages (Counter emotions) (length emotions)); [|discriminate].
  simpl bind.
  assert (Hne : emotions <> []) by (intros E; apply Hn; now rewrite E).
  destruct (Counter emotions) eqn:EC; [now apply Counter_nonempty in EC|].
  destruct (max_key (p :: c0)); [|discriminate].
  simpl bind. intros [= <-]. cbn. repeat split. exact Hne.
Qed.

End EmotionReport.

Section Labels.

Lemma Counter_keys (l : list pystr) (kv : pystr * nat) :
  In kv (Counter l) -> In (fst kv) l.
Proof.
  destruct kv as [k n]. intros H. apply In_Counter in H as [-> Hpos].
  now apply occurrences_pos.
Qed.

Lemma rule_based_sentiment_label (c : pystr) :
  In (fst (rule_based_sentiment c)) sentiment_labels
  /\ (snd (rule_based_sentiment c) = Qmake 7 10
      \/ snd (rule_based_sentiment c) = Qmake 1 2).
Proof.
  unfold rule_based_sentiment, sentiment_labels. cbv zeta.
  destruct (_ <? _); [simpl; auto|]. destruct (_ <? _); simpl; auto.
Qed.

Lemma textblob_sentiment_label (self : CommentAnalyzer) (c : pystr) (r : pystr * Q) :
  textblob_sentiment self c = Some r -> In (fst r) sentiment_labels.
Proof.
  unfold textblob_sentiment, sentiment_labels.
  destruct (textblob self) as [f|]; [|discriminate].
  destruct (f c) as [p|]; [|discriminate].
  destruct (negb _); [intros [= <-]; simpl; auto|].
  destruct (negb _); intros [= <-]; simpl; auto.
Qed.

Lemma rule_based_emotion_label (c : pystr) :
  In (rule_based_emotion c) emotion_labels.
Proof.
  unfold rule_based_emotion, emotion_labels. cbv zeta.
  repeat (destruct (any_in _ _); [simpl; auto 10|]). simpl; auto 10.
Qed.

End Labels.

Section Scores.

Lemma sumQ_bounds (scores : list Q) :
  Forall (fun q => q = Qmake 7 10 \/ q = Qmake 1 2) scores ->
  (Qmake 1 2 * inject_Z (Z.of_nat (length scores)) <= sumQ scores
   /\ sumQ scores <= Qmake 7 10 * inject_Z (Z.of_nat (length scores)))%Q.
Proof.
  induction 1 as [|q scores Hq _ [IH1 IH2]].
  - split; unfold Qle; simpl; lia.
  - cbn [length sumQ fold_right]. fold (sumQ scores).
    rewrite Nat2Z.inj_succ. unfold Z.succ. rewrite inject_Z_plus.
    change (inject_Z 1) with 1%Q.
    generalize dependent (inject_Z (Z.of_nat (length scores))).
    generalize (sumQ scores). intros S n IH1 IH2.
    destruct Hq as [-> | ->]; split; lra.
Qed.

(** The mean of scores that are 0.5 or 0.7, to three decimals. *)
Lemma average_score_range (scores : list Q) :
  scores <> [] ->
  Forall (fun q => q = Qmake 7 10 \/ q = Qmake 1 2) scores ->
  exists avg, average_score scores = Ok avg /\ (500 <= avg <= 700)%Z.
Proof.
  intros Hne Hall. destruct (sumQ_bounds scores Hall) as [Hlo Hhi].
  unfold average_score. destruct scores as [|q0 scores0] eqn:Es; [congruence|].
  rewrite <- Es in *. clear Es q0 scores0 Hall.
  assert (Hn : (0 < Z.of_nat (length scores))%Z).
  { destruct scores; [congruence | simpl; lia]. }
  unfold fdiv. destruct (Z.of_nat (length scores)) as [|p|p] eqn:En; try lia.
  simpl bind. eexists. split; [reflexivity|].
  set (x := (sumQ scores / inject_Z (Zpos p))%Q).
  assert (Hp : (0 < inject_Z (Zpos p))%Q) by (unfold Qlt; simpl; lia).
  assert (Hx1 : (Qmake 1 2 <= x)%Q) by (apply Qle_shift_div_l; assumption).
  assert (Hx2 : (x <= Qmake 7 10)%Q) by (apply Qle_shift_div_r; assumption).
  clearbody x. unfold Qle in Hx1, Hx2. cbn [Qnum Qden] in Hx1, Hx2.
  pose proof (round_half_even_nearest (Qnum x * 10 ^ Z.of_nat 3) (Zpos (Qden x))
                ltac:(lia)) as Hr.
  unfold nearest in Hr. unfold round.
  change (10 ^ Z.of_nat 3)%Z with 1000%Z in *.
  set (r := round_half_even (Qnum x * 1000) (Zpos (Qden x))) in *.
  set (d := Zpos (Qden x)) in *. assert (0 < d)%Z by (subst d; lia).
  nia.
Qed.

End Scores.

Section Substrings.

Lemma startswith_spec (p s : pystr) :
  startswith p s = true <-> exists post, s = p ++ post.
Proof.
  revert s. induction p as [|a p IH]; intros s; simpl.
  - split; [intros _; now exists s | reflexivity].
  - destruct s as [|b s].
    + split; [discriminate | intros (post & E); discriminate].
    + rewrite andb_true_iff, IH. split.
      * intros [Hab (post & ->)]. apply Ascii.eqb_eq in Hab. subst. now exists post.
      * intros (post & E). injection E as -> ->. split; [apply Ascii.eqb_refl | now exists post].
Qed.

(** [needle in hay]: [needle] is a substring of [hay]. *)
Lemma contains_spec (needle hay : pystr) :
  contains needle hay = true <-> exists pre post, hay = pre ++ needle ++ post.
Proof.
  induction hay as [|b hay IH]; simpl.
  - rewrite orb_false_r, startswith_spec. split.
    + intros (post & E). now exists [], post.
    + intros (pre & post & E). destruct pre; simpl in E.
      * now exists post.
      * discriminate.
  - rewrite orb_true_iff, IH. split.
    + intros [H|(pre & post & ->)].
      * apply (startswith_spec needle (b :: hay)) in H as (post & E).
        exists [], post. exact E.
      * now exists (b :: pre), post.
    + intros (pre & post & E). destruct pre as [|a pre]; simpl in E.
      * left. apply (startswith_spec needle (b :: hay)). now exists post.
      * right. injection E as -> ->. now exists pre, post.
Qed.

End Substrings.

Section ToxicityReport.

Lemma toxic_entry_spec (i : nat) (c : pystr) :
  (has_toxic_keyword c
   /\ toxic_entry i c
      = Some {| index := i; comment := excerpt c;
                reason := str "Contains toxic keywords" |})
  \/ (~ has_toxic_keyword c /\ toxic_entry i c = None).
Proof.
  unfold toxic_entry, has_toxic_keyword. cbv zeta.
  destruct (existsb _ toxic_keywords) eqn:E.
  - left. split; [|reflexivity].
    apply existsb_exists in E as (k & Hk & Hc).
    apply contains_spec in Hc as (pre & post & Hc). now exists k, pre, post.
  - right. split; [|reflexivity].
    intros (k & pre & post & Hk & Hc).
    assert (Ht : existsb (fun keyword => contains keyword (lower c)) toxic_keywords = true).
    { apply existsb_exists. exists k. split; [exact Hk|].
      apply contains_spec. now exists pre, post. }
    congruence.
Qed.

Lemma excerpt_length (c : pystr) : length (excerpt c) <= 103.
Proof.
  unfold excerpt, prefix. destruct (Nat.ltb_spec 100 (length c)).
  - rewrite length_app, length_firstn. change (length (str "...")) with 3. lia.
  - lia.
Qed.

Lemma toxic_entry_files : files toxic_entry.
Proof.
  intros i c e. destruct (toxic_entry_spec i c) as [[_ E]|[_ E]]; rewrite E;
    [intros [= <-]; now split | discriminate].
Qed.

Lemma spam_entry_files : files spam_entry.
Proof.
  intros i c e.
  destruct (spam_entry_cases i c) as [(_ & _ & E)|[(_ & _ & _ & E)|(_ & E)]];
    rewrite E; [intros [= <-]; now split | intros [= <-]; now split | discriminate].
Qed.

Lemma collected_step (f : nat -> pystr -> option example) (i0 : nat)
  (c : pystr) (rest : list pystr) (l : list example) :
  files f -> collected_from (S i0) rest l ->
  collected_from i0 (c :: rest) (append_entry (f i0 c) l).
Proof.
  intros Hf (Hlen & Hs & Hall).
  assert (Hall' : Forall (fun e => i0 <= index e
                     /\ exists c', nth_error (c :: rest) (index e - i0) = Some c'
                                   /\ comment e = excerpt c') l).
  { eapply Forall_impl; [|exact Hall]. intros e (Hi & c' & Hn & Hc).
    split; [lia|]. exists c'. split; [|exact Hc].
    replace (index e - i0) with (S (index e - S i0)) by lia. exact Hn. }
  destruct (f i0 c) as [e|] eqn:E; simpl.
  - apply Hf in E as [Hi Hc]. split; [simpl; lia|]. split.
    + constructor; [exact Hs|]. eapply Forall_impl; [|exact Hall].
      intros e' (Hi' & _). lia.
    + constructor; [|exact Hall']. split; [lia|]. exists c.
      rewrite Hi, Nat.sub_diag. now split.
  - split; [simpl; lia|]. now split.
Qed.

Lemma toxicity_loop_collected (i0 : nat) (comments : list pystr) :
  collected_from i0 comments (fst (toxicity_loop i0 comments))
  /\ collected_from i0 comments (snd (toxicity_loop i0 comments)).
Proof.
  revert i0. induction comments as [|c rest IH]; intros i0; simpl.
  - split; (split; [simpl; lia|]; split; constructor).
  - destruct (IH (S i0)) as [IHt IHs].
    destruct (toxicity_loop (S i0) rest) as [toxic spam]. cbn [fst snd] in *.
    split; apply collected_step; auto using toxic_entry_files, spam_entry_files.
Qed.

Lemma collected_listed (comments : list pystr) (l : list example) :
  collected_from 0 comments l -> listed comments l.
Proof.
  intros (_ & Hs & Hall). split; [exact Hs|].
  eapply Forall_impl; [|exact Hall]. intros e (_ & c & Hn & Hc).
  exists c. rewrite Nat.sub_0_r in Hn. now split.
Qed.

Lemma listed_firstn (comments : list pystr) (n : nat) (l : list example) :
  listed comments l -> listed comments (firstn n l).
Proof.
  intros [Hs Hall]. rewrite <- (firstn_skipn n l) in Hs, Hall.
  apply StronglySorted_app_inv in Hs as [Hs _].
  apply Forall_app in Hall as [Hall _]. now split.
Qed.

Lemma nearest_percentage (r : Z) (count total : nat) :
  count <= total -> 0 < total ->
  nearest r (10000 * Z.of_nat count) (Z.of_nat total) -> is_percentage r.
Proof. unfold nearest, is_percentage. intros Hc Ht Hn. nia. Qed.

Lemma guarded_percentage_spec (count total : nat) :
  count <= total ->
  exists r, guarded_percentage count total = Ok r
            /\ is_percentage r
            /\ (0 < total -> nearest r (10000 * Z.of_nat count) (Z.of_nat total))
            /\ (total = 0 -> r = 0%Z).
Proof.
  intros Hc. unfold guarded_percentage. destruct (Nat.ltb_spec 0 total) as [Ht|Ht].
  - destruct (percentage_spec count total ltac:(lia)) as (r & E & Hr).
    exists r. split; [exact E|]. split; [now apply (nearest_percentage r count total)|].
    split; [now intros _ | lia].
  - exists 0%Z. split; [reflexivity|]. split; [unfold is_percentage; lia|].
    split; [lia | reflexivity].
Qed.

(** The fields of the toxicity report. *)
Lemma detect_toxicity_report (comments : list pystr) :
  exists r,
    detect_toxicity comments = Ok r
    /\ toxicity_total_comments r = length comments
    /\ toxic_comments r = length (toxic_list comments)
    /\ spam_comments r = length (spam_list comments)
    /\ guarded_percentage (length (toxic_list comments)) (length comments)
       = Ok (toxic_percentage r)
    /\ guarded_percentage (length (spam_list comments)) (length comments)
       = Ok (spam_percentage r)
    /\ toxic_examples r = firstn 5 (toxic_list comments)
    /\ spam_examples r = firstn 5 (spam_list comments).
Proof.
  unfold detect_toxicity, toxic_list, spam_list.
  destruct (toxicity_loop 0 comments) as [toxic spam]. cbn [fst snd].
  destruct (guarded_percentage_returns (length toxic) (length comments)) as (t & Et).
  destruct (guarded_percentage_returns (length spam) (length comments)) as (s & Es).
  rewrite Et, Es. simpl. eexists. repeat split; reflexivity.
Qed.

(** The entries of the toxic list are the entries of the comments. *)
Lemma toxicity_loop_toxic (i0 : nat) (comments : list pystr) (e : example) :
  In e (fst (toxicity_loop i0 comments))
  <-> exists j c, nth_error comments j = Some c /\ toxic_entry (i0 + j) c = Some e.
Proof.
  revert i0. induction comments as [|c comments IH]; intros i0; simpl.
  - split; [intros [] | intros ([|j] & c & H & _); discriminate].
  - specialize (IH (S i0)).
    destruct (toxicity_loop (S i0) comments) as [toxic spam]. cbn [fst] in *.
    split.
    + intros Hin.
      assert (Hcase : toxic_entry i0 c = Some e \/ In e toxic).
      { destruct (toxic_entry i0 c); simpl in Hin; [|now right].
        destruct Hin as [->|Hin]; [now left | now right]. }
      destruct Hcase as [E|Hin'].
      * exists 0, c. now rewrite Nat.add_0_r.
      * apply IH in Hin' as (j & c' & Hj & E). exists (S j), c'.
        split; [exact Hj|]. now rewrite Nat.add_succ_r.
    + intros ([|j] & c' & Hj & E); simpl in Hj.
      * injection Hj as ->. rewrite Nat.add_0_r in E. rewrite E. now left.
      * assert (Hin' : In e toxic).
        { apply IH. exists j, c'. split; [exact Hj|].
          now rewrite Nat.add_succ_r in E. }
        destruct (toxic_entry i0 c); simpl; auto.
Qed.

End ToxicityReport.

Section LoopLabels.
Variable self : CommentAnalyzer.

Lemma sentiment_loop_In (l : pystr) (comments : list pystr) :
  In l (fst (sentiment_loop self comments)) ->
  exists c sc, In c comments /\ sentiment_of self c = Some (l, sc).
Proof.
  induction comments as [|c comments IH]; simpl; [intros []|].
  destruct (sentiment_loop self comments) as [ls ss].
  destruct (sentiment_of self c) as [[l' sc]|] eqn:E; cbn [fst] in *.
  - intros [->|Hin].
    + exists c, sc. split; [now left | exact E].
    + destruct (IH Hin) as (c' & sc' & Hc & E'). exists c', sc'. split; [now right | exact E'].
  - intros Hin. destruct (IH Hin) as (c' & sc' & Hc & E'). exists c', sc'.
    split; [now right | exact E'].
Qed.

Lemma sentiment_loop_scores (P : Q -> Prop) (comments : list pystr) :
  (forall c l sc, sentiment_of self c = Some (l, sc) -> P sc) ->
  Forall P (snd (sentiment_loop self comments)).
Proof.
  intros H. induction comments as [|c comments IH]; simpl; [constructor|].
  destruct (sentiment_loop self comments) as [ls ss].
  destruct (sentiment_of self c) as [[l' sc]|] eqn:E; cbn [snd] in *; [|exact IH].
  constructor; [eapply H; eassumption | exact IH].
Qed.

Lemma emotion_loop_In (l : pystr) (comments : list pystr) :
  In l (emotion_loop self comments) ->
  exists c, In c comments /\ emotion_of self c = Some l.
Proof.
  induction comments as [|c comments IH]; simpl; [intros []|].
  destruct (emotion_of self c) as [l'|] eqn:E.
  - intros [->|Hin].
    + exists c. split; [now left | exact E].
    + destruct (IH Hin) as (c' & Hc & E'). exists c'. split; [now right | exact E'].
  - intros Hin. destruct (IH Hin) as (c' & Hc & E'). exists c'.
    split; [now right | exact E'].
Qed.

End LoopLabels.

(** X1. Cleaning a cleaned text changes nothing. *)
Theorem X1_clean_text_idempotent (text : pystr) :
  clean_text (clean_text text) = clean_text text.
Proof. apply clean_text_normal, normal_clean_text. Qed.

(** X2. A cleaned text is in normal form: it is its own words joined by
    single spaces, so it has no whitespace at either end (the last
    [strip] of [clean_text] has nothing to do) and no whitespace character
    but the space; all its characters are ones the second substitution
    keeps, and no URL is left in it. *)
Theorem X2_clean_text_normal_form (text : pystr) :
  let x := clean_text text in
  join (str " ") (split x) = x
  /\ strip x = x
  /\ Forall (fun c => kept_char c = true) x
  /\ Forall (fun c => isspace c = true -> c = " "%char) x
  /\ remove_urls x = x.
Proof.
  cbv zeta. destruct (normal_clean_text text) as [Hk Hj].
  split; [exact Hj|]. split; [now apply strip_fixed|]. split; [exact Hk|]. split.
  - rewrite <- Hj. apply join_Forall; [repeat constructor|].
    eapply Forall_impl; [|apply split_wordlike].
    intros w [_ Hw]. eapply Forall_impl; [|exact Hw]. intros c Hc. congruence.
  - apply no_colon_remove_urls_loop. now apply kept_no_colon.
Qed.

(** X3. Cleaning never lengthens a text: the cleaned text is at most as
    long as the text without the whitespace around it. *)
Theorem X3_clean_text_not_longer (text : pystr) :
  length (clean_text text) <= length (strip text)
  /\ length (strip text) <= length text.
Proof. split; [apply clean_text_length | apply strip_length]. Qed.

(** X4. In a sentiment report, total_comments is the number of comments
    of at least 3 characters once trimmed; the distribution gives every
    label the number of comments the loop labelled with it, and its counts
    add up to total_comments; overall_sentiment is the first label of the
    distribution with the largest count. *)
Theorem X4_sentiment_report
  (self : CommentAnalyzer) (comments : list pystr) (s : SentimentAnalysis) :
  analyze_sentiment self comments = Ok (Fields s) ->
  sentiment_total_comments s = count_if long_enough comments
  /\ 0 < sentiment_total_comments s
  /\ counter_total (sentiment_distribution s) = sentiment_total_comments s
  /\ (forall label,
        count_of label (sentiment_distribution s)
        = labelled (sentiment_label self) label comments)
  /\ first_most (sentiment_distribution s) (overall_sentiment s).
Proof.
  intros E. apply analyze_sentiment_report in E as (Hne & Ht & Hd & _ & Hmax).
  cbv zeta in *. rewrite Hd, Ht.
  destruct (sentiment_loop_lengths self comments) as [Hlen _].
  split; [exact Hlen|]. split.
  - destruct (fst (sentiment_loop self comments)); [congruence | simpl; lia].
  - split; [apply counter_total_Counter|]. split.
    + intros label. rewrite count_of_Counter. apply sentiment_loop_occurrences.
    + now apply max_key_first_most.
Qed.

Lemma X4_sentiment_report_witness :
  exists s,
    analyze_sentiment heuristic_only love_hate = Ok (Fields s)
    /\ sentiment_total_comments s = count_if long_enough love_hate
    /\ first_most (sentiment_distribution s) (overall_sentiment s).
Proof.
  destruct (analyze_sentiment_returns heuristic_only love_hate) as (d & E).
  destruct d as [msg|s]; [vm_compute in E; discriminate|].
  exists s. split; [exact E|].
  destruct (X4_sentiment_report heuristic_only love_hate s E) as (Ht & _ & _ & _ & Hm).
  now split.
Defined.

(** X5. Without the transformers pipeline every label of a sentiment
    report is POSITIVE, NEGATIVE or NEUTRAL; without TextBlob as well,
    average_sentiment_score lies between 0.5 and 0.7. *)
Theorem X5_fallback_sentiment
  (self : CommentAnalyzer) (comments : list pystr) (s : SentimentAnalysis) :
  sentiment_analyzer self = None ->
  analyze_sentiment self comments = Ok (Fields s) ->
  Forall (fun kv => In (fst kv) sentiment_labels) (sentiment_distribution s)
  /\ (textblob self = None -> (500 <= average_sentiment_score s <= 700)%Z).
Proof.
  intros Hnone E.
  apply analyze_sentiment_report in E as (Hne & _ & Hd & Havg & _). cbv zeta in *.
  assert (Hof : forall c l sc, sentiment_of self c = Some (l, sc) ->
                  In l sentiment_labels
                  /\ (textblob self = None -> sc = Qmake 7 10 \/ sc = Qmake 1 2)).
  { intros c l sc. unfold sentiment_of, transformers_sentiment. rewrite Hnone.
    destruct (_ <? _); [discriminate|].
    destruct (textblob_sentiment self c) as [r|] eqn:Et.
    - intros [= ->]. split; [now apply (textblob_sentiment_label self c _ Et)|].
      intros Hb. unfold textblob_sentiment in Et. rewrite Hb in Et. discriminate.
    - intros [= Hr]. destruct (rule_based_sentiment_label c) as [Hl Hs].
      rewrite Hr in Hl, Hs. now split. }
  split.
  - rewrite Hd. apply Forall_forall. intros kv Hkv.
    apply Counter_keys, sentiment_loop_In in Hkv as (c & sc & _ & Ec).
    now apply Hof in Ec.
  - intros Hb.
    assert (Hs : Forall (fun q => q = Qmake 7 10 \/ q = Qmake 1 2)
                   (snd (sentiment_loop self comments))).
    { apply sentiment_loop_scores. intros c l sc Ec. now apply Hof in Ec as [_ H]; auto. }
    assert (Hne' : snd (sentiment_loop self comments) <> []).
    { destruct (sentiment_loop_lengths self comments) as [H1 H2].
      intros E0. rewrite E0 in H2. simpl in H2. rewrite <- H2 in H1.
      apply length_zero_iff_nil in H1. contradiction. }
    destruct (average_score_range _ Hne' Hs) as (avg & Ea & Hr).
    rewrite Ea in Havg. now injection Havg as <-.
Qed.

Lemma X5_fallback_sentiment_witness :
  exists s,
    analyze_sentiment heuristic_only love_hate = Ok (Fields s)
    /\ Forall (fun kv => In (fst kv) sentiment_labels) (sentiment_distribution s)
    /\ (500 <= average_sentiment_score s <= 700)%Z.
Proof.
  destruct (analyze_sentiment_returns heuristic_only love_hate) as (d & E).
  destruct d as [msg|s]; [vm_compute in E; discriminate|].
  exists s. split; [exact E|].
  destruct (X5_fallback_sentiment heuristic_only love_hate s eq_refl E) as (Hl & Hs).
  split; [exact Hl | now apply Hs].
Defined.

(** X6. When the transformers pipeline is loaded and answers, its answer
    is the sentiment of the comment, whatever TextBlob would say, and it
    reads the first 512 characters only: two comments that agree on them
    get the same answer. *)
Theorem X6_transformers_reads_512
  (self : CommentAnalyzer) (classify : pystr -> option (pystr * Q))
  (c1 c2 : pystr) (r : pystr * Q) :
  sentiment_analyzer self = Some classify ->
  long_enough c1 = true -> long_enough c2 = true ->
  firstn 512 c1 = firstn 512 c2 ->
  classify (firstn 512 c1) = Some r ->
  sentiment_of self c1 = Some r /\ sentiment_of self c2 = Some r.
Proof.
  intros Hs H1 H2 Hp Hr. unfold long_enough in *.
  unfold sentiment_of, transformers_sentiment, prefix. rewrite Hs, <- Hp, Hr.
  rewrite !Nat.ltb_antisym, H1, H2. now split.
Qed.

Lemma X6_transformers_reads_512_witness :
  sentiment_of always_positive (repeat "a"%char 600)
  = Some (str "POSITIVE", Qmake 9 10)
  /\ sentiment_of always_positive (repeat "a"%char 512 ++ str " I hate this")
     = Some (str "POSITIVE", Qmake 9 10).
Proof.
  apply (X6_transformers_reads_512 always_positive
           (fun _ => Some (str "POSITIVE", Qmake 9 10)));
    try reflexivity; vm_compute; reflexivity.
Defined.

(** X7. In an emotion report the distribution gives every label the number
    of comments the loop labelled with it, its counts add up to the number
    of comments of at least 3 characters once trimmed, and
    dominant_emotion is its first label with the largest count; without
    the transformers pipeline every label is one of joy, anger, sadness,
    fear, surprise and neutral. *)
Theorem X7_emotion_report
  (self : CommentAnalyzer) (comments : list pystr) (s : EmotionAnalysis) :
  analyze_emotions self comments = Ok (Fields s) ->
  counter_total (emotion_distribution s) = count_if long_enough comments
  /\ (forall label,
        count_of label (emotion_distribution s)
        = labelled (emotion_of self) label comments)
  /\ first_most (emotion_distribution s) (dominant_emotion s)
  /\ (emotion_analyzer self = None ->
      Forall (fun kv => In (fst kv) emotion_labels) (emotion_distribution s)).
Proof.
  intros E. apply analyze_emotions_report in E as (Hne & Hd & Hmax).
  cbv zeta in *. rewrite Hd.
  split; [rewrite counter_total_Counter; apply emotion_loop_length|].
  split; [intros label; rewrite count_of_Counter; apply emotion_loop_occurrences|].
  split; [now apply max_key_first_most|].
  intros Hnone. apply Forall_forall. intros kv Hkv.
  apply Counter_keys, emotion_loop_In in Hkv as (c & _ & Ec).
  unfold emotion_of, transformers_emotion in Ec. rewrite Hnone in Ec.
  destruct (_ <? _); [discriminate|]. injection Ec as <-.
  apply rule_based_emotion_label.
Qed.

Lemma X7_emotion_report_witness :
  exists s,
    analyze_emotions heuristic_only love_hate = Ok (Fields s)
    /\ first_most (emotion_distribution s) (dominant_emotion s)
    /\ Forall (fun kv => In (fst kv) emotion_labels) (emotion_distribution s).
Proof.
  destruct (analyze_emotions_returns heuristic_only love_hate) as (d & E).
  destruct d as [msg|s]; [vm_compute in E; discriminate|].
  exists s. split; [exact E|].
  destruct (X7_emotion_report heuristic_only love_hate s E) as (_ & _ & Hm & Hl).
  split; [exact Hm | now apply Hl].
Defined.

Section ToxicityFacts.

Lemma listed_excerpts (comments : list pystr) (l : list example) :
  listed comments l -> Forall (fun e => length (comment e) <= 103) l.
Proof.
  intros [_ H]. eapply Forall_impl; [|exact H].
  intros e (c & _ & ->). apply excerpt_length.
Qed.

Lemma examples_firstn (comments : list pystr) (l : list example) :
  listed comments l -> examples_of comments (firstn 5 l).
Proof.
  intros H. apply (listed_firstn comments 5) in H.
  split; [apply firstn_le_length|]. split; [exact H | now apply (listed_excerpts comments)].
Qed.

Lemma lower_has_toxic_keyword (c : pystr) :
  has_toxic_keyword (lower c) <-> has_toxic_keyword c.
Proof. unfold has_toxic_keyword. now rewrite lower_lower. Qed.

End ToxicityFacts.

(** X8. The toxicity report of any list, the empty one included, is
    returned without an exception: total_comments is the length of the
    list, the two counts are at most that, the two percentages lie between
    0 and 100 (they are 0 for the empty list, and otherwise nearest to the
    share of the count), and the examples are at most 5 excerpts, of at
    most 103 characters, of comments of the list, each under the index of
    its comment and in the order of the comments. *)
Theorem X8_toxicity_report (comments : list pystr) :
  exists r,
    detect_toxicity comments = Ok r
    /\ toxicity_total_comments r = length comments
    /\ toxic_comments r <= length comments
    /\ spam_comments r <= length comments
    /\ is_percentage (toxic_percentage r)
    /\ is_percentage (spam_percentage r)
    /\ (comments = [] -> toxic_percentage r = 0%Z /\ spam_percentage r = 0%Z)
    /\ (comments <> [] ->
        nearest (toxic_percentage r) (10000 * Z.of_nat (toxic_comments r))
          (Z.of_nat (length comments))
        /\ nearest (spam_percentage r) (10000 * Z.of_nat (spam_comments r))
             (Z.of_nat (length comments)))
    /\ examples_of comments (toxic_examples r)
    /\ examples_of comments (spam_examples r).
Proof.
  destruct (detect_toxicity_report comments)
    as (r & E & Ht & Htox & Hspam & Etp & Esp & Hte & Hse).
  destruct (toxicity_loop_collected 0 comments) as [Hct Hcs].
  fold (toxic_list comments) in Hct. fold (spam_list comments) in Hcs.
  assert (Hlt : length (toxic_list comments) <= length comments) by apply Hct.
  assert (Hls : length (spam_list comments) <= length comments) by apply Hcs.
  destruct (guarded_percentage_spec _ _ Hlt) as (tp & Etp' & Htp & Htn & Ht0).
  destruct (guarded_percentage_spec _ _ Hls) as (sp & Esp' & Hsp & Hsn & Hs0).
  rewrite Etp in Etp'. injection Etp' as <-.
  rewrite Esp in Esp'. injection Esp' as <-.
  assert (Hpos : comments <> [] -> 0 < length comments).
  { destruct comments; [congruence | simpl; lia]. }
  exists r. rewrite Htox, Hspam, Hte, Hse.
  split; [exact E|]. split; [exact Ht|]. split; [exact Hlt|]. split; [exact Hls|].
  split; [exact Htp|]. split; [exact Hsp|]. split.
  - intros ->. split; [now apply Ht0 | now apply Hs0].
  - split; [intros Hne; split; [apply Htn | apply Hsn]; now apply Hpos|].
    split; apply examples_firstn, collected_listed; assumption.
Qed.

(** X9. A comment of the list has an entry in the list of toxic comments
    exactly when its lower-cased text has one of the toxic keywords as a
    substring; so a comment and its lower-casing are toxic together. *)
Theorem X9_toxic_criterion (comments : list pystr) (i : nat) (c : pystr) :
  nth_error comments i = Some c ->
  ((exists e, In e (toxic_list comments) /\ index e = i) <-> has_toxic_keyword c)
  /\ (has_toxic_keyword (lower c) <-> has_toxic_keyword c).
Proof.
  intros Hi. split; [|apply lower_has_toxic_keyword]. split.
  - intros (e & Hin & Hidx).
    apply toxicity_loop_toxic in Hin as (j & c' & Hj & He).
    change (0 + j) with j in He.
    destruct (toxic_entry_files _ _ _ He) as [Hidx' _].
    assert (Ej : j = i) by congruence. rewrite Ej in *.
    assert (c' = c) by congruence. subst c'.
    destruct (toxic_entry_spec i c) as [[H _]|[_ E]]; [exact H | congruence].
  - intros H. destruct (toxic_entry_spec i c) as [[_ E]|[Hn _]]; [|contradiction].
    exists {| index := i; comment := excerpt c;
              reason := str "Contains toxic keywords" |}.
    split; [|reflexivity].
    apply toxicity_loop_toxic. exists i, c. split; [exact Hi | exact E].
Qed.

Lemma X9_toxic_criterion_witness :
  (exists e, In e (toxic_list (map str ["nice"; "Oh HELLo there"]%string))
             /\ index e = 1)
  <-> has_toxic_keyword (str "Oh HELLo there").
Proof.
  apply (X9_toxic_criterion (map str ["nice"; "Oh HELLo there"]%string) 1).
  reflexivity.
Defined.

Section KeywordPrefix.

Lemma extract_keywords_firstn
  (self : CommentAnalyzer) (comments : list pystr) (n m : Z) :
  (n <= m)%Z ->
  extract_keywords self comments n
  = firstn (Z.to_nat n) (extract_keywords self comments m).
Proof.
  intros Hnm. unfold extract_keywords, most_common.
  rewrite <- firstn_map, <- firstn_map, firstn_firstn.
  now replace (Nat.min (Z.to_nat n) (Z.to_nat m)) with (Z.to_nat n) by lia.
Qed.

End KeywordPrefix.

(** X10. A shorter list of keywords is a prefix of a longer one: asking
    for [n] keywords gives the first [n] of the keywords asked for with a
    larger [top_n], and nothing for [n <= 0]. *)
Theorem X10_keywords_prefix
  (self : CommentAnalyzer) (comments : list pystr) (n m : Z) :
  (n <= m)%Z ->
  extract_keywords self comments n
  = firstn (Z.to_nat n) (extract_keywords self comments m)
  /\ ((n <= 0)%Z -> extract_keywords self comments n = []).
Proof.
  intros Hnm. split; [now apply extract_keywords_firstn|].
  intros Hn. unfold extract_keywords, most_common.
  now replace (Z.to_nat n) with 0 by lia.
Qed.

Lemma X10_keywords_prefix_witness :
  extract_keywords only_the cat_sat_ran 2
  = firstn 2 (extract_keywords only_the cat_sat_ran 30).
Proof.
  apply (X10_keywords_prefix only_the cat_sat_ran 2 30). lia.
Defined.

(** X11. With [str.split] as the tokenizer (no NLTK), every keyword is
    case-normalised: lower-casing leaves it as it is. *)
Theorem X11_keywords_lower_case
  (self : CommentAnalyzer) (comments : list pystr) (top_n : Z) (k : keyword) :
  word_tokenize self = None ->
  In k (extract_keywords self comments top_n) ->
  lower (word k) = word k.
Proof.
  intros Hsplit Hk.
  destruct (extract_keywords_spec self comments top_n) as (Hitem & _).
  destruct (Hitem k Hk) as (_ & Hin & _).
  apply lower_fixed.
  unfold all_tokens in Hin. apply in_flat_map in Hin as (c & _ & Hin).
  unfold tokenize in Hin. rewrite Hsplit in Hin.
  assert (H : Forall (Forall (fun c => char_lower c = c))
                (split (clean_text (lower c)))).
  { apply split_loop_Forall; [constructor|].
    apply clean_text_Forall; [reflexivity|].
    unfold lower. apply Forall_map, Forall_forall. intros x _.
    apply char_lower_lower. }
  rewrite Forall_forall in H. now apply H.
Qed.

Lemma X11_keywords_lower_case_witness :
  let comments := map str ["The CAT sat"; "the Cat ran"]%string in
  In {| word := str "cat"; count := 2 |} (extract_keywords heuristic_only comments 20)
  /\ lower (str "cat") = str "cat".
Proof.
  cbv zeta.
  assert (Hin : In {| word := str "cat"; count := 2 |}
                  (extract_keywords heuristic_only
                     (map str ["The CAT sat"; "the Cat ran"]%string) 20))
    by (vm_compute; now left).
  split; [exact Hin|].
  exact (X11_keywords_lower_case heuristic_only _ 20 _ eq_refl Hin).
Defined.

(** X12. In the pipeline the second cleaning inside the word cloud changes
    nothing: the comments it is given are cleaned already, and it renders
    them joined by spaces. *)
Theorem X12_pipeline_cleans_once (self : CommentAnalyzer) (comments : list pystr) :
  let cleaned := cleaned_comments comments in
  map clean_text cleaned = cleaned
  /\ generate_wordcloud self cleaned
     = match wordcloud_renderer self with
       | None => []
       | Some render =>
           let text := join (str " ") cleaned in
           if length (strip text) =? 0 then []
           else match render text with
                | Some img_str => str "data:image/png;base64," ++ img_str
                | None => []
                end
       end.
Proof.
  cbv zeta. pose proof (cleaned_comments_normal comments) as Hn.
  assert (H1 : map clean_text (cleaned_comments comments) = cleaned_comments comments)
    by now apply map_clean_text_normal.
  split; [exact H1|]. unfold generate_wordcloud. now rewrite H1.
Qed.

(** X13. The statistics of a pattern report are consistent: the median
    length lies between the shortest and the longest, so does the average
    length, and the three percentages lie between 0 and 100. *)
Theorem X13_pattern_ranges (comments : list pystr) (p : CommentPatterns) :
  analyze_comment_patterns comments = Ok (Fields p) ->
  shortest_comment p <= median_length p <= longest_comment p
  /\ (100 * Z.of_nat (shortest_comment p) <= average_length p
      <= 100 * Z.of_nat (longest_comment p))%Z
  /\ is_percentage (exclamation_percentage p)
  /\ is_percentage (question_percentage p)
  /\ is_percentage (mention_percentage p).
Proof.
  intros E.
  assert (Hne : comments <> []) by (intros ->; discriminate).
  destruct (analyze_comment_patterns_spec comments Hne) as (p' & E' & Hp).
  rewrite E in E'. injection E' as <-.
  destruct Hp as (_ & Havg & (Hmed & _) & (_ & Hmax) & (_ & Hmin) & Hex & Hqu & Hme).
  set (lengths := map (@length ascii) comments) in *.
  assert (Hpos : 0 < length comments) by (destruct comments; [congruence | simpl; lia]).
  assert (Hsum : shortest_comment p * length lengths <= sum lengths
                 /\ sum lengths <= longest_comment p * length lengths).
  { clear -Hmax Hmin. induction lengths as [|x l IH]; simpl; [lia|].
    inversion Hmax; inversion Hmin; subst. destruct IH; auto. nia. }
  assert (Hlen : length lengths = length comments) by apply length_map.
  rewrite Hlen in Hsum. rewrite Forall_forall in Hmax, Hmin.
  assert (Hshare : forall ch, count_if (has_char ch) comments <= length comments).
  { intros ch. unfold count_if. apply filter_length_le. }
  split; [split; [now apply Hmin | now apply Hmax]|].
  split; [unfold nearest in Havg; nia|].
  split; [|split];
    (eapply nearest_percentage; [apply Hshare | exact Hpos | eassumption]).
Qed.

Lemma X13_pattern_ranges_witness :
  exists p,
    analyze_comment_patterns love_hate = Ok (Fields p)
    /\ shortest_comment p <= median_length p <= longest_comment p
    /\ is_percentage (exclamation_percentage p).
Proof.
  destruct (analyze_comment_patterns_returns love_hate) as (d & E).
  destruct d as [msg|p]; [vm_compute in E; discriminate|].
  exists p. split; [exact E|].
  destruct (X13_pattern_ranges love_hate p E) as (Hm & _ & Hx & _).
  split; [exact Hm | exact Hx].
Defined.

Section Blank.

Lemma cleaned_comments_length (comments : list pystr) :
  length (cleaned_comments comments) = count_if nonblank comments.
Proof. unfold cleaned_comments, count_if. apply length_map. Qed.

Lemma cleaned_comments_skip (l1 l2 : list pystr) (b : pystr) :
  nonblank b = false ->
  cleaned_comments (l1 ++ b :: l2) = cleaned_comments (l1 ++ l2).
Proof.
  intros Hb. unfold cleaned_comments. rewrite !filter_app. simpl. now rewrite Hb.
Qed.

Lemma cleaned_comments_blank_firstn (n : nat) (comments : list pystr) :
  Forall (fun c => nonblank c = false) comments ->
  cleaned_comments (firstn n comments) = [].
Proof.
  intros H. apply cleaned_comments_nil.
  rewrite <- (firstn_skipn n comments) in H. now apply Forall_app in H.
Qed.

End Blank.

(** X14. The parts of a report count the same comments: the toxicity
    report and the pattern report both have the number of non-blank
    comments of the input as their total_comments, which is positive, and
    the total_comments of the sentiment report is at most that. *)
Theorem X14_report_totals
  (self : CommentAnalyzer) (comments : list pystr) (r : Analysis) :
  get_comprehensive_analysis self comments = Ok (Fields r) ->
  let n := count_if nonblank comments in
  0 < n
  /\ toxicity_total_comments (toxicity_analysis r) = n
  /\ (exists p, comment_patterns r = Fields p /\ patterns_total_comments p = n)
  /\ (forall s, sentiment_analysis r = Fields s -> sentiment_total_comments s <= n).
Proof.
  intros E. cbv zeta.
  apply get_comprehensive_analysis_report in E
    as (Hne & Esa & _ & Etox & _ & p & Ep & Hp).
  cbv zeta in *. rewrite <- cleaned_comments_length.
  set (cleaned := cleaned_comments comments) in *.
  split; [destruct cleaned; [congruence | simpl; lia]|]. split.
  - destruct (detect_toxicity_spec cleaned) as (t & Et & Htotal & _).
    rewrite Etox in Et. injection Et as <-. exact Htotal.
  - split; [exists p; split; [exact Ep | apply Hp]|].
    intros s Es. rewrite Es in Esa.
    apply analyze_sentiment_report in Esa as (_ & Ht & _). cbv zeta in Ht.
    destruct (sentiment_loop_lengths self cleaned) as [Hl _].
    rewrite Ht, Hl. unfold count_if. apply filter_length_le.
Qed.

Lemma X14_report_totals_witness :
  exists r p,
    get_comprehensive_analysis heuristic_only (map str ["ok"; "  "; "I love this!!"]%string)
    = Ok (Fields r)
    /\ toxicity_total_comments (toxicity_analysis r) = 2
    /\ comment_patterns r = Fields p /\ patterns_total_comments p = 2.
Proof.
  destruct (get_comprehensive_analysis_returns heuristic_only
              (map str ["ok"; "  "; "I love this!!"]%string)) as (d & E).
  destruct d as [msg|r]; [vm_compute in E; discriminate|].
  destruct (X14_report_totals heuristic_only _ r E) as (_ & Ht & (p & Ep & Hp) & _).
  exists r, p. repeat split; assumption.
Defined.

(** X15. A blank comment does not change the report: with another comment
    left in the list, the pipeline answers the same with and without it. *)
Theorem X15_blank_comment_ignored
  (self : CommentAnalyzer) (l1 l2 : list pystr) (b : pystr) :
  nonblank b = false ->
  l1 ++ l2 <> [] ->
  get_comprehensive_analysis self (l1 ++ b :: l2)
  = get_comprehensive_analysis self (l1 ++ l2).
Proof.
  intros Hb Hne. unfold get_comprehensive_analysis.
  rewrite (cleaned_comments_skip l1 l2 b Hb).
  destruct (l1 ++ l2) eqn:E12; [congruence|].
  destruct (l1 ++ b :: l2) eqn:E; [now destruct l1 | reflexivity].
Qed.

Lemma X15_blank_comment_ignored_witness :
  get_comprehensive_analysis heuristic_only
    (map str ["I love this!!"; " "; "I HATE THIS SO MUCH"]%string)
  = get_comprehensive_analysis heuristic_only love_hate.
Proof.
  apply (X15_blank_comment_ignored heuristic_only
           [str "I love this!!"] [str "I HATE THIS SO MUCH"] (str " "));
    [reflexivity | discriminate].
Defined.

Section Endpoints.
Variable self : CommentAnalyzer.

Lemma analyze_comments_spec (request : CommentRequest.t) :
  CommentRequest.comments request <> [] ->
  exists d,
    get_comprehensive_analysis self (firstn 1000 (CommentRequest.comments request))
    = Ok d
    /\ analyze_comments self request
       = Success
           {| analysis_result := d;
              metadata :=
                {| video_id := CommentRequest.video_id request;
                   video_title := CommentRequest.video_title request;
                   total_comments_received :=
                     length (CommentRequest.comments request);
                   comments_analyzed :=
                     Nat.min 1000 (length (CommentRequest.comments request));
                   analysis_version := str "1.0.0" |} |}.
Proof.
  intros Hne. unfold analyze_comments.
  destruct (CommentRequest.comments request) as [|c0 cs] eqn:Ec; [congruence|].
  rewrite <- Ec in *. clear Ec c0 cs. cbv zeta.
  set (comments := CommentRequest.comments request) in *.
  assert (Hsel : (if 1000 <? length comments then firstn 1000 comments else comments)
                 = firstn 1000 comments).
  { destruct (Nat.ltb_spec 1000 (length comments)); [reflexivity|].
    symmetry. now apply firstn_all2. }
  rewrite Hsel.
  destruct (get_comprehensive_analysis_returns self (firstn 1000 comments)) as (d & E).
  exists d. split; [exact E|]. rewrite E. now rewrite length_firstn.
Qed.

End Endpoints.

(** X16. A request with comments always gets a successful response from
    [/analyze]: its data are what the pipeline answers on the first 1000
    comments (an error dictionary included), with the metadata of the
    request: the number of comments received and the number analysed, which
    is the smaller of that number and 1000. *)
Theorem X16_analyze_comments (self : CommentAnalyzer) (request : CommentRequest.t) :
  CommentRequest.comments request <> [] ->
  exists d,
    get_comprehensive_analysis self (firstn 1000 (CommentRequest.comments request))
    = Ok d
    /\ analyze_comments self request
       = Success
           {| analysis_result := d;
              metadata :=
                {| video_id := CommentRequest.video_id request;
                   video_title := CommentRequest.video_title request;
                   total_comments_received :=
                     length (CommentRequest.comments request);
                   comments_analyzed :=
                     Nat.min 1000 (length (CommentRequest.comments request));
                   analysis_version := str "1.0.0" |} |}.
Proof. apply analyze_comments_spec. Qed.

Lemma X16_analyze_comments_witness :
  exists d,
    analyze_comments heuristic_only love_hate_request
    = Success
        {| analysis_result := d;
           metadata :=
             {| video_id := str "abc123"; video_title := str "A video";
                total_comments_received := 2; comments_analyzed := 2;
                analysis_version := str "1.0.0" |} |}.
Proof.
  destruct (X16_analyze_comments heuristic_only love_hate_request) as (d & _ & E);
    [discriminate|].
  exists d. exact E.
Defined.

(** X17. The other endpoints answer with parts of what [/analyze] answers:
    when the full analysis of a request is a report, the toxicity endpoint
    returns the toxicity part of it and the keyword endpoint a list whose
    first 20 keywords are the keywords of the report, for a request of at
    most 1000 comments; the sentiment endpoint returns the sentiment part
    for a request of at most 500. *)
Theorem X17_endpoints_agree
  (self : CommentAnalyzer) (request : CommentRequest.t)
  (data : AnalysisData) (r : Analysis) :
  analyze_comments self request = Success data ->
  analysis_result data = Fields r ->
  let comments := CommentRequest.comments request in
  (length comments <= 1000 ->
   analyze_toxicity_only comments = Success (toxicity_analysis r)
   /\ exists ks, extract_keywords_only self comments = Success ks
                 /\ keywords r = firstn 20 ks)
  /\ (length comments <= 500 ->
      analyze_sentiment_only self comments = Success (sentiment_analysis r)).
Proof.
  intros E Er. cbv zeta.
  set (comments := CommentRequest.comments request) in *.
  assert (Hne : comments <> []).
  { intros E0. unfold analyze_comments in E. fold comments in E.
    rewrite E0 in E. discriminate. }
  destruct (analyze_comments_spec self request Hne) as (d & Ed & Eresp).
  fold comments in Ed, Eresp. rewrite E in Eresp. injection Eresp as ->.
  cbn [analysis_result] in Er. subst d.
  assert (Hfull : length comments <= 1000 ->
            get_comprehensive_analysis self comments = Ok (Fields r)).
  { intros Hl. now rewrite firstn_all2 in Ed. }
  split.
  - intros Hl. apply Hfull in Hl.
    apply get_comprehensive_analysis_report in Hl as (Hcl & _ & _ & Etox & Ekw & _).
    cbv zeta in *. unfold analyze_toxicity_only, extract_keywords_only.
    destruct comments as [|c0 cs]; [congruence|].
    destruct (cleaned_comments (c0 :: cs)) as [|c' cl] eqn:Ecl; [congruence|].
    rewrite Etox. split; [reflexivity|].
    eexists. split; [reflexivity|]. rewrite Ekw.
    apply (extract_keywords_firstn self (c' :: cl) 20 30). lia.
  - intros Hl.
    assert (Hl' : length comments <= 1000) by lia.
    apply Hfull in Hl'.
    apply get_comprehensive_analysis_report in Hl' as (Hcl & Esa & _).
    cbv zeta in *. unfold analyze_sentiment_only.
    rewrite (firstn_all2 comments) by lia.
    destruct comments as [|c0 cs]; [congruence|].
    destruct (cleaned_comments (c0 :: cs)) as [|c' cl] eqn:Ecl; [congruence|].
    now rewrite Esa.
Qed.

Lemma X17_endpoints_agree_witness :
  exists r,
    analyze_toxicity_only love_hate = Success (toxicity_analysis r)
    /\ analyze_sentiment_only heuristic_only love_hate = Success (sentiment_analysis r).
Proof.
  destruct (analyze_comments_spec heuristic_only love_hate_request) as (d & Ed & Er);
    [discriminate|].
  destruct d as [msg|r]; [vm_compute in Ed; discriminate|].
  exists r.
  destruct (X17_endpoints_agree heuristic_only love_hate_request _ r Er eq_refl)
    as [H1000 H500].
  split.
  - apply H1000. simpl. lia.
  - apply H500. simpl. lia.
Defined.

(** X18. A request whose comments are all blank is answered differently by
    the endpoints: [/analyze] reports success, with the error dictionary
    "No valid comments after cleaning" as its data, where the sentiment,
    toxicity and keyword endpoints report a failure, with that message as
    the detail of a 400. *)
Theorem X18_blank_request (self : CommentAnalyzer) (request : CommentRequest.t) :
  CommentRequest.comments request <> [] ->
  Forall (fun c => nonblank c = false) (CommentRequest.comments request) ->
  let comments := CommentRequest.comments request in
  let no_valid := HTTPException 400 (str "No valid comments after cleaning") in
  (exists m, analyze_comments self request
             = Success {| analysis_result :=
                            Error (str "No valid comments after cleaning");
                          metadata := m |})
  /\ analyze_sentiment_only self comments
     = Failure (str "Sentiment analysis failed: ") no_valid
  /\ analyze_toxicity_only comments
     = Failure (str "Toxicity analysis failed: ") no_valid
  /\ extract_keywords_only self comments
     = Failure (str "Keyword extraction failed: ") no_valid.
Proof.
  intros Hne Hblank. cbv zeta.
  set (comments := CommentRequest.comments request) in *.
  pose proof (cleaned_comments_blank_firstn 1000 comments Hblank) as H1000.
  pose proof (cleaned_comments_blank_firstn 500 comments Hblank) as H500.
  pose proof (proj2 (cleaned_comments_nil comments) Hblank) as Hall.
  split.
  - destruct (analyze_comments_spec self request Hne) as (d & Ed & Er).
    fold comments in Ed. unfold get_comprehensive_analysis in Ed.
    rewrite H1000 in Ed.
    destruct (firstn 1000 comments) eqn:Ef.
    + destruct comments; [congruence | discriminate].
    + injection Ed as <-. eexists. exact Er.
  - unfold analyze_sentiment_only, analyze_toxicity_only, extract_keywords_only.
    rewrite H500, Hall. destruct comments; [congruence|]. now repeat split.
Qed.

Lemma X18_blank_request_witness :
  (exists m, analyze_comments heuristic_only blank_request
             = Success {| analysis_result :=
                            Error (str "No valid comments after cleaning");
                          metadata := m |})
  /\ analyze_sentiment_only heuristic_only (map str ["   "; ""]%string)
     = Failure (str "Sentiment analysis failed: ")
         (HTTPException 400 (str "No valid comments after cleaning")).
Proof.
  destruct (X18_blank_request heuristic_only blank_request) as (H1 & H2 & _).
  - discriminate.
  - repeat constructor.
  - split; [exact H1 | exact H2].
Defined.

(** X19. The sentiment endpoint reads the first 500 comments only: two
    requests with comments that agree on them get the same response. *)
Theorem X19_sentiment_endpoint_reads_500
  (self : CommentAnalyzer) (comments1 comments2 : list pystr) :
  comments1 <> [] -> comments2 <> [] ->
  firstn 500 comments1 = firstn 500 comments2 ->
  analyze_sentiment_only self comments1 = analyze_sentiment_only self comments2.
Proof.
  intros H1 H2 E. unfold analyze_sentiment_only. rewrite E.
  destruct comments1; [congruence|]. destruct comments2; [congruence | reflexivity].
Qed.

Lemma X19_sentiment_endpoint_reads_500_witness :
  analyze_sentiment_only heuristic_only (repeat (str "I love this") 500 ++ [str "I hate this"])
  = analyze_sentiment_only heuristic_only (repeat (str "I love this") 500).
Proof.
  apply X19_sentiment_endpoint_reads_500; try discriminate.
  vm_compute. reflexivity.
Defined.

Section Shares.

Lemma counter_total_ge (m : counter) (kv : pystr * nat) :
  In kv m -> snd kv <= counter_total m.
Proof.
  induction m as [|x m IH]; simpl; [intros []|].
  intros [->|H]; [lia | apply IH in H; lia].
Qed.

Lemma percentages_shares (l : list pystr) (pcts : list (pystr * Z)) :
  l <> [] ->
  percentages (Counter l) (length l) = Ok pcts ->
  shares_of (Counter l) pcts.
Proof.
  intros Hl E.
  assert (Ht : length l <> 0) by (now rewrite length_zero_iff_nil).
  destruct (percentages_spec (Counter l) (length l) Ht) as (pcts' & E' & HF).
  rewrite E in E'. injection E' as <-.
  unfold shares_of. rewrite counter_total_Counter.
  assert (Hbound : Forall (fun kv => snd kv <= length l) (Counter l)).
  { apply Forall_forall. intros kv Hkv. rewrite <- counter_total_Counter.
    now apply counter_total_ge. }
  assert (Hpos : 0 < length l) by lia.
  generalize dependent (Counter l). intros m _ HF Hb.
  induction HF as [|kv pv m ps [Hk Hn] HF IH]; constructor.
  - inversion Hb; subst. split; [exact Hk|]. split; [|exact Hn].
    now apply (nearest_percentage _ (snd kv) (length l)).
  - apply IH. now inversion Hb.
Qed.

End Shares.

(** X20. No pass raises an exception, on any list and with any backends.
    The sentiment and emotion passes answer with an error dictionary
    exactly when no comment has 3 characters or more once trimmed:
    "No comments provided" for the empty list and "No valid comments to
    analyze" otherwise; the pattern analyzer answers with an error
    dictionary exactly for the empty list. *)
Theorem X20_passes_never_raise (self : CommentAnalyzer) (comments : list pystr) :
  (exists d, analyze_sentiment self comments = Ok d
             /\ match d with
                | Error msg =>
                    count_if long_enough comments = 0
                    /\ msg = match comments with
                             | [] => str "No comments provided"
                             | _ => str "No valid comments to analyze"
                             end
                | Fields _ => 0 < count_if long_enough comments
                end)
  /\ (exists d, analyze_emotions self comments = Ok d
                /\ match d with
                   | Error msg =>
                       count_if long_enough comments = 0
                       /\ msg = match comments with
                                | [] => str "No comments provided"
                                | _ => str "No valid comments to analyze"
                                end
                   | Fields _ => 0 < count_if long_enough comments
                   end)
  /\ (exists d, analyze_comment_patterns comments = Ok d
                /\ match d with
                   | Error msg => comments = [] /\ msg = str "No comments to analyze"
                   | Fields _ => comments <> []
                   end)
  /\ returns (detect_toxicity comments)
  /\ returns (get_comprehensive_analysis self comments).
Proof.
  split; [|split; [|split; [|split]]].
  - destruct comments as [|c comments]; [eexists; split; [reflexivity | now split]|].
    pose proof (analyze_sentiment_spec self (c :: comments) ltac:(congruence)) as H.
    destruct (sentiment_loop_lengths self (c :: comments)) as [Hl _].
    cbv zeta in H. destruct (fst (sentiment_loop self (c :: comments))) as [|l ls].
    + eexists. split; [exact H|]. simpl in Hl. now split.
    + destruct H as (s & E & _). exists (Fields s). split; [exact E|].
      simpl in Hl. lia.
  - destruct comments as [|c comments]; [eexists; split; [reflexivity | now split]|].
    pose proof (analyze_emotions_spec self (c :: comments) ltac:(congruence)) as H.
    pose proof (emotion_loop_length self (c :: comments)) as Hl.
    cbv zeta in H. destruct (emotion_loop self (c :: comments)) as [|l ls].
    + eexists. split; [exact H|]. simpl in Hl. now split.
    + destruct H as (s & E & _). exists (Fields s). split; [exact E|].
      simpl in Hl. lia.
  - destruct comments as [|c comments]; [eexists; split; [reflexivity | now split]|].
    destruct (analyze_comment_patterns_spec (c :: comments)) as (p & E & _);
      [congruence|].
    exists (Fields p). split; [exact E | congruence].
  - apply detect_toxicity_returns.
  - apply get_comprehensive_analysis_returns.
Qed.

(** X21. The percentages of a sentiment report and of an emotion report go
    with the distribution: they have the same labels, in the same order,
    and the percentage of a label lies between 0 and 100 and is nearest to
    the share of the count of the label in the total of the counts. *)
Theorem X21_percentages_are_shares (self : CommentAnalyzer) (comments : list pystr) :
  (forall s, analyze_sentiment self comments = Ok (Fields s) ->
     shares_of (sentiment_distribution s) (sentiment_percentages s))
  /\ (forall s, analyze_emotions self comments = Ok (Fields s) ->
        shares_of (emotion_distribution s) (emotion_percentages s)).
Proof.
  split; intros s E.
  - apply analyze_sentiment_fields in E as (Hne & Hd & Hp).
    rewrite Hd. now apply percentages_shares.
  - apply analyze_emotions_fields in E as (Hne & Hd & Hp).
    rewrite Hd. now apply percentages_shares.
Qed.

Lemma X21_percentages_are_shares_witness :
  exists s,
    analyze_sentiment heuristic_only love_hate = Ok (Fields s)
    /\ shares_of (sentiment_distribution s) (sentiment_percentages s).
Proof.
  destruct (analyze_sentiment_returns heuristic_only love_hate) as (d & E).
  destruct d as [msg|s]; [vm_compute in E; discriminate|].
  exists s. split; [exact E|].
  now apply (proj1 (X21_percentages_are_shares heuristic_only love_hate)).
Defined.
